(** * monthly_audit_report: a shallow embedding of the crawl-and-reconcile
      pipeline (timeutil.py, orgs.py, opengov.py, summarize.py, state.py,
      main.py) and the properties its specification states about it. *)

From Stdlib Require Import ZArith NArith Lia List Ascii String Bool.
From Stdlib Require Import DecimalString DecimalZ DecimalPos.
From stdpp Require Import base gmap list sorting.

Local Open Scope Z_scope.
Set Warnings "-clear-no-such-hyp".

(** ** The Python values the program manipulates *)

Module Py.

(** A Python [str] is a sequence of Unicode code points. *)
Definition pystr := list N.

(** Source literals are written as UTF-8 text and decoded to code points. *)
Fixpoint utf8_go (bs : list N) (acc : N) (k : nat) : pystr :=
  match bs with
  | [] => []
  | b :: bs' =>
      match k with
      | O =>
          if (b <? 128)%N then b :: utf8_go bs' 0%N O
          else if (b <? 224)%N then utf8_go bs' (b - 192)%N 1%nat
          else if (b <? 240)%N then utf8_go bs' (b - 224)%N 2%nat
          else utf8_go bs' (b - 240)%N 3%nat
      | S O => (acc * 64 + (b - 128))%N :: utf8_go bs' 0%N O
      | S k' => utf8_go bs' (acc * 64 + (b - 128))%N k'
      end
  end.

Definition bytes_of_string (s : string) : list N :=
  List.map N_of_ascii (list_ascii_of_string s).

Definition u (s : string) : pystr := utf8_go (bytes_of_string s) 0%N O.

(** Exceptions: the class and the message [str(e)] shows. *)
Inductive exn_class :=
| ValueError | OverflowError | TypeError | KeyError | IndexError
| AttributeError | RequestException.

Record exn := Exn { exn_cls : exn_class; exn_msg : pystr }.

(** A call either returns or raises. Every class above derives from
    [Exception], so [except Exception] catches each of them. *)
Inductive result (A : Type) :=
| Ok (a : A)
| Raise (e : exn).
Arguments Ok {A} a.
Arguments Raise {A} e.

Definition bind {A B} (r : result A) (k : A -> result B) : result B :=
  match r with
  | Ok a => k a
  | Raise e => Raise e
  end.

Definition try_except {A} (r : result A) (handler : exn -> result A) : result A :=
  match r with
  | Ok a => Ok a
  | Raise e => handler e
  end.

Definition is_ok {A} (r : result A) : bool :=
  match r with Ok _ => true | Raise _ => false end.

(** [for x in xs: acc = f(acc, x)], stopping at the first exception. *)
Fixpoint for_each {A S} (f : S -> A -> result S) (xs : list A) (s : S) : result S :=
  match xs with
  | [] => Ok s
  | x :: xs' => bind (f s x) (for_each f xs')
  end.

(** [range(a, b)] *)
Definition range (a b : Z) : list Z :=
  List.map (fun i => a + Z.of_nat i) (seq 0 (Z.to_nat (b - a))).

(** *** Character classes of the [re] module on [str] patterns *)

(** Code points of the digit zero of every Unicode decimal-digit block
    (Unicode 14, as shipped with CPython 3.11); each block holds the ten
    digits in order, so [\d] and [int()] read a digit as its offset. *)
Definition decimal_zeros : list N :=
  [48; 1632; 1776; 1984; 2406; 2534; 2662; 2790; 2918; 3046; 3174; 3302;
   3430; 3558; 3664; 3792; 3872; 4160; 4240; 6112; 6160; 6470; 6608; 6784;
   6800; 6992; 7088; 7232; 7248; 42528; 43216; 43264; 43472; 43504; 43600;
   44016; 65296; 66720; 68912; 69734; 69872; 69942; 70096; 70384; 70736;
   70864; 71248; 71360; 71472; 71904; 72016; 72784; 73040; 73120; 92768;
   92864; 93008; 120782; 120792; 120802; 120812; 120822; 123200; 123632;
   125264; 130032]%N.

Definition decimal_of (c : N) : option N :=
  match List.find (fun z => (z <=? c)%N && (c <? z + 10)%N) decimal_zeros with
  | Some z => Some (c - z)%N
  | None => None
  end.

(** [\d] *)
Definition isdecimal (c : N) : bool :=
  match decimal_of c with Some _ => true | None => false end.

(** [\s], which is [str.isspace] *)
Definition isspace (c : N) : bool :=
  ((9 <=? c) && (c <=? 13) || (28 <=? c) && (c <=? 32) || (c =? 133)
   || (c =? 160) || (c =? 5760) || (8192 <=? c) && (c <=? 8202)
   || (c =? 8232) || (c =? 8233) || (c =? 8239) || (c =? 8287)
   || (c =? 12288))%N.

(** [int(s)] on a non-empty run of decimal digits *)
Definition int_of_digits (s : pystr) : Z :=
  fold_left (fun acc c => 10 * acc + Z.of_N (default 0%N (decimal_of c))) s 0.

(** [str(n)] for an [int] *)
Definition str_of_int (n : Z) : pystr :=
  bytes_of_string (DecimalString.NilZero.string_of_int (Z.to_int n)).

(** ASCII lower-casing; [str.lower] agrees with it on ASCII text. *)
Definition ascii_lower_char (c : N) : N :=
  if ((65 <=? c) && (c <=? 90))%N then (c + 32)%N else c.
Definition ascii_lower (s : pystr) : pystr := List.map ascii_lower_char s.

(** [re.search]: the match at the leftmost position where one exists. *)
Fixpoint re_search {A} (match_here : pystr -> option A) (s : pystr) : option A :=
  match match_here s with
  | Some r => Some r
  | None =>
      match s with
      | [] => None
      | _ :: t => re_search match_here t
      end
  end.

(** Greedy [\s*] *)
Fixpoint skip_spaces (s : pystr) : pystr :=
  match s with
  | c :: t => if isspace c then skip_spaces t else s
  | [] => []
  end.

(** [s.strip()] *)
Definition strip (s : pystr) : pystr :=
  rev (skip_spaces (rev (skip_spaces s))).

(** The longest prefix made of characters in the class [p] *)
Fixpoint take_while (p : N -> bool) (s : pystr) : pystr :=
  match s with
  | c :: t => if p c then c :: take_while p t else []
  | [] => []
  end.

Fixpoint starts_with (p s : pystr) : bool :=
  match p, s with
  | [], _ => true
  | a :: p', b :: s' => (a =? b)%N && starts_with p' s'
  | _ :: _, [] => false
  end.

(** [p in s] *)
Fixpoint contains (p s : pystr) : bool :=
  starts_with p s ||
  match s with
  | [] => false
  | _ :: t => contains p t
  end.

(** [s.endswith(p)] *)
Definition ends_with (p s : pystr) : bool :=
  starts_with (rev p) (rev s).

(** *** datetime.date *)

Record date := Date { year : Z; month : Z; day : Z }.

Definition is_leap (y : Z) : bool :=
  (y mod 4 =? 0) && (negb (y mod 100 =? 0) || (y mod 400 =? 0)).

Definition days_in_month (y m : Z) : Z :=
  if m =? 2 then (if is_leap y then 29 else 28)
  else if (m =? 4) || (m =? 6) || (m =? 9) || (m =? 11) then 30
  else 31.

Definition MAXYEAR : Z := 9999.

(** [date(y, m, d)] *)
Definition date_new (y m d : Z) : result date :=
  if negb ((1 <=? y) && (y <=? MAXYEAR)) then
    Raise (Exn ValueError (u "year " ++ str_of_int y ++ u " is out of range"))
  else if negb ((1 <=? m) && (m <=? 12)) then
    Raise (Exn ValueError (u "month must be in 1..12"))
  else if negb ((1 <=? d) && (d <=? days_in_month y m)) then
    Raise (Exn ValueError (u "day is out of range for month"))
  else Ok (Date y m d).

Definition days_before_year (y : Z) : Z :=
  let y' := y - 1 in y' * 365 + y' / 4 - y' / 100 + y' / 400.

Definition days_before_month (y m : Z) : Z :=
  fold_left (fun acc k => acc + days_in_month y k)
            (List.map Z.of_nat (seq 1 (Z.to_nat (m - 1)))) 0.

Definition toordinal (d : date) : Z :=
  days_before_year (year d) + days_before_month (year d) (month d) + day d.

Definition DI400Y : Z := 146097.
Definition DI100Y : Z := 36524.
Definition DI4Y : Z := 1461.
Definition MAXORDINAL : Z := 3652059.

(** [date.fromordinal], after CPython's [_ord2ymd]. *)
Definition fromordinal (n0 : Z) : date :=
  let n := n0 - 1 in
  let n400 := n / DI400Y in let n := n mod DI400Y in
  let y := n400 * 400 + 1 in
  let n100 := n / DI100Y in let n := n mod DI100Y in
  let n4 := n / DI4Y in let n := n mod DI4Y in
  let n1 := n / 365 in let n := n mod 365 in
  let y := y + n100 * 100 + n4 * 4 + n1 in
  if (n1 =? 4) || (n100 =? 4) then Date (y - 1) 12 31
  else
    let leapyear := (n1 =? 3) && (negb (n4 =? 24) || (n100 =? 3)) in
    let m := Z.shiftr (n + 50) 5 in
    let preceding :=
      days_before_month 1 m + (if (2 <? m) && leapyear then 1 else 0) in
    if n <? preceding then
      let m' := m - 1 in
      let preceding' :=
        preceding - (days_in_month 1 m' + (if (m' =? 2) && leapyear then 1 else 0)) in
      Date y m' (n - preceding' + 1)
    else Date y m (n - preceding + 1).

(** [d + timedelta(days=n)] *)
Definition date_add_days (d : date) (n : Z) : result date :=
  let o := toordinal d + n in
  if (1 <=? o) && (o <=? MAXORDINAL) then Ok (fromordinal o)
  else Raise (Exn OverflowError (u "date value out of range")).

(** [a <= b] and [a < b] compare (year, month, day) lexicographically. *)
Definition date_cmp (a b : date) : comparison :=
  match year a ?= year b with
  | Eq => match month a ?= month b with
          | Eq => day a ?= day b
          | c => c
          end
  | c => c
  end.

Definition date_le (a b : date) : bool :=
  match date_cmp a b with Gt => false | _ => true end.
Definition date_lt (a b : date) : bool :=
  match date_cmp a b with Lt => true | _ => false end.

(** *** Vocabulary of the statements about dates *)

(** [d] is a date the constructor accepts. *)
Definition valid_date (d : date) : bool :=
  (1 <=? year d) && (year d <=? MAXYEAR)
  && (1 <=? month d) && (month d <=? 12)
  && (1 <=? day d) && (day d <=? days_in_month (year d) (month d)).

(** The last lines of [_ord2ymd]: month and day from the zero-based day
    of the year [n] and the leap-year flag. *)
Definition month_day_of (n : Z) (leapyear : bool) : Z * Z :=
  let m := Z.shiftr (n + 50) 5 in
  let preceding :=
    days_before_month 1 m + (if (2 <? m) && leapyear then 1 else 0) in
  if n <? preceding then
    let m' := m - 1 in
    let preceding' :=
      preceding - (days_in_month 1 m' + (if (m' =? 2) && leapyear then 1 else 0)) in
    (m', n - preceding' + 1)
  else (m, n - preceding + 1).

End Py.

Import Py.

Notation "'let*' x ':=' c1 'in' c2" := (Py.bind c1 (fun x => c2))
  (at level 10, x name, c1 at level 100, c2 at level 200).

(** ** timeutil.py *)

Module timeutil.

Record YearMonth := mkYearMonth { ym_year : Z; ym_month : Z }.
Record YearQuarter := mkYearQuarter { yq_year : Z; yq_quarter : Z }.

(** [prev_month] reads [when.year] and [when.month] only. *)
Definition prev_month (when : date) : YearMonth :=
  let y := year when in
  let m := month when in
  if m =? 1 then mkYearMonth (y - 1) 12 else mkYearMonth y (m - 1).

Definition month_range (ym : YearMonth) : result (date * date) :=
  let* start := date_new (ym_year ym) (ym_month ym) 1 in
  let* end_ := (if ym_month ym =? 12 then date_new (ym_year ym + 1) 1 1
                else date_new (ym_year ym) (ym_month ym + 1) 1) in
  Ok (start, end_).

Definition quarter_end_date (y q : Z) : result date :=
  if q =? 1 then date_new y 3 31
  else if q =? 2 then date_new y 6 30
  else if q =? 3 then date_new y 9 30
  else if q =? 4 then date_new y 12 31
  else Raise (Exn ValueError (u "quarter must be 1..4")).

Definition quarter_deadline (y q buffer_days : Z) : result date :=
  let* e := quarter_end_date y q in
  date_add_days e buffer_days.

Definition report_quarters (today : date) : list YearQuarter :=
  let target_year := year today in
  let target_year := if month today <=? 2 then target_year - 1 else target_year in
  let count := 4 in
  List.map (fun q => mkYearQuarter target_year q) (range 1 (count + 1)).

Definition quarter_of_month (m : Z) : Z := (m - 1) / 3 + 1.

Definition yq_from_date (d : date) : YearQuarter :=
  mkYearQuarter (year d) (quarter_of_month (month d)).

(** The body of [for _ in range(n)] in [iter_last_n_quarters], with the
    loop variables [y] and [q]. *)
Fixpoint iter_quarters (n : nat) (y q : Z) : list YearQuarter :=
  match n with
  | O => []
  | S n' =>
      mkYearQuarter y q
      :: (let q := q - 1 in
          if q =? 0 then iter_quarters n' (y - 1) 4 else iter_quarters n' y q)
  end.

Definition iter_last_n_quarters (today : date) (n : Z) : list YearQuarter :=
  let yq := yq_from_date today in
  iter_quarters (Z.to_nat n) (yq_year yq) (yq_quarter yq).

End timeutil.

(** ** orgs.py *)

Module orgs.

(** [[0-9A-Za-z가-힣]]: the characters [norm_text] keeps. *)
Definition is_norm_char (c : N) : bool :=
  ((48 <=? c) && (c <=? 57) || (65 <=? c) && (c <=? 90)
   || (97 <=? c) && (c <=? 122) || (44032 <=? c) && (c <=? 55203))%N.

(** After the substitution only ASCII letters, ASCII digits and Hangul
    syllables are left, on which [str.lower] is ASCII lower-casing. *)
Definition norm_text (s : pystr) : pystr :=
  ascii_lower (List.filter is_norm_char s).

Record Org := mkOrg { name : pystr; norm : pystr }.

Fixpoint match_org (orgs : list Org) (text : pystr) : option pystr :=
  let t := norm_text text in
  match orgs with
  | [] => None
  | org :: rest =>
      if (4 <=? Z.of_nat (length (norm org))) && contains (norm org) t
      then Some (name org)
      else match_org rest text
  end.

(** *** Vocabulary of the statements about [match_org] *)

(** [org] passes the test of the loop in [match_org] on [text]. *)
Definition qualifies (org : Org) (text : pystr) : Prop :=
  (4 <= length (norm org))%nat
  /\ exists pre post, norm_text text = pre ++ norm org ++ post.

(** The sheet [pd.read_excel] returns, column by column: a cell is [None]
    where pandas holds NaN and otherwise its text under [astype(str)]. *)
Definition DataFrame : Type := list (pystr * list (option pystr)).

(** [df[name]] when [name in df.columns] *)
Definition column (df : DataFrame) (name_ : pystr) : option (list (option pystr)) :=
  match List.find (fun col => bool_decide (fst col = name_)) df with
  | Some (_, cells) => Some cells
  | None => None
  end.

(** [load_orgs_from_xlsx], from the sheet read at [xlsx_path]. *)
Definition load_orgs_from_xlsx (df : DataFrame) : result (list Org) :=
  match column df (u "orgs_nm") with
  | None =>
      Raise (Exn ValueError (u "managed_orgs.xlsx must have 'orgs_nm' column"))
  | Some cells =>
      let orgs :=
        flat_map
          (fun cell =>
             match cell with
             | None => []                      (* dropna() *)
             | Some v =>
                 match strip v with
                 | [] => []
                 | v' => [mkOrg v' (norm_text v')]
                 end
             end)
          cells in
      match orgs with
      | [] => Raise (Exn ValueError (u "No orgs found in orgs_nm column"))
      | _ => Ok orgs
      end
  end.

End orgs.

(** ** opengov.py: extraction of facts from text *)

Module opengov_text.

Definition ch_nyeon : N := 45380.  (* 년 *)
Definition s_bungi : pystr := [48516; 44592]%N.  (* 분기 *)

(** [[1-4]\s*분기] at the head of [s] *)
Definition quarter_here (s : pystr) : option N :=
  match s with
  | c :: t =>
      if ((49 <=? c) && (c <=? 52))%N && starts_with s_bungi (skip_spaces t)
      then Some c else None
  | [] => None
  end.

(** [.*?([1-4])\s*분기]: the lazy star tries the quarter at the current
    position first and otherwise consumes one character that is not a
    newline. *)
Fixpoint lazy_quarter (s : pystr) : option N :=
  match quarter_here s with
  | Some c => Some c
  | None =>
      match s with
      | c :: t => if (c =? 10)%N then None else lazy_quarter t
      | [] => None
      end
  end.

(** [_Q_RE] anchored at the head of [s]: groups 1 and 2. *)
Definition q_re_here (s : pystr) : option (pystr * pystr) :=
  match s with
  | y1 :: y2 :: y3 :: y4 :: t =>
      if forallb isdecimal [y1; y2; y3; y4] then
        match skip_spaces t with
        | c :: t' =>
            if (c =? ch_nyeon)%N then
              match lazy_quarter t' with
              | Some q => Some ([y1; y2; y3; y4], [q])
              | None => None
              end
            else None
        | [] => None
        end
      else None
  | _ => None
  end.

Definition extract_year_quarter (text : pystr) : option Z * option Z :=
  match re_search q_re_here text with
  | None => (None, None)
  | Some (g1, g2) => (Some (int_of_digits g1), Some (int_of_digits g2))
  end.

Definition is_date_sep (c : N) : bool :=
  ((c =? 46) || (c =? 45) || (c =? 47))%N.  (* . - / *)

(** [(\d{1,2})[.\-/]]: two digits are tried before one. *)
Definition month_sep_here (s : pystr) : option (pystr * pystr) :=
  match s with
  | m1 :: m2 :: t =>
      if isdecimal m1 && isdecimal m2 then
        match t with
        | c :: t' => if is_date_sep c then Some ([m1; m2], t') else None
        | [] => None
        end
      else if isdecimal m1 && is_date_sep m2 then Some ([m1], t)
      else None
  | _ => None
  end.

(** Greedy [(\d{1,2})] *)
Definition day_here (s : pystr) : option pystr :=
  match s with
  | d1 :: d2 :: _ =>
      if isdecimal d1 then Some (if isdecimal d2 then [d1; d2] else [d1])
      else None
  | [d1] => if isdecimal d1 then Some [d1] else None
  | [] => None
  end.

(** [(\d{4})[.\-/](\d{1,2})[.\-/](\d{1,2})] anchored at the head of [s] *)
Definition date_re_here (s : pystr) : option (pystr * pystr * pystr) :=
  match s with
  | y1 :: y2 :: y3 :: y4 :: c :: t =>
      if forallb isdecimal [y1; y2; y3; y4] && is_date_sep c then
        match month_sep_here t with
        | Some (mo, t') =>
            match day_here t' with
            | Some d => Some ([y1; y2; y3; y4], mo, d)
            | None => None
            end
        | None => None
        end
      else None
  | _ => None
  end.

Definition parse_date_loose (s : pystr) : result (option date) :=
  match re_search date_re_here s with
  | None => Ok None
  | Some (g1, g2, g3) =>
      let y := int_of_digits g1 in
      let mo := int_of_digits g2 in
      let d := int_of_digits g3 in
      try_except
        (let* dt := date_new y mo d in Ok (Some dt))
        (fun _ => Ok None)
  end.

(** *** Vocabulary of the statements about [parse_date_loose] *)

(** At the head of [suf]: four digits [g1], a separator, one or two digits
    [g2], a separator (any of the three), one or two digits [g3]. *)
Definition loose_date_at (suf g1 g2 g3 : pystr) : Prop :=
  exists c1 c2 rest,
    suf = g1 ++ c1 :: g2 ++ c2 :: g3 ++ rest
    /\ length g1 = 4%nat
    /\ (length g2 = 1%nat \/ length g2 = 2%nat)
    /\ (length g3 = 1%nat \/ length g3 = 2%nat)
    /\ forallb isdecimal (g1 ++ g2 ++ g3) = true
    /\ is_date_sep c1 = true /\ is_date_sep c2 = true.

(** The occurrence [re.search] settles on: [s] is [pre], then four digits
    [g1], a separator, the month digits [g2], a separator and the day digits
    [g3], where the day takes a second digit whenever one follows, and no
    occurrence starts further left than [pre]. *)
Definition leftmost_date (s pre g1 g2 g3 : pystr) : Prop :=
  exists c1 c2 rest,
    s = pre ++ g1 ++ c1 :: g2 ++ c2 :: g3 ++ rest
    /\ length g1 = 4%nat
    /\ (length g2 = 1%nat \/ length g2 = 2%nat)
    /\ (length g3 = 1%nat \/ length g3 = 2%nat)
    /\ forallb isdecimal (g1 ++ g2 ++ g3) = true
    /\ is_date_sep c1 = true /\ is_date_sep c2 = true
    /\ (length g3 = 1%nat ->
        match rest with c :: _ => isdecimal c = false | [] => True end)
    /\ forall pre' suf' h1 h2 h3,
         s = pre' ++ suf' -> (length pre' < length pre)%nat ->
         ~ loose_date_at suf' h1 h2 h3.

(** The stricter reading that asks for the same separator twice, and for
    a valid calendar date, at the head of [s]. *)
Definition same_sep_date_here (s : pystr) : bool :=
  match s with
  | y1 :: y2 :: y3 :: y4 :: c :: t =>
      forallb isdecimal [y1; y2; y3; y4] && is_date_sep c
      && existsb
           (fun lens : nat * nat =>
              let g2 := take (fst lens) t in
              match drop (fst lens) t with
              | c2 :: t' =>
                  let g3 := take (snd lens) t' in
                  (c2 =? c)%N
                  && (length g2 =? fst lens)%nat && (length g3 =? snd lens)%nat
                  && forallb isdecimal (g2 ++ g3)
                  && is_ok (date_new (int_of_digits [y1; y2; y3; y4])
                                     (int_of_digits g2) (int_of_digits g3))
              | [] => false
              end)
           [(1, 1); (1, 2); (2, 1); (2, 2)]%nat
  | _ => false
  end.

(** ... anywhere in [s]. *)
Fixpoint same_sep_date_in (s : pystr) : bool :=
  same_sep_date_here s
  || match s with
     | [] => false
     | _ :: t => same_sep_date_in t
     end.

Record DocItem := mkDocItem {
  nid : pystr;
  title : pystr;
  pub_date : option date;
  url : pystr
}.

Record Attachment := mkAttachment {
  att_nid : pystr;
  filename : pystr;
  att_url : pystr
}.

End opengov_text.

Import opengov_text.

(** ** main.py: quarter status reconciliation *)

Module reconcile.
Import timeutil orgs.

(** The four status strings. *)
Inductive Status := OK | LATE | PENDING | MISSING.

Global Instance Status_eq_dec : EqDecision Status.
Proof. solve_decision. Defined.

(** Keys of both dictionaries: (organization name, year, quarter). *)
Definition Key : Type := pystr * Z * Z.

(** Lines 44-57: what one document contributes, [None] when the loop
    body reaches a [continue]. *)
Definition observe (orgs : list Org) (buffer_days : Z) (d : DocItem)
  : result (option (Key * Status)) :=
  match match_org orgs (title d) with
  | None => Ok None
  | Some [] => Ok None   (* [not org] also holds for the empty name *)
  | Some org =>
      match extract_year_quarter (title d) with
      | (Some y, Some q) =>
          let* deadline := quarter_deadline y q buffer_days in
          let st :=
            match pub_date d with
            | None => OK
            | Some p => if date_le p deadline then OK else LATE
            end in
          Ok (Some ((org, y, q), st))
      | _ => Ok None
      end
  end.

(** Lines 59-63 *)
Definition merge (found : gmap Key Status) (key : Key) (st : Status)
  : gmap Key Status :=
  match found !! key with
  | None => <[key := st]> found
  | Some old =>
      if bool_decide (old <> OK) && bool_decide (st = OK)
      then <[key := OK]> found
      else found
  end.

(** Body of the loop over [docs] *)
Definition scan_doc (orgs : list Org) (buffer_days : Z)
           (found : gmap Key Status) (d : DocItem) : result (gmap Key Status) :=
  let* o := observe orgs buffer_days d in
  match o with
  | None => Ok found
  | Some (key, st) => Ok (merge found key st)
  end.

(** Body of the inner loop over [quarters] *)
Definition fill_quarter (today : date) (buffer_days : Z)
           (found : gmap Key Status) (org : Org)
           (result_ : gmap Key Status) (yq : YearQuarter)
  : result (gmap Key Status) :=
  let key : Key := (name org, yq_year yq, yq_quarter yq) in
  match found !! key with
  | Some st => Ok (<[key := st]> result_)
  | None =>
      let* dl := quarter_deadline (yq_year yq) (yq_quarter yq) buffer_days in
      Ok (<[key := if date_le today dl then PENDING else MISSING]> result_)
  end.

Definition compute_quarter_status (orgs : list Org) (docs : list DocItem)
           (today : date) (buffer_days lookback_count : Z)
  : result (gmap Key Status) :=
  let* found := for_each (scan_doc orgs buffer_days) docs ∅ in
  let quarters := report_quarters today in
  for_each
    (fun result_ org =>
       for_each (fill_quarter today buffer_days found org) quarters result_)
    orgs ∅.

Definition is_doc_in_month (d : DocItem) (start end_ : date) : bool :=
  match pub_date d with
  | None => false
  | Some p => date_le start p && date_lt p end_
  end.

(** Line 113 *)
Definition month_docs (docs : list DocItem) (start end_ : date) : list DocItem :=
  List.filter (fun d => is_doc_in_month d start end_) docs.

(** *** Vocabulary of the statements about the reconciliation *)

(** Some document of [docs] contributes status [st] to [key]. *)
Definition observed (orgs_ : list Org) (buffer_days : Z)
           (docs : list DocItem) (key : Key) (st : Status) : Prop :=
  exists d, In d docs /\ observe orgs_ buffer_days d = Ok (Some (key, st)).

(** Line 71 *)
Definition key_of (org : Org) (yq : YearQuarter) : Key :=
  (name org, yq_year yq, yq_quarter yq).

(** The keys the second loop writes: organization by reporting quarter. *)
Definition report_keys (orgs_ : list Org) (today : date) : list Key :=
  flat_map (fun org => List.map (key_of org) (report_quarters today)) orgs_.

(** Lines 75-76: the status of a pair no document covers. *)
Definition gap_status (today : date) (buffer_days : Z) (k : Key)
  : result Status :=
  let* dl := quarter_deadline (snd (fst k)) (snd k) buffer_days in
  Ok (if date_le today dl then PENDING else MISSING).

(** What the second loop stores under [k], given the merged table. *)
Definition final_status (found : gmap Key Status) (today : date)
           (buffer_days : Z) (k : Key) (st : Status) : Prop :=
  found !! k = Some st
  \/ (found !! k = None /\ gap_status today buffer_days k = Ok st).

(** [res] is [res0] after the keys [ks] were written one after the other. *)
Definition filled (found : gmap Key Status) (today : date) (buffer_days : Z)
           (ks : list Key) (res0 res : gmap Key Status) : Prop :=
  forall k,
    (In k ks -> exists st, res !! k = Some st
                           /\ final_status found today buffer_days k st)
    /\ (~ In k ks -> res !! k = res0 !! k).

Definition two_valued (found : gmap Key Status) : Prop :=
  forall k s, found !! k = Some s -> s = OK \/ s = LATE.

End reconcile.

Import reconcile.

(** ** The outside world: HTTP, the environment, third-party libraries *)

Module world.

(** Python values that travel as JSON; [VObject] is any value of a type
    the [json] encoder has no rule for (a [date], [bytes], a [set], ...). *)
#[local] Unset Elimination Schemes.
Inductive pyval :=
| VNone
| VBool (b : bool)
| VInt (n : Z)
| VFloat (repr : pystr)
| VStr (s : pystr)
| VList (l : list pyval)
| VDict (items : list (pyval * pyval))
| VObject (type_name : pystr).
#[local] Set Elimination Schemes.

(** The crawler looks at a fetched page through four selectors only. *)
Record Anchor := mkAnchor {
  href : pystr;            (* a.get("href", "") *)
  a_text : pystr           (* a.get_text(strip=True) *)
}.

Record Row := mkRow {
  row_anchor : option Anchor;   (* tr.select_one("a[href*='/public/']") *)
  row_text : pystr              (* tr.get_text(" ", strip=True) *)
}.

Record Soup := mkSoup {
  total_strong : option pystr;  (* select_one(_TOTAL_STRONG_CSS), its stripped text *)
  page_text : pystr;            (* soup.get_text(" ", strip=True) *)
  table_rows : list Row;        (* soup.select("table tbody tr") *)
  download_links : list Anchor  (* soup.select("a[href*='/og/com/download.php']") *)
}.

(** A successful response: its bytes and its parse. *)
Record Body := mkBody { content : list N; soup : Soup }.

(** What the process did so far, oldest first. Durations are in
    milliseconds. *)
Inductive Event :=
| Get (url : pystr) (timeout_sec : Z)
| Post (url : pystr) (headers : list (pystr * pystr)) (json : pyval)
| Sleep (ms : Z).

(** The network answers a request knowing everything that happened
    before it; a request either raises (connection error, timeout,
    [raise_for_status]) or yields a body. A POST yields [r.json()]. *)
Record World := mkWorld {
  http_get : list Event -> pystr -> Z -> result Body;
  http_post : list Event -> pystr -> list (pystr * pystr) -> pyval -> result pyval;
  getenv : pystr -> option pystr
}.

(** *** Vocabulary of the statements about the request history *)

Definition is_get_of (url : pystr) (e : Event) : bool :=
  match e with
  | Get url' _ => bool_decide (url' = url)
  | _ => false
  end.

(** How many GET requests for [url] the history holds. *)
Definition requests_for (url : pystr) (h : list Event) : nat :=
  length (List.filter (is_get_of url) h).

(** The addresses of the GET requests of a history, in order. *)
Definition get_urls (h : list Event) : list pystr :=
  flat_map (fun e => match e with Get url _ => [url] | _ => [] end) h.

(** The request about to be made is the retry of the one made just
    before the last sleep. *)
Definition is_retry (before : list Event) (url : pystr) : bool :=
  match rev before with
  | Sleep _ :: Get url' _ :: _ => bool_decide (url' = url)
  | _ => false
  end.

(** Reading of "a failed fetch is retried once after a delay, then
    skipped": every GET of [h] that the world answered by raising either
    is such a retry or is followed by a sleep and a second GET of the same
    address. [before] is the history up to the events still to check. *)
Fixpoint failures_retried (w : World) (before h : list Event) : bool :=
  match h with
  | [] => true
  | e :: rest =>
      (match e with
       | Get url t =>
           if is_ok (http_get w before url t) then true
           else if is_retry before url then true
           else match rest with
                | Sleep _ :: Get url' _ :: _ => bool_decide (url' = url)
                | _ => false
                end
       | _ => true
       end)
      && failures_retried w (before ++ [e]) rest
  end.

End world.

(** ** opengov.py: the crawler *)

Module opengov.
Import timeutil world.

Definition BASE : pystr := u "https://opengov.seoul.go.kr".

Definition list_page_url (target_y page items_per_page : Z) : pystr :=
  BASE ++ u "/expense/list"
  ++ u "?items_per_page=" ++ str_of_int items_per_page
  ++ u "&dept%5B0%5D=delegation"
  ++ u "&ym%5Byear%5D=all"
  ++ u "&ym%5Bmonth%5D=all"
  ++ u "&searchKeyword=" ++ str_of_int target_y ++ u "%EB%85%84"
  ++ u "&page=" ++ str_of_int page.

(** [([\d,]+)] at the head of [s] *)
Definition num_run_here (s : pystr) : option pystr :=
  match take_while (fun c => isdecimal c || (c =? 44)%N) s with
  | [] => None
  | g => Some g
  end.

(** [int(s)]; here [s] is made of decimal digits or is empty. A string
    of more than 4300 digits (CPython's default limit, leading zeros
    counted) is refused. *)
Definition py_int (s : pystr) : result Z :=
  match s with
  | [] => Raise (Exn ValueError (u "invalid literal for int() with base 10: ''"))
  | _ =>
      if (4300 <? length s)%nat then
        Raise (Exn ValueError
                 (u "Exceeds the limit (4300 digits) for integer string conversion"))
      else Ok (int_of_digits s)
  end.

Definition _parse_int_from_text (text : pystr) : option Z :=
  match text with
  | [] => None
  | _ =>
      match re_search num_run_here text with
      | None => None
      | Some g =>
          match py_int (List.filter (fun c => negb (c =? 44)%N) g) with
          | Ok n => Some n
          | Raise _ => None
          end
      end
  end.

(** [검색결과\s*:\s*([\d,]+)] at the head of [s] *)
Definition total_re_here (s : pystr) : option pystr :=
  if starts_with (u "검색결과") s then
    match skip_spaces (drop 4 s) with
    | c :: t => if (c =? 58)%N then num_run_here (skip_spaces t) else None
    | [] => None
    end
  else None.

(** [/public/(\d+)] at the head of [s] *)
Definition public_id_here (s : pystr) : option pystr :=
  if starts_with (u "/public/") s then
    match take_while isdecimal (drop 8 s) with
    | [] => None
    | g => Some g
    end
  else None.

(** [math.ceil(a / b)] for [b >= 1] and [0 <= a < 2^53], where the float
    quotient decides the ceiling exactly. For a larger [a] the code rounds
    the quotient, or raises [OverflowError] when it exceeds the floats; this
    is not modelled, and the statements about page counts bound the total. *)
Definition ceil_div (a b : Z) : Z := - ((- a) / b).

Definition compute_max_pages (total_count items_per_page : Z) : Z :=
  Z.max 1 (ceil_div total_count (Z.max 1 items_per_page)).

Section WithWorld.
Variable w : World.
(** [urllib.parse.urljoin], [parse_qs(urlparse(href).query)], [unquote] *)
Variable urljoin : pystr -> pystr -> pystr.
Variable parse_query : pystr -> list (pystr * list pystr).
Variable unquote : pystr -> pystr.

Definition get_soup (url : pystr) (timeout_sec : Z) (h : list Event)
  : result Soup * list Event :=
  (let* b := http_get w h url timeout_sec in Ok (soup b),
   h ++ [Get url timeout_sec]).

Definition fetch_total_count (timeout_sec items_per_page target_y : Z)
           (h : list Event) : result (option Z) * list Event :=
  let url := list_page_url target_y 1 items_per_page in
  match get_soup url timeout_sec h with
  | (Raise e, h1) => (Raise e, h1)
  | (Ok sp, h1) =>
      let primary :=
        match total_strong sp with
        | Some txt => _parse_int_from_text txt
        | None => None
        end in
      match primary with
      | Some total => (Ok (Some total), h1)
      | None =>
          match re_search total_re_here (page_text sp) with
          | Some g => (Ok (_parse_int_from_text g), h1)
          | None => (Ok None, h1)
          end
      end
  end.

(** Lines 166-182: one row of the result table. *)
Definition add_row (docs_by_nid : list DocItem) (tr : Row)
  : result (list DocItem) :=
  match row_anchor tr with
  | None => Ok docs_by_nid
  | Some a =>
      match re_search public_id_here (href a) with
      | None => Ok docs_by_nid
      | Some nid_ =>
          let title_ := strip (a_text a) in
          let doc_url := urljoin BASE (href a) in
          let* pub := parse_date_loose (row_text tr) in
          if existsb (fun d => bool_decide (nid d = nid_)) docs_by_nid
          then Ok docs_by_nid
          else Ok (docs_by_nid ++ [mkDocItem nid_ title_ pub doc_url])
      end
  end.

Section Loop.
Variables (target_y stop_after_empty timeout_sec polite_sleep_ms : Z).

(** The [for page in range(1, max_pages + 1)] loop, from the pages
    still to visit; [docs_by_nid] keeps insertion order. *)
Fixpoint crawl_pages (pages : list Z) (docs_by_nid : list DocItem)
         (empty_streak : Z) (h : list Event)
  : result (list DocItem) * list Event :=
  match pages with
  | [] => (Ok docs_by_nid, h)
  | page :: rest =>
      let url := list_page_url target_y page 50 in
      match get_soup url timeout_sec h with
      | (Raise _, h1) =>
          crawl_pages rest docs_by_nid empty_streak (h1 ++ [Sleep 1000])
      | (Ok sp, h1) =>
          match table_rows sp with
          | [] =>
              let empty_streak := empty_streak + 1 in
              if stop_after_empty <=? empty_streak
              then (Ok docs_by_nid, h1)
              else crawl_pages rest docs_by_nid empty_streak h1
          | rows =>
              match for_each add_row rows docs_by_nid with
              | Raise e => (Raise e, h1)
              | Ok docs' =>
                  crawl_pages rest docs' 0 (h1 ++ [Sleep polite_sleep_ms])
              end
          end
      end
  end.
End Loop.

(** Returns [Ok None] where the source returns Python's [None]. *)
Definition fetch_docs_all (target_ym : YearMonth)
           (max_pages_fallback stop_after_empty timeout_sec
            polite_sleep_ms items_per_page : Z) (h : list Event)
  : result (option (list DocItem)) * list Event :=
  let target_y := ym_year target_ym in
  let target_y := if ym_month target_ym <=? 2 then target_y - 1 else target_y in
  match fetch_total_count timeout_sec items_per_page target_y h with
  | (Raise _, h1) => (Ok None, h1)
  | (Ok total, h1) =>
      let max_pages :=
        match total with
        | Some t => compute_max_pages t items_per_page
        | None => max_pages_fallback
        end in
      match crawl_pages target_y stop_after_empty timeout_sec polite_sleep_ms
                        (range 1 (max_pages + 1)) [] 0 h1 with
      | (Ok docs, h2) => (Ok (Some docs), h2)
      | (Raise e, h2) => (Raise e, h2)
      end
  end.

(** [qs[k]] when [k in qs and qs[k]] *)
Definition query_get (qs : list (pystr * list pystr)) (k : pystr)
  : option pystr :=
  match List.find (fun kv => bool_decide (fst kv = k)) qs with
  | Some (_, v :: _) => Some v
  | _ => None
  end.

(** [s.split("/")[-1]] *)
Definition last_segment (s : pystr) : pystr :=
  rev (take_while (fun c => negb (c =? 47)%N) (rev s)).

Definition attachment_of (nid_ : pystr) (a : Anchor) : Attachment :=
  let full := urljoin BASE (href a) in
  let qs := parse_query (href a) in
  let filename_ :=
    match query_get qs (u "dname") with
    | Some v => unquote v
    | None =>
        match query_get qs (u "uri") with
        | Some v => last_segment v
        | None =>
            strip (match a_text a with [] => u "attachment" | t => t end)
        end
    end in
  mkAttachment nid_ filename_ full.

Fixpoint dedup_by_url (seen : list pystr) (out : list Attachment)
  : list Attachment :=
  match out with
  | [] => []
  | att :: rest =>
      if bool_decide (att_url att ∈ seen) then dedup_by_url seen rest
      else att :: dedup_by_url (att_url att :: seen) rest
  end.

Definition fetch_attachments (nid_ : pystr) (timeout_sec : Z) (h : list Event)
  : result (list Attachment) * list Event :=
  let url := BASE ++ u "/public/" ++ nid_ in
  match get_soup url timeout_sec h with
  | (Raise e, h1) => (Raise e, h1)
  | (Ok sp, h1) =>
      (Ok (dedup_by_url [] (List.map (attachment_of nid_) (download_links sp))), h1)
  end.

End WithWorld.

End opengov.

(** ** summarize.py *)

Module summarize.
Import world.

Definition _truncate (s : pystr) (max_chars : Z) : pystr :=
  if Z.of_nat (length s) <=? max_chars then s
  else take (Z.to_nat max_chars) s ++ [10%N] ++ u "...[truncated]".

(** [v[k]] for a string key *)
Definition subscript_key (v : pyval) (k : pystr) : result pyval :=
  match v with
  | VDict items =>
      match List.find (fun kv => match fst kv with
                                 | VStr k' => bool_decide (k' = k)
                                 | _ => false
                                 end) items with
      | Some (_, x) => Ok x
      | None => Raise (Exn KeyError ([39%N] ++ k ++ [39%N]))
      end
  | VList _ =>
      Raise (Exn TypeError (u "list indices must be integers or slices, not str"))
  | VStr _ =>
      Raise (Exn TypeError (u "string indices must be integers, not 'str'"))
  | _ => Raise (Exn TypeError (u "object is not subscriptable"))
  end.

(** [v[0]] *)
Definition subscript_zero (v : pyval) : result pyval :=
  match v with
  | VList (x :: _) => Ok x
  | VList [] => Raise (Exn IndexError (u "list index out of range"))
  | VStr (c :: _) => Ok (VStr [c])
  | VStr [] => Raise (Exn IndexError (u "string index out of range"))
  | VDict items =>
      match List.find (fun kv => match fst kv with
                                 | VInt 0 => true
                                 | _ => false
                                 end) items with
      | Some (_, x) => Ok x
      | None => Raise (Exn KeyError (u "0"))
      end
  | _ => Raise (Exn TypeError (u "object is not subscriptable"))
  end.

(** [v.strip()] *)
Definition strip_method (v : pyval) : result pystr :=
  match v with
  | VStr s => Ok (strip s)
  | _ => Raise (Exn AttributeError (u "object has no attribute 'strip'"))
  end.

Definition system_prompt : pystr :=
  u "너는 기관 업무추진비 집행내역을 검토/요약하는 도우미야." ++ [10%N]
  ++ u "입력은 엑셀 파싱 결과(JSON)이며, 다음 형식으로 한국어 요약을 작성해줘:" ++ [10%N]
  ++ u "1) 핵심 요약 3~6줄" ++ [10%N]
  ++ u "2) 이상/확인 포인트 bullet 3~8개(없으면 '없음')" ++ [10%N]
  ++ u "3) 데이터 품질 이슈 0~3개" ++ [10%N]
  ++ u "가능하면 구체적으로(반복 사용처, 큰 금액, 컬럼 불명확 등)." ++ [10%N].

Definition NONE_PLACEHOLDER : pystr := u "(요약 미사용: SUMMARY_PROVIDER=none)".

Definition OPENAI_URL : pystr := u "https://api.openai.com/v1/chat/completions".

(** Line 30 *)
Definition openai_headers (api_key : pystr) : list (pystr * pystr) :=
  [(u "Authorization", u "Bearer " ++ api_key);
   (u "Content-Type", u "application/json")].

(** Lines 41-48 *)
Definition openai_body (model text : pystr) : pyval :=
  VDict [(VStr (u "model"), VStr model);
         (VStr (u "messages"),
          VList [VDict [(VStr (u "role"), VStr (u "system"));
                        (VStr (u "content"), VStr system_prompt)];
                 VDict [(VStr (u "role"), VStr (u "user"));
                        (VStr (u "content"), VStr text)]]);
         (VStr (u "temperature"), VFloat (u "0.2"))].

(** [data["choices"][0]["message"]["content"].strip()] *)
Definition read_reply (data : pyval) : result pystr :=
  let* choices := subscript_key data (u "choices") in
  let* first := subscript_zero choices in
  let* message := subscript_key first (u "message") in
  let* content_ := subscript_key message (u "content") in
  strip_method content_.

Section WithWorld.
Variable w : World.
(** [str.lower] and [json.dumps(_, ensure_ascii=False, indent=2)] *)
Variable str_lower : pystr -> pystr.
Variable json_dumps : pyval -> result pystr.

(** [os.getenv(name, "").strip()] *)
Definition getenv_stripped (name_ : pystr) : pystr :=
  strip (default [] (getenv w name_)).

Definition _summarize_openai (text : pystr) (h : list Event)
  : result pystr * list Event :=
  let api_key := getenv_stripped (u "OPENAI_API_KEY") in
  let model := getenv_stripped (u "OPENAI_MODEL") in
  match api_key with
  | [] => (Ok (u "(OpenAI 요약 실패: OPENAI_API_KEY 미설정)"), h)
  | _ =>
      let headers := openai_headers api_key in
      let body := openai_body model text in
      (try_except
         (let* data := http_post w h OPENAI_URL headers body in
          read_reply data)
         (fun e => Ok (u "(OpenAI 요약 실패: " ++ exn_msg e ++ u ")")),
       h ++ [Post OPENAI_URL headers body])
  end.

Definition summarize (provider : pystr) (payload : pyval) (h : list Event)
  : result pystr * list Event :=
  let provider := str_lower (match provider with [] => u "none" | p => p end) in
  if bool_decide (provider = u "none") then (Ok NONE_PLACEHOLDER, h)
  else
    match json_dumps payload with
    | Raise e => (Raise e, h)
    | Ok dumped =>
        let text := _truncate dumped 12000 in
        if bool_decide (provider = u "openai") then _summarize_openai text h
        else (Ok (u "(알 수 없는 provider: " ++ provider ++ u ")"), h)
    end.

End WithWorld.

(** The encoder's rule for what it refuses: a value of a type it does
    not know, or a dictionary key that is not a scalar. *)
Fixpoint encodable (v : pyval) : bool :=
  match v with
  | VObject _ => false
  | VList l => forallb encodable l
  | VDict items =>
      forallb (fun kv =>
                 match fst kv with
                 | VNone | VBool _ | VInt _ | VFloat _ | VStr _ => encodable (snd kv)
                 | _ => false
                 end) items
  | _ => true
  end.

End summarize.

(** ** state.py *)

Module state.

(** The state file: absent, or a JSON object that may hold ["seen_keys"]. *)
Inductive SeenFile :=
| NoFile
| SeenJson (seen_keys : option (list pystr)).

Definition load_seen (f : SeenFile) : gset pystr :=
  match f with
  | NoFile => ∅
  | SeenJson None => ∅
  | SeenJson (Some keys) => list_to_set keys
  end.

(** [a <= b] on [str]: code points, lexicographically *)
Fixpoint str_le (a b : pystr) : bool :=
  match a, b with
  | [], _ => true
  | _ :: _, [] => false
  | x :: a', y :: b' => (x <? y)%N || ((x =? y)%N && str_le a' b')
  end.

(** [sorted(seen)] *)
Definition sorted (seen : gset pystr) : list pystr :=
  merge_sort (fun a b => Is_true (str_le a b)) (elements seen).

Definition save_seen (seen : gset pystr) : SeenFile :=
  SeenJson (Some (sorted seen)).

End state.

(** ** parse_xlsx.py *)

Module parse_xlsx.
Import world.

(** One row of a sheet: column name to cell text. *)
Definition RowRecord : Type := list (pystr * pystr).

Record ParsedXlsx := mkParsedXlsx {
  sheets : list (pystr * list RowRecord);
  stats : list (pystr * Z)
}.

Section WithPandas.
(** [pd.ExcelFile(buf, engine="openpyxl")] and, for every sheet, its
    records after [fillna("")] and [astype(str)]. *)
Variable excel_read : list N -> result (list (pystr * list RowRecord)).

Definition parse_xlsx_bytes (xlsx_bytes : list N) (max_rows_per_sheet : Z)
  : result ParsedXlsx :=
  let* xls := excel_read xlsx_bytes in
  let sheets_ :=
    List.map (fun sh => (fst sh, take (Z.to_nat max_rows_per_sheet) (snd sh))) xls in
  let total_rows :=
    fold_left (fun acc sh => acc + Z.of_nat (length (snd sh))) sheets_ 0 in
  Ok (mkParsedXlsx sheets_
        [(u "sheet_count", Z.of_nat (length sheets_));
         (u "total_rows_loaded", total_rows);
         (u "max_rows_per_sheet", max_rows_per_sheet)]).
End WithPandas.

End parse_xlsx.

(** ** main.py: attachment processing *)

Module main.
Import world orgs parse_xlsx.

(** One entry of [att_reports]: filename, url, kind, summary. *)
Record AttReport := mkAttReport {
  r_filename : pystr;
  r_url : pystr;
  r_kind : pystr;
  r_summary : pystr
}.

Record DocReport := mkDocReport {
  dr_org : pystr;
  dr_nid : pystr;
  dr_title : pystr;
  dr_pub_date : option date;
  dr_doc_url : pystr;
  dr_attachments : list AttReport
}.

(** [s.rstrip("/")] *)
Definition rstrip_slash (s : pystr) : pystr :=
  rev (drop (length (take_while (fun c => (c =? 47)%N) (rev s))) (rev s)).

(** [s.replace(os.sep, "/")], [os.sep] being one character *)
Definition replace_sep (os_sep : N) (s : pystr) : pystr :=
  List.map (fun c => if (c =? os_sep)%N then 47%N else c) s.

Definition build_report_link (os_sep : N) (report_base_url report_path : pystr)
  : option pystr :=
  let base := rstrip_slash (strip report_base_url) in
  match base with
  | [] => None
  | _ => Some (base ++ u "/" ++ replace_sep os_sep report_path)
  end.

(** The mutable state the loops share: the reports so far, the seen set
    and the event history. *)
Record LoopState := mkLoopState {
  att_reports : list AttReport;
  seen : gset pystr;
  hist : list Event
}.

(** [f"{n:0{width}d}"] for a non-negative [n] *)
Definition zfill (width : nat) (s : pystr) : pystr :=
  repeat 48%N (width - length s) ++ s.

(** [d.isoformat()] *)
Definition isoformat (d : date) : pystr :=
  zfill 4 (str_of_int (year d)) ++ u "-" ++ zfill 2 (str_of_int (month d))
  ++ u "-" ++ zfill 2 (str_of_int (day d)).

Definition sheets_value (sh : list (pystr * list RowRecord)) : pyval :=
  VDict (List.map
           (fun s => (VStr (fst s),
                      VList (List.map
                               (fun r => VDict (List.map (fun kv => (VStr (fst kv), VStr (snd kv))) r))
                               (snd s))))
           sh).

Definition stats_value (st : list (pystr * Z)) : pyval :=
  VDict (List.map (fun kv => (VStr (fst kv), VInt (snd kv))) st).

Section WithWorld.
Variable w : World.
Variable urljoin : pystr -> pystr -> pystr.
Variable parse_query : pystr -> list (pystr * list pystr).
Variable unquote : pystr -> pystr.
Variable str_lower : pystr -> pystr.
Variable json_dumps : pyval -> result pystr.
Variable excel_read : list N -> result (list (pystr * list RowRecord)).
(** Settings read in these loops *)
Variable opengov_http_timeout_sec : Z.
Variable summary_provider : pystr.

(** report.py *)
Definition is_xlsx (filename_ : pystr) : bool :=
  ends_with (u ".xlsx") (str_lower filename_).

Definition download_bytes (url_ : pystr) (timeout_sec : Z) (h : list Event)
  : result (list N) * list Event :=
  (let* b := http_get w h url_ timeout_sec in Ok (content b),
   h ++ [Get url_ timeout_sec]).

(** [f"{d.nid}|{a.url}"] *)
Definition seen_key (d : DocItem) (a : Attachment) : pystr :=
  nid d ++ u "|" ++ att_url a.

(** Lines 149-162, the body of the [try]. *)
Definition summarize_attachment (org_name : pystr) (d : DocItem)
           (a : Attachment) (h : list Event) : result pystr * list Event :=
  match download_bytes (att_url a) (Z.max 60 opengov_http_timeout_sec) h with
  | (Raise e, h1) => (Raise e, h1)
  | (Ok raw, h1) =>
      match parse_xlsx_bytes excel_read raw 2000 with
      | Raise e => (Raise e, h1)
      | Ok parsed =>
          let payload :=
            VDict [(VStr (u "org"), VStr org_name);
                   (VStr (u "nid"), VStr (nid d));
                   (VStr (u "title"), VStr (title d));
                   (VStr (u "pub_date"),
                    match pub_date d with
                    | Some p => VStr (isoformat p)
                    | None => VNone
                    end);
                   (VStr (u "attachment"),
                    VDict [(VStr (u "filename"), VStr (filename a));
                           (VStr (u "url"), VStr (att_url a))]);
                   (VStr (u "stats"), stats_value (stats parsed));
                   (VStr (u "sheets"), sheets_value (sheets parsed))] in
          summarize.summarize w str_lower json_dumps summary_provider payload h1
      end
  end.

(** Lines 135-168, the body of [for a in atts]. *)
Definition process_attachment (org_name : pystr) (d : DocItem)
           (st : LoopState) (a : Attachment) : LoopState :=
  let key := seen_key d a in
  if negb (is_xlsx (filename a)) then
    mkLoopState
      (att_reports st ++ [mkAttReport (filename a) (att_url a) (u "unsupported") []])
      ({[key]} ∪ seen st) (hist st)
  else if bool_decide (key ∈ seen st) then
    mkLoopState
      (att_reports st ++ [mkAttReport (filename a) (att_url a) (u "xlsx") []])
      (seen st) (hist st)
  else
    let '(r, h1) := summarize_attachment org_name d a (hist st) in
    let summary_text :=
      match r with
      | Ok t => t
      | Raise e => u "(xlsx 처리 실패: " ++ exn_msg e ++ u ")"
      end in
    (* finally: seen.add(key) *)
    mkLoopState
      (att_reports st ++ [mkAttReport (filename a) (att_url a) (u "xlsx") summary_text])
      ({[key]} ∪ seen st) h1.

Definition process_attachments (org_name : pystr) (d : DocItem)
           (atts : list Attachment) (st : LoopState) : LoopState :=
  fold_left (process_attachment org_name d) atts st.

(** Lines 126-179, [for d in month_docs]; [fetch_attachments] is not
    guarded, so its exception ends the loop. *)
Fixpoint process_docs (orgs_ : list Org) (docs : list DocItem)
         (doc_reports : list DocReport) (seen_ : gset pystr) (h : list Event)
  : result (list DocReport * gset pystr) * list Event :=
  match docs with
  | [] => (Ok (doc_reports, seen_), h)
  | d :: rest =>
      match match_org orgs_ (title d) with
      | None | Some [] => process_docs orgs_ rest doc_reports seen_ h
      | Some org_name =>
          match opengov.fetch_attachments w urljoin parse_query unquote
                  (nid d) opengov_http_timeout_sec h with
          | (Raise e, h1) => (Raise e, h1)
          | (Ok atts, h1) =>
              let st := process_attachments org_name d atts
                          (mkLoopState [] seen_ h1) in
              process_docs orgs_ rest
                (doc_reports ++
                   [mkDocReport org_name (nid d) (title d) (pub_date d)
                                (url d) (att_reports st)])
                (seen st) (hist st)
          end
      end
  end.

(** Lines 88-179 of [main], from the target month to the document
    reports: [kst_now] is the clock, [orgs_sheet] and [seen_file] are what
    the two files hold, the settings are arguments. [fetch_docs_all] runs
    with its defaults for the pause (0.2 s) and the page size (50). *)
Definition main_reports (kst_now : date) (orgs_sheet : DataFrame)
           (seen_file : state.SeenFile)
           (opengov_max_pages opengov_stop_after_empty
            quarter_buffer_days quarter_lookback_count : Z) (h : list Event)
  : result (gmap reconcile.Key reconcile.Status * list DocReport * gset pystr)
    * list Event :=
  let target_ym := timeutil.prev_month kst_now in
  match timeutil.month_range target_ym with
  | Raise e => (Raise e, h)
  | Ok (month_start, month_end) =>
      match load_orgs_from_xlsx orgs_sheet with
      | Raise e => (Raise e, h)
      | Ok orgs_ =>
          let seen_ := state.load_seen seen_file in
          match opengov.fetch_docs_all w urljoin target_ym opengov_max_pages
                  opengov_stop_after_empty opengov_http_timeout_sec 200 50 h with
          | (Raise e, h1) => (Raise e, h1)
          | (Ok None, h1) =>
              (* [for d in docs] with [docs] being [None] *)
              (Raise (Exn TypeError (u "'NoneType' object is not iterable")), h1)
          | (Ok (Some docs), h1) =>
              let month_docs_ := reconcile.month_docs docs month_start month_end in
              match reconcile.compute_quarter_status orgs_ docs kst_now
                      quarter_buffer_days quarter_lookback_count with
              | Raise e => (Raise e, h1)
              | Ok quarter_status =>
                  match process_docs orgs_ month_docs_ [] seen_ h1 with
                  | (Raise e, h2) => (Raise e, h2)
                  | (Ok (doc_reports, seen'), h2) =>
                      (Ok (quarter_status, doc_reports, seen'), h2)
                  end
              end
          end
      end
  end.

End WithWorld.

End main.

(** ** report.py: the quarter section *)

Module report.
Import timeutil reconcile.

(** The four strings the status table holds. *)
Definition status_str (s : Status) : pystr :=
  match s with
  | OK => u "OK"
  | LATE => u "LATE"
  | PENDING => u "PENDING"
  | MISSING => u "MISSING"
  end.

(** Line 43: [quarter_status.get((org, yq.year, yq.quarter), "UNKNOWN")] *)
Definition status_text (quarter_status : gmap Key Status) (org : pystr)
           (yq : YearQuarter) : pystr :=
  let key : Key := (org, yq_year yq, yq_quarter yq) in
  match quarter_status !! key with
  | Some s => status_str s
  | None => u "UNKNOWN"
  end.

(** Lines 43-47: one cell of the table. *)
Definition status_cell (quarter_status : gmap Key Status) (org : pystr)
           (yq : YearQuarter) : pystr :=
  let st := status_text quarter_status org yq in
  if bool_decide (st = u "LATE") || bool_decide (st = u "MISSING")
  then u "***" ++ st ++ u "***|"
  else st ++ u "|".

(** [sorted(orgs)] on a list of names *)
Definition sorted_names (orgs : list pystr) : list pystr :=
  merge_sort (fun a b => Is_true (state.str_le a b)) orgs.

(** Lines 33-35: the header cell of one quarter. *)
Definition header_cell (buffer_days : Z) (out : pystr) (yq : YearQuarter)
  : result pystr :=
  let* dl := quarter_deadline (yq_year yq) (yq_quarter yq) buffer_days in
  Ok (out ++ u "**" ++ str_of_int (yq_year yq) ++ u " Q"
          ++ str_of_int (yq_quarter yq) ++ u "** (마감 " ++ main.isoformat dl
          ++ u ")|").

(** Lines 40-47: the row of one organization. *)
Definition org_row (quarter_status : gmap Key Status)
           (quarters : list YearQuarter) (out org : pystr) : pystr :=
  fold_left (fun out yq => out ++ status_cell quarter_status org yq) quarters
            (out ++ [10%N] ++ u "|" ++ org ++ u "|").

Definition build_quarter_section (orgs : list pystr)
           (quarter_status : gmap Key Status) (today : date)
           (buffer_days lookback_count : Z) : result pystr :=
  let out := u "## 분기별 업로드 상태(기관별)" ++ [10%N; 10%N] in
  let quarters := report_quarters today in
  let out := out ++ u "|**기관명**|" in
  let* out := for_each (header_cell buffer_days) quarters out in
  let out := out ++ [10%N] ++ u "|-|" in
  let out := fold_left (fun out _ => out ++ u "-|") quarters out in
  let out := fold_left (org_row quarter_status quarters) (sorted_names orgs) out in
  Ok (out ++ [10%N]).

End report.

(** ** Concrete inputs used to exercise the embedding *)

Module samples.
Import timeutil orgs world reconcile.

Definition seoul_metro : Org :=
  mkOrg (u "Seoul Metro") (norm_text (u "Seoul Metro")).

Definition status_at (r : result (gmap Key Status)) (k : Key) : option Status :=
  match r with Ok m => m !! k | Raise _ => None end.

Definition metro_q1_undated : DocItem :=
  mkDocItem (u "101") (u "Seoul Metro 2025년 1분기 업무추진비") None
            (u "https://opengov.seoul.go.kr/public/101").

Definition metro_q1_late : DocItem :=
  mkDocItem (u "102") (u "Seoul Metro 2025년 1분기 업무추진비 (정정)")
            (Some (Date 2025 6 2))
            (u "https://opengov.seoul.go.kr/public/102").

Definition metro_q1 : Key := (u "Seoul Metro", 2025, 1).

(** A listing page with the given rows and no result counter. *)
Definition listing (rows : list Row) : Body :=
  mkBody [] (mkSoup None [] rows []).

Definition row_of (id_ : pystr) : Row :=
  mkRow (Some (mkAnchor (u "/public/" ++ id_) (u "Seoul Metro 2025년 1분기 업무추진비")))
        (u "Seoul Metro 2025년 1분기 업무추진비 2025-04-10").

Definition refused : exn := Exn RequestException (u "connection refused").

(** Nothing answers. *)
Definition offline : World :=
  mkWorld (fun _ _ _ => Raise refused) (fun _ _ _ _ => Raise refused)
          (fun _ => None).

(** Pages 1 to 4 hold one row each, pages 5 and 6 hold none, page 7 holds
    one again; any other address fails. *)
Definition site_2025 (url : pystr) : result Body :=
  match List.find (fun p => bool_decide (url = opengov.list_page_url 2025 p 50))
                  [1; 2; 3; 4; 5; 6; 7] with
  | Some p =>
      if (p =? 5) || (p =? 6) then Ok (listing [])
      else Ok (listing [row_of (str_of_int (100 + p))])
  | None => Raise refused
  end.

Definition steady : World :=
  mkWorld (fun _ url _ => site_2025 url) (fun _ _ _ _ => Raise refused)
          (fun _ => None).


(** As [steady], but page 2 fails the first time it is asked for. *)
Definition flaky : World :=
  mkWorld (fun h url _ =>
             if bool_decide (url = opengov.list_page_url 2025 2 50)
                && (requests_for url h =? 0)%nat
             then Raise refused
             else site_2025 url)
          (fun _ _ _ _ => Raise refused) (fun _ => None).

(** [json.dumps] as far as its outcome goes: it raises for a value it
    cannot encode; the text it produces is not modelled. *)
Definition dumps_outcome (v : pyval) : result pystr :=
  if summarize.encodable v then Ok (u "{}")
  else Raise (Exn TypeError (u "Object of type date is not JSON serializable")).

(** No workbook can be read. *)
Definition no_excel (raw : list N)
  : result (list (pystr * list parse_xlsx.RowRecord)) :=
  Raise (Exn ValueError (u "File is not a zip file")).

Definition sheet_attachment : Attachment :=
  mkAttachment (u "101") (u "2025_Q1.XLSX")
    (u "https://opengov.seoul.go.kr/og/com/download.php?dname=2025_Q1.XLSX").

(** [urljoin] for the absolute paths the samples use. *)
Definition join_path (base href : pystr) : pystr := base ++ href.

Definition three_orgs : list Org :=
  [seoul_metro;
   mkOrg (u "서울시설공단") (norm_text (u "서울시설공단"));
   mkOrg (u "서울주택도시공사") (norm_text (u "서울주택도시공사"))].

End samples.

(** ** Vocabulary of the statements *)

Module facts.
Import Py timeutil orgs world reconcile.

Definition month_day_ok (n : Z) (leapyear : bool) : bool :=
  let '(m, d) := month_day_of n leapyear in
  let y := if leapyear then 4 else 1 in
  (1 <=? m) && (m <=? 12) && (1 <=? d) && (d <=? days_in_month y m)
  && (days_before_month y m + d =? n + 1).

Definition month_table_ok (leap : bool) (m : Z) : bool :=
  let y := if leap then 4 else 1 in
  (0 <=? days_before_month y m)
  && (days_before_month y m + days_in_month y m <=? 365 + (if leap then 1 else 0))
  && forallb (fun m' => implb (m <? m')
                          (days_before_month y m + days_in_month y m
                           <=? days_before_month y m'))
             (range 1 13).

Definition quarter_index (yq : YearQuarter) : Z := 4 * yq_year yq + yq_quarter yq.

(** [d] is what lines 167-182 of opengov.py make of some result row. *)
Definition listed (urljoin : pystr -> pystr -> pystr) (d : DocItem) : Prop :=
  exists tr a,
    row_anchor tr = Some a
    /\ re_search opengov.public_id_here (href a) = Some (nid d)
    /\ title d = strip (a_text a)
    /\ url d = urljoin opengov.BASE (href a)
    /\ parse_date_loose (row_text tr) = Ok (pub_date d).

(** [extra] holds listed records only, one per id, none with an id that
    [docs] already holds. *)
Definition fresh_records (urljoin : pystr -> pystr -> pystr)
           (docs extra : list DocItem) : Prop :=
  Forall (listed urljoin) extra
  /\ NoDup (List.map nid extra)
  /\ forall d, d ∈ extra -> nid d ∉ List.map nid docs.

End facts.

(** * Properties *)

Import timeutil orgs world reconcile samples facts.

(** ** Sanity checks of the embedding on concrete inputs *)

Example same_sep_date_examples :
  same_sep_date_in (u "등록일 2025-03-15") = true
  /\ same_sep_date_in (u "2025.3.5") = true
  /\ same_sep_date_in (u "2025-13-01") = false
  /\ same_sep_date_in (u "2025-13-01 2025/01/02") = true.
Proof. repeat split; vm_compute; reflexivity. Qed.

Example failures_retried_examples :
  let p2 := opengov.list_page_url 2025 2 50 in
  failures_retried flaky [] [Get p2 30; Sleep 1000; Get p2 30] = true
  /\ failures_retried offline [] [Get p2 30; Sleep 1000; Get p2 30; Sleep 200] = true
  /\ failures_retried flaky [] [Get p2 30; Sleep 1000] = false.
Proof. repeat split; vm_compute; reflexivity. Qed.

Example crawl_steady :
  opengov.fetch_docs_all steady join_path (mkYearMonth 2025 4) 300 2 30 200 50 []
  = (Ok (Some (List.map
                 (fun n => mkDocItem (u n) (u "Seoul Metro 2025년 1분기 업무추진비")
                                     (Some (Date 2025 4 10))
                                     (u "https://opengov.seoul.go.kr/public/" ++ u n))
                 ["101"; "102"; "103"; "104"]%string)),
     [Get (opengov.list_page_url 2025 1 50) 30;
      Get (opengov.list_page_url 2025 1 50) 30; Sleep 200;
      Get (opengov.list_page_url 2025 2 50) 30; Sleep 200;
      Get (opengov.list_page_url 2025 3 50) 30; Sleep 200;
      Get (opengov.list_page_url 2025 4 50) 30; Sleep 200;
      Get (opengov.list_page_url 2025 5 50) 30;
      Get (opengov.list_page_url 2025 6 50) 30]).
Proof. vm_compute. reflexivity. Qed.

Example utf8_hangul : u "2025년 1분기" = [50; 48; 50; 53; 45380; 32; 49; 48516; 44592]%N.
Proof. reflexivity. Qed.

Example add_30_days :
  date_add_days (Date 2025 3 31) 30 = Ok (Date 2025 4 30)
  /\ date_add_days (Date 2024 2 28) 2 = Ok (Date 2024 3 1)
  /\ date_add_days (Date 2025 12 31) 30 = Ok (Date 2026 1 30)
  /\ toordinal (Date 9999 12 31) = MAXORDINAL
  /\ fromordinal 1 = Date 1 1 1
  /\ fromordinal MAXORDINAL = Date 9999 12 31.
Proof. repeat split; vm_compute; reflexivity. Qed.

Example parse_date_examples :
  parse_date_loose (u "등록일 2025-03-15 조회") = Ok (Some (Date 2025 3 15))
  /\ parse_date_loose (u "2025.3.5") = Ok (Some (Date 2025 3 5))
  /\ parse_date_loose (u "2025-13-01") = Ok None
  /\ parse_date_loose (u "2025-03/15") = Ok (Some (Date 2025 3 15))
  /\ parse_date_loose (u "2025-123-4") = Ok None
  /\ parse_date_loose (u "12025-1-123") = Ok (Some (Date 2025 1 12))
  /\ parse_date_loose (u "no date") = Ok None.
Proof. repeat split; vm_compute; reflexivity. Qed.

Example extract_year_quarter_examples :
  extract_year_quarter (u "2025년 1분기 업무추진비") = (Some 2025, Some 1)
  /\ extract_year_quarter (u "2024 년도 제 3 분기") = (Some 2024, Some 3)
  /\ extract_year_quarter (u "2025년 5분기") = (None, None)
  /\ extract_year_quarter (u "2025년 12분기") = (Some 2025, Some 2)
  /\ extract_year_quarter (u "업무추진비") = (None, None).
Proof. repeat split; vm_compute; reflexivity. Qed.

Example scenario_ok :
  status_at (compute_quarter_status [seoul_metro]
    [mkDocItem (u "101") (u "Seoul Metro 2025년 1분기 업무추진비") None (u "/public/101")]
    (Date 2025 5 15) 30 8) (u "Seoul Metro", 2025, 1) = Some OK.
Proof. vm_compute. reflexivity. Qed.

Example scenario_pending_missing :
  status_at (compute_quarter_status [seoul_metro] [] (Date 2025 4 1) 30 8)
            (u "Seoul Metro", 2025, 1) = Some PENDING
  /\ status_at (compute_quarter_status [seoul_metro] [] (Date 2025 5 1) 30 8)
               (u "Seoul Metro", 2025, 1) = Some MISSING.
Proof. split; vm_compute; reflexivity. Qed.

(** ** Dates: ordinals of the quarter ends stay in range *)

Lemma days_before_year_step y :
  1 <= y -> days_before_year y + 365 <= days_before_year (y + 1).
Proof.
  intros Hy. unfold days_before_year.
  replace (y + 1 - 1) with y by lia.
  Z.to_euclidean_division_equations. lia.
Qed.

Lemma days_before_year_leap_step y :
  1 <= y -> is_leap y = true -> days_before_year y + 366 <= days_before_year (y + 1).
Proof.
  intros Hy. unfold days_before_year, is_leap.
  replace (y + 1 - 1) with y by lia.
  intros H. apply andb_prop in H. destruct H as [H4 H].
  apply Z.eqb_eq in H4.
  apply orb_prop in H. destruct H as [H|H].
  - apply negb_true_iff in H. apply Z.eqb_neq in H.
    Z.to_euclidean_division_equations. lia.
  - apply Z.eqb_eq in H. Z.to_euclidean_division_equations. lia.
Qed.

Lemma days_before_year_mono (n : nat) y :
  1 <= y -> days_before_year y + 365 * Z.of_nat n <= days_before_year (y + Z.of_nat n).
Proof.
  intros Hy. induction n as [|n IH].
  - replace (y + Z.of_nat 0) with y by lia. lia.
  - pose proof (days_before_year_step (y + Z.of_nat n)) as Hs.
    replace (y + Z.of_nat (S n)) with (y + Z.of_nat n + 1) by lia. lia.
Qed.

Lemma days_before_year_le y y' :
  1 <= y <= y' -> days_before_year y <= days_before_year y'.
Proof.
  intros H. pose proof (days_before_year_mono (Z.to_nat (y' - y)) y) as Hm.
  replace (y + Z.of_nat (Z.to_nat (y' - y))) with y' in Hm by lia. lia.
Qed.

Lemma quarter_end_ordinal y q :
  1 <= y <= 9998 -> 1 <= q <= 4 ->
  exists e, quarter_end_date y q = Ok e
            /\ 1 <= toordinal e /\ toordinal e + 365 <= MAXORDINAL.
Proof.
  intros Hy Hq.
  assert (H0 : 0 <= days_before_year y).
  { pose proof (days_before_year_le 1 y ltac:(lia)) as H.
    change (days_before_year 1) with 0 in H. lia. }
  assert (Hmax : days_before_year y + 365 <= 3651694
                 /\ (is_leap y = true -> days_before_year y + 366 <= 3651329)).
  { split.
    - pose proof (days_before_year_le y 9998 ltac:(lia)) as Hle.
      change (days_before_year 9998) with 3651329 in Hle. lia.
    - intros Hl. assert (y <> 9998) by (intros ->; discriminate Hl).
      pose proof (days_before_year_leap_step y ltac:(lia) Hl).
      pose proof (days_before_year_le (y + 1) 9998 ltac:(lia)) as Hle.
      change (days_before_year 9998) with 3651329 in Hle. lia. }
  destruct Hmax as [Hmax Hleap].
  assert (Hyr : negb ((1 <=? y) && (y <=? MAXYEAR)) = false).
  { unfold MAXYEAR. apply negb_false_iff, andb_true_intro. split; lia. }
  unfold quarter_end_date, date_new.
  assert (Hcases : q = 1 \/ q = 2 \/ q = 3 \/ q = 4) by lia.
  destruct Hcases as [-> | [-> | [-> | ->]]]; simpl; rewrite Hyr; eexists; (split; [reflexivity|]);
    unfold toordinal, days_before_month; cbn [year month day]; simpl;
    unfold days_in_month; simpl; destruct (is_leap y) eqn:El;
    try specialize (Hleap eq_refl); unfold MAXORDINAL; lia.
Qed.

Lemma quarter_deadline_returns y q buffer_days :
  1 <= y <= 9998 -> 1 <= q <= 4 -> 0 <= buffer_days <= 365 ->
  exists dl, quarter_deadline y q buffer_days = Ok dl.
Proof.
  intros Hy Hq Hb. destruct (quarter_end_ordinal y q Hy Hq) as (e & He & H1 & H2).
  unfold quarter_deadline. rewrite He. simpl. unfold date_add_days.
  replace ((1 <=? toordinal e + buffer_days) && (toordinal e + buffer_days <=? MAXORDINAL))
    with true; [eauto|].
  symmetry. apply andb_true_intro. split; lia.
Qed.

(** ** timeutil.report_quarters *)

Lemma report_quarters_eq (today : date) :
  report_quarters today =
    List.map (mkYearQuarter (if month today <=? 2 then year today - 1 else year today))
             [1; 2; 3; 4].
Proof. unfold report_quarters. destruct (month today <=? 2); reflexivity. Qed.

(** C8: for every date [today], [report_quarters today] is exactly the four
    quarters Q1, Q2, Q3, Q4, in that order, of one target year, which is
    [today.year - 1] when [today.month <= 2] and [today.year] otherwise;
    the day of the month and the quarter that [today] lies in play no part. *)
Theorem report_quarters_four_of_target_year (today : date) :
  let target_year := if month today <=? 2 then year today - 1 else year today in
  report_quarters today =
    [mkYearQuarter target_year 1; mkYearQuarter target_year 2;
     mkYearQuarter target_year 3; mkYearQuarter target_year 4]
  /\ length (report_quarters today) = 4%nat
  /\ List.map yq_quarter (report_quarters today) = [1; 2; 3; 4]
  /\ (forall yq, In yq (report_quarters today) -> yq_year yq = target_year)
  /\ (forall d', report_quarters (Date (year today) (month today) d')
               = report_quarters today).
Proof.
  intros target_year.
  assert (E : report_quarters today =
    [mkYearQuarter target_year 1; mkYearQuarter target_year 2;
     mkYearQuarter target_year 3; mkYearQuarter target_year 4]).
  { apply report_quarters_eq. }
  split; [exact E|]. rewrite E.
  split; [reflexivity|]. split; [reflexivity|]. split.
  - intros yq Hin. simpl in Hin.
    destruct Hin as [<-|[<-|[<-|[<-|[]]]]]; reflexivity.
  - intros d'. unfold report_quarters. simpl.
    unfold target_year. destruct (month today <=? 2); reflexivity.
Qed.

(** ** The loop over the documents *)

Section Reconcile.
Variables (orgs_ : list Org) (buffer_days : Z).

Local Abbreviation observed := (observed orgs_ buffer_days).

Lemma observe_status d key st :
  observe orgs_ buffer_days d = Ok (Some (key, st)) -> st = OK \/ st = LATE.
Proof.
  unfold observe.
  destruct (match_org orgs_ (title d)) as [[|c org]|]; try discriminate.
  destruct (extract_year_quarter (title d)) as [[y|] [q|]]; try discriminate.
  destruct (quarter_deadline y q buffer_days) as [dl|e]; simpl; try discriminate.
  intros [= <- <-]. destruct (pub_date d) as [p|]; [|by left].
  destruct (date_le p dl); [by left|by right].
Qed.

Lemma merge_lookup found key st k :
  merge found key st !! k =
    if decide (k = key) then
      match found !! key with
      | None => Some st
      | Some OK => Some OK
      | Some old => if decide (st = OK) then Some OK else Some old
      end
    else found !! k.
Proof.
  unfold merge. destruct (decide (k = key)) as [->|Hne].
  - destruct (found !! key) as [old|] eqn:E.
    + destruct old, st; simpl; rewrite ?lookup_insert_eq; try done.
    + by rewrite lookup_insert_eq.
  - destruct (found !! key) as [old|] eqn:E.
    + destruct (bool_decide (old <> OK) && bool_decide (st = OK));
        [by rewrite lookup_insert_ne|done].
    + by rewrite lookup_insert_ne.
Qed.

Lemma scan_doc_step found0 d found1 :
  scan_doc orgs_ buffer_days found0 d = Ok found1 ->
  (exists o, observe orgs_ buffer_days d = Ok o)
  /\ (two_valued found0 -> two_valued found1)
  /\ forall k,
      (found1 !! k = Some OK <->
         found0 !! k = Some OK \/ observe orgs_ buffer_days d = Ok (Some (k, OK)))
      /\ (is_Some (found1 !! k) <->
            is_Some (found0 !! k)
            \/ exists st, observe orgs_ buffer_days d = Ok (Some (k, st))).
Proof.
  unfold scan_doc.
  destruct (observe orgs_ buffer_days d) as [[[key st]|]|e] eqn:Eo;
    simpl; [| |discriminate]; intros [= <-].
  - split; [eauto|]. pose proof (observe_status _ _ _ Eo) as Hst. split.
    + intros H0 k s. rewrite merge_lookup.
      destruct (decide (k = key)) as [->|]; [|apply H0].
      destruct (found0 !! key) as [old|] eqn:E.
      * destruct (H0 _ _ E) as [-> | ->]; [naive_solver|].
        destruct (decide (st = OK)); naive_solver.
      * naive_solver.
    + intros k. rewrite merge_lookup.
      destruct (decide (k = key)) as [->|Hne].
      * destruct (found0 !! key) as [[]|] eqn:E;
          try destruct (decide (st = OK)); rewrite ?is_Some_alt; naive_solver.
      * naive_solver.
  - split; [eauto|]. split; [done|]. naive_solver.
Qed.

Lemma scan_spec docs : forall found0 found,
  for_each (scan_doc orgs_ buffer_days) docs found0 = Ok found ->
  (forall d, In d docs -> exists o, observe orgs_ buffer_days d = Ok o)
  /\ (two_valued found0 -> two_valued found)
  /\ forall k,
      (found !! k = Some OK <-> found0 !! k = Some OK \/ observed docs k OK)
      /\ (is_Some (found !! k) <->
          is_Some (found0 !! k) \/ exists st, observed docs k st).
Proof.
  induction docs as [|d docs IH]; intros found0 found Hrun.
  - simpl in Hrun. injection Hrun as <-. unfold observed. simpl. naive_solver.
  - simpl in Hrun.
    destruct (scan_doc orgs_ buffer_days found0 d) as [found1|e] eqn:E1;
      [|discriminate].
    simpl in Hrun.
    destruct (scan_doc_step _ _ _ E1) as (Ho & Htv1 & Hk1).
    destruct (IH _ _ Hrun) as (Hok & Htv & Hk).
    split; [|split].
    + intros d' [<-|Hin]; eauto.
    + auto.
    + intros k. destruct (Hk k) as [HOK HSome], (Hk1 k) as [HOK1 HSome1].
      rewrite HOK, HSome, HOK1, HSome1. unfold reconcile.observed. simpl.
      split; split.
      * intros [[H|H]|(d0 & Hin & H)];
          [by left|right; exists d; split; [by left|done]
          |right; exists d0; split; [by right|done]].
      * intros [H|(d0 & [<-|Hin] & H)];
          [left; by left|left; by right|right; by exists d0].
      * intros [[H|(st & H)]|(st & d0 & Hin & H)];
          [by left|right; exists st, d; split; [by left|done]
          |right; exists st, d0; split; [by right|done]].
      * intros [H|(st & d0 & [<-|Hin] & H)];
          [left; by left|left; right; by exists st|right; by exists st, d0].
Qed.

Lemma scan_returns docs : forall found0,
  (forall d, In d docs -> exists o, observe orgs_ buffer_days d = Ok o) ->
  exists found, for_each (scan_doc orgs_ buffer_days) docs found0 = Ok found.
Proof.
  induction docs as [|d docs IH]; intros found0 Hall; simpl; [eauto|].
  destruct (Hall d (or_introl eq_refl)) as [o Ho].
  unfold scan_doc at 1. rewrite Ho. simpl.
  destruct o as [[key st]|]; apply IH; intros; apply Hall; by right.
Qed.

(** The merged table of [docs], read off the observations alone. *)
Lemma found_spec docs found :
  for_each (scan_doc orgs_ buffer_days) docs ∅ = Ok found ->
  forall k,
    (found !! k = Some OK <-> observed docs k OK)
    /\ (found !! k = Some LATE <->
          (exists st, observed docs k st) /\ ~ observed docs k OK)
    /\ (found !! k = None <-> forall st, ~ observed docs k st).
Proof.
  intros Hrun k. destruct (scan_spec _ _ _ Hrun) as (_ & Htv & Hk).
  destruct (Hk k) as [HOK HSome]. rewrite lookup_empty in HOK, HSome.
  assert (Htv' : two_valued found) by (apply Htv; intros ? ?; by rewrite lookup_empty).
  rewrite is_Some_alt in HSome.
  assert (HnotOK : found !! k <> Some OK -> ~ observed docs k OK).
  { intros Hne Ho. apply Hne, HOK. by right. }
  destruct (found !! k) as [s|] eqn:E.
  - assert (Hsome : exists st, observed docs k st).
    { destruct (proj1 HSome I) as [[x Hx]|H]; [discriminate|exact H]. }
    destruct (Htv' _ _ E) as [-> | ->].
    + assert (Ho : observed docs k OK).
      { destruct (proj1 HOK eq_refl) as [?|?]; [discriminate|done]. }
      split; [done|]. split; (split; [discriminate|]).
      * intros [_ Hn]. by destruct Hn.
      * intros Hn. by destruct (Hn OK).
    + specialize (HnotOK ltac:(discriminate)).
      split; [split; [discriminate|done]|]. split; [done|].
      split; [discriminate|]. intros Hn. destruct Hsome as [st H]. by destruct (Hn st).
  - specialize (HnotOK ltac:(discriminate)).
    split; [split; [discriminate|done]|]. split.
    + split; [discriminate|]. intros [Hs _]. exfalso. apply HSome. by right.
    + split; [|done]. intros _ st H. apply HSome. right. by exists st.
Qed.

End Reconcile.

(** ** The loop over organizations and reporting quarters *)

Section Fill.
Variables (today : date) (buffer_days : Z) (found : gmap Key Status).

Lemma fill_quarter_step org result_ yq res1 :
  fill_quarter today buffer_days found org result_ yq = Ok res1 ->
  exists st, res1 = <[key_of org yq := st]> result_
             /\ final_status found today buffer_days (key_of org yq) st.
Proof.
  unfold fill_quarter, final_status, gap_status. fold (key_of org yq).
  destruct (found !! key_of org yq) as [st|] eqn:E.
  - intros [= <-]. eauto.
  - simpl. destruct (quarter_deadline _ _ _) as [dl|e]; simpl; [|discriminate].
    intros [= <-]. eauto.
Qed.

Local Abbreviation filled := (filled found today buffer_days).

Lemma In_dec_key (k : Key) (ks : list Key) : In k ks \/ ~ In k ks.
Proof.
  destruct (decide (k ∈ ks)) as [H|H]; rewrite list_elem_of_In in H; tauto.
Qed.

Lemma filled_nil res : filled [] res res.
Proof. intros k. split; [intros []|done]. Qed.

Lemma filled_cons k0 st ks res0 res :
  final_status found today buffer_days k0 st ->
  filled ks (<[k0 := st]> res0) res -> filled (k0 :: ks) res0 res.
Proof.
  intros Hst Hf k. destruct (Hf k) as [Hin Hout].
  destruct (In_dec_key k ks) as [Hk|Hk].
  - split; [auto|]. intros Hn. exfalso. apply Hn. by right.
  - specialize (Hout Hk). destruct (decide (k = k0)) as [->|Hne].
    + rewrite lookup_insert_eq in Hout. split; [eauto|].
      intros Hn. exfalso. apply Hn. by left.
    + rewrite lookup_insert_ne in Hout by done. split; [|done].
      intros [->|Hin']; done.
Qed.

Lemma filled_app ks1 ks2 res0 res1 res :
  filled ks1 res0 res1 -> filled ks2 res1 res -> filled (ks1 ++ ks2) res0 res.
Proof.
  intros H1 H2 k. destruct (H1 k) as [Hin1 Hout1], (H2 k) as [Hin2 Hout2].
  rewrite in_app_iff. destruct (In_dec_key k ks2) as [Hk|Hk].
  - split; [auto|]. tauto.
  - rewrite (Hout2 Hk). split; [|intros Hn; apply Hout1; tauto].
    intros [Hk1|Hk2]; [auto|done].
Qed.

Lemma fill_org_spec org qs : forall res0 res,
  for_each (fill_quarter today buffer_days found org) qs res0 = Ok res ->
  filled (List.map (key_of org) qs) res0 res.
Proof.
  induction qs as [|yq qs IH]; intros res0 res Hrun; simpl in Hrun.
  - injection Hrun as <-. apply filled_nil.
  - destruct (fill_quarter today buffer_days found org res0 yq) as [res1|e] eqn:E;
      [|discriminate].
    destruct (fill_quarter_step _ _ _ _ E) as (st & -> & Hst).
    simpl. eapply filled_cons; eauto.
Qed.

Lemma fill_all_spec qs orgs_ : forall res0 res,
  for_each (fun result_ org =>
              for_each (fill_quarter today buffer_days found org) qs result_)
           orgs_ res0 = Ok res ->
  filled (flat_map (fun org => List.map (key_of org) qs) orgs_) res0 res.
Proof.
  induction orgs_ as [|org orgs_ IH]; intros res0 res Hrun; simpl in Hrun.
  - injection Hrun as <-. apply filled_nil.
  - destruct (for_each (fill_quarter today buffer_days found org) qs res0)
      as [res1|e] eqn:E; [|discriminate].
    simpl. eapply filled_app; [eapply fill_org_spec|]; eauto.
Qed.

Lemma fill_org_returns org qs : forall res0,
  (forall yq, In yq qs -> found !! key_of org yq = None ->
              exists st, gap_status today buffer_days (key_of org yq) = Ok st) ->
  exists res, for_each (fill_quarter today buffer_days found org) qs res0 = Ok res.
Proof.
  induction qs as [|yq qs IH]; intros res0 Hgap; simpl; [eauto|].
  assert (exists res1, fill_quarter today buffer_days found org res0 yq = Ok res1)
    as [res1 ->].
  { unfold fill_quarter. fold (key_of org yq).
    destruct (found !! key_of org yq) eqn:E; [eauto|].
    destruct (Hgap yq (or_introl eq_refl) E) as [st Hst].
    unfold gap_status in Hst. simpl in Hst.
    destruct (quarter_deadline _ _ _); simpl in *; [eauto|discriminate]. }
  simpl. apply IH. intros; apply Hgap; [by right|done].
Qed.

Lemma fill_all_returns qs orgs_ : forall res0,
  (forall org yq, In org orgs_ -> In yq qs -> found !! key_of org yq = None ->
                  exists st, gap_status today buffer_days (key_of org yq) = Ok st) ->
  exists res,
    for_each (fun result_ org =>
                for_each (fill_quarter today buffer_days found org) qs result_)
             orgs_ res0 = Ok res.
Proof.
  induction orgs_ as [|org orgs_ IH]; intros res0 Hgap; simpl; [eauto|].
  destruct (fill_org_returns org qs res0) as [res1 ->].
  { intros; apply Hgap; [by left|done|done]. }
  simpl. apply IH. intros; apply Hgap; [by right|done|done].
Qed.
End Fill.

(** ** compute_quarter_status *)

Lemma re_search_some {A} (f : pystr -> option A) s r :
  re_search f s = Some r -> exists pre suf, s = pre ++ suf /\ f suf = Some r.
Proof.
  induction s as [|c s IH]; simpl.
  - destruct (f []) eqn:E; [|discriminate]. intros [= <-]. by exists [], [].
  - destruct (f (c :: s)) eqn:E.
    + intros [= <-]. by exists [], (c :: s).
    + intros H. destruct (IH H) as (pre & suf & -> & Hf). by exists (c :: pre), suf.
Qed.

Lemma re_search_none {A} (f : pystr -> option A) s :
  re_search f s = None -> forall pre suf, s = pre ++ suf -> f suf = None.
Proof.
  induction s as [|c s IH]; simpl.
  - destruct (f []) eqn:E; [discriminate|]. intros _ pre suf H.
    symmetry in H. apply app_eq_nil in H. destruct H as [_ ->]. done.
  - destruct (f (c :: s)) eqn:E; [discriminate|]. intros H pre suf Hs.
    destruct pre as [|c' pre]; simpl in Hs.
    + by subst suf.
    + injection Hs as -> ->. by eapply IH.
Qed.

Lemma lazy_quarter_range s c :
  lazy_quarter s = Some c -> (49 <= c <= 52)%N.
Proof.
  induction s as [|a s IH]; [discriminate|].
  cbn [lazy_quarter]. unfold quarter_here at 1.
  destruct ((49 <=? a)%N && (a <=? 52)%N && starts_with s_bungi (skip_spaces s)) eqn:E.
  - intros [= <-]. apply andb_prop in E as [E _]. apply andb_prop in E as [E1 E2].
    apply N.leb_le in E1, E2. lia.
  - destruct (a =? 10)%N; [discriminate|]. exact IH.
Qed.

Lemma extract_year_quarter_range text y q :
  extract_year_quarter text = (Some y, Some q) -> 1 <= q <= 4.
Proof.
  unfold extract_year_quarter.
  destruct (re_search q_re_here text) as [[g1 g2]|] eqn:E; [|discriminate].
  intros [= _ <-]. apply re_search_some in E as (pre & suf & _ & E).
  unfold q_re_here in E.
  destruct suf as [|y1 [|y2 [|y3 [|y4 t]]]]; try discriminate.
  destruct (forallb isdecimal [y1; y2; y3; y4]); [|discriminate].
  destruct (skip_spaces t) as [|c t']; [discriminate|].
  destruct (c =? ch_nyeon)%N; [|discriminate].
  destruct (lazy_quarter t') as [qc|] eqn:Eq; [|discriminate].
  injection E as _ <-. apply lazy_quarter_range in Eq.
  assert (Hc : qc = 49%N \/ qc = 50%N \/ qc = 51%N \/ qc = 52%N) by lia.
  destruct Hc as [-> | [-> | [-> | ->]]]; vm_compute; split; discriminate.
Qed.

Lemma observe_returns orgs_ buffer_days d :
  0 <= buffer_days <= 365 ->
  (forall y q, extract_year_quarter (title d) = (Some y, Some q) -> 1 <= y <= 9998) ->
  exists o, observe orgs_ buffer_days d = Ok o.
Proof.
  intros Hb Hy. unfold observe.
  destruct (match_org orgs_ (title d)) as [[|c org]|]; eauto.
  destruct (extract_year_quarter (title d)) as [[y|] [q|]] eqn:E; eauto.
  destruct (quarter_deadline_returns y q buffer_days) as [dl ->]; eauto.
  eapply extract_year_quarter_range; eauto.
Qed.

Lemma report_keys_cons o orgs_ today :
  report_keys (o :: orgs_) today
  = List.map (key_of o) (report_quarters today) ++ report_keys orgs_ today.
Proof. reflexivity. Qed.

Lemma report_keys_length orgs_ today :
  length (report_keys orgs_ today) = (4 * length orgs_)%nat.
Proof.
  induction orgs_ as [|o orgs_ IH]; [done|].
  rewrite report_keys_cons, length_app, IH, length_map, report_quarters_eq.
  simpl. lia.
Qed.

Lemma report_keys_name orgs_ today k :
  In k (report_keys orgs_ today) ->
  exists org yq, In org orgs_ /\ In yq (report_quarters today) /\ k = key_of org yq.
Proof.
  unfold report_keys. rewrite in_flat_map. intros (org & Hin & Hk).
  apply in_map_iff in Hk as (yq & <- & Hyq). eauto.
Qed.

Lemma report_keys_NoDup orgs_ today :
  NoDup (List.map name orgs_) -> NoDup (report_keys orgs_ today).
Proof.
  induction orgs_ as [|o orgs_ IH]; [constructor|].
  rewrite report_keys_cons.
  change (List.map name (o :: orgs_)) with (name o :: List.map name orgs_).
  intros Hnd. apply NoDup_cons in Hnd as [Hnotin Hnd].
  apply NoDup_app. split; [|split; [|auto]].
  - rewrite report_quarters_eq. unfold key_of. simpl.
    repeat (apply NoDup_cons; split; [set_solver|]). constructor.
  - intros k Hk1 Hk2. apply list_elem_of_In in Hk1, Hk2.
    apply in_map_iff in Hk1 as (yq & <- & _).
    apply (report_keys_name orgs_ today) in Hk2 as (org & yq' & Hin & _ & Heq).
    apply Hnotin. apply list_elem_of_In, in_map_iff. exists org.
    unfold key_of in Heq. by injection Heq as -> _ _.
Qed.

Lemma compute_quarter_status_inv orgs_ docs today buffer_days lookback_count res :
  compute_quarter_status orgs_ docs today buffer_days lookback_count = Ok res ->
  exists found,
    for_each (scan_doc orgs_ buffer_days) docs ∅ = Ok found
    /\ filled found today buffer_days (report_keys orgs_ today) ∅ res.
Proof.
  unfold compute_quarter_status.
  destruct (for_each (scan_doc orgs_ buffer_days) docs ∅) as [found|e]; [|discriminate].
  simpl. intros H. exists found. split; [done|].
  by apply fill_all_spec.
Qed.

Lemma gap_status_values today buffer_days k st :
  gap_status today buffer_days k = Ok st ->
  (st = PENDING \/ st = MISSING)
  /\ exists dl, quarter_deadline (snd (fst k)) (snd k) buffer_days = Ok dl
                /\ st = if date_le today dl then PENDING else MISSING.
Proof.
  unfold gap_status.
  destruct (quarter_deadline _ _ _) as [dl|e]; simpl; [|discriminate].
  intros [= <-]. split; [destruct (date_le today dl); auto|eauto].
Qed.

Lemma observe_deadline orgs_ buffer_days d k st :
  observe orgs_ buffer_days d = Ok (Some (k, st)) ->
  exists dl,
    quarter_deadline (snd (fst k)) (snd k) buffer_days = Ok dl
    /\ (st = OK <->
          pub_date d = None
          \/ exists p, pub_date d = Some p /\ date_le p dl = true)
    /\ (st = LATE <-> exists p, pub_date d = Some p /\ date_le p dl = false).
Proof.
  unfold observe.
  destruct (match_org orgs_ (title d)) as [[|c org]|]; try discriminate.
  destruct (extract_year_quarter (title d)) as [[y|] [q|]]; try discriminate.
  destruct (quarter_deadline y q buffer_days) as [dl|e] eqn:E; simpl; try discriminate.
  intros [= <- <-]. simpl. exists dl. split; [done|].
  destruct (pub_date d) as [p|]; [destruct (date_le p dl) eqn:El|].
  - split; [split; [intros _; right; eauto|done]|].
    split; [done|]. intros (p' & [= <-] & Hp). congruence.
  - split; [split; [done|]|split; [eauto|done]].
    intros [H|(p' & [= <-] & Hp)]; congruence.
  - split; [split; [by left|done]|]. split; [done|]. by intros (p & H & _).
Qed.

Lemma report_quarters_shape today yq :
  In yq (report_quarters today) ->
  yq_year yq = (if month today <=? 2 then year today - 1 else year today)
  /\ 1 <= yq_quarter yq <= 4.
Proof.
  unfold report_quarters. simpl.
  intros [<-|[<-|[<-|[<-|[]]]]]; simpl; split; (reflexivity || lia).
Qed.

(** The reconciliation returns a table when every deadline it needs exists. *)
Lemma compute_quarter_status_returns
    (orgs_ : list Org) (docs : list DocItem) (today : date)
    (buffer_days lookback_count : Z) :
  0 <= buffer_days <= 365 ->
  2 <= year today <= 9998 ->
  (forall d y q, In d docs ->
                 extract_year_quarter (title d) = (Some y, Some q) ->
                 1 <= y <= 9998) ->
  exists res,
    compute_quarter_status orgs_ docs today buffer_days lookback_count = Ok res.
Proof.
  intros Hb Hy Hdocs. unfold compute_quarter_status.
  destruct (scan_returns orgs_ buffer_days docs ∅) as [found ->].
  { intros d Hin. apply observe_returns; eauto. }
  cbn [Py.bind]. apply fill_all_returns. intros org yq _ Hyq _.
  apply report_quarters_shape in Hyq as [Hty Hq].
  unfold gap_status, key_of. simpl.
  destruct (quarter_deadline_returns (yq_year yq) (yq_quarter yq) buffer_days)
    as [dl ->]; simpl; eauto.
  rewrite Hty. destruct (month today <=? 2); lia.
Qed.


(** C4: the table that [compute_quarter_status] returns has an entry for
    every (organization, reporting quarter) pair and for no other key; when
    the roster's names are distinct it has exactly four entries per
    organization; a pair that no document covers holds [PENDING] when
    [today <= deadline] and [MISSING] otherwise. The function does return
    a table when the buffer is at most a year and the years involved leave
    room for the deadline in the calendar. *)
Theorem quarter_status_covers_every_pair
    (orgs_ : list Org) (docs : list DocItem) (today : date)
    (buffer_days lookback_count : Z) :
  (forall res,
      compute_quarter_status orgs_ docs today buffer_days lookback_count = Ok res ->
      (forall k, is_Some (res !! k) <-> In k (report_keys orgs_ today))
      /\ (forall org yq, In org orgs_ -> In yq (report_quarters today) ->
                         is_Some (res !! key_of org yq))
      /\ (NoDup (List.map name orgs_) -> size res = (4 * length orgs_)%nat)
      /\ (forall k,
            In k (report_keys orgs_ today) ->
            (forall st, ~ observed orgs_ buffer_days docs k st) ->
            exists dl,
              quarter_deadline (snd (fst k)) (snd k) buffer_days = Ok dl
              /\ res !! k = Some (if date_le today dl then PENDING else MISSING)))
  /\ (0 <= buffer_days <= 365 ->
      2 <= year today <= 9998 ->
      (forall d y q, In d docs ->
                     extract_year_quarter (title d) = (Some y, Some q) ->
                     1 <= y <= 9998) ->
      exists res,
        compute_quarter_status orgs_ docs today buffer_days lookback_count = Ok res).
Proof.
  split.
  - intros res Hrun.
    apply compute_quarter_status_inv in Hrun as (found & Hscan & Hfill).
    assert (Hdom : forall k, is_Some (res !! k) <-> In k (report_keys orgs_ today)).
    { intros k. destruct (Hfill k) as [Hin Hout]. split.
      - intros Hs. destruct (In_dec_key k (report_keys orgs_ today)) as [|Hn]; [done|].
        rewrite (Hout Hn), lookup_empty in Hs. by destruct Hs.
      - intros Hk. destruct (Hin Hk) as (st & -> & _). eauto. }
    split; [exact Hdom|]. split; [|split].
    + intros org yq Horg Hyq. apply Hdom. unfold report_keys.
      apply in_flat_map. exists org. split; [done|]. by apply in_map.
    + intros Hnd. rewrite <- size_dom.
      assert (dom res = list_to_set (report_keys orgs_ today)) as ->.
      { apply set_eq. intros k.
        rewrite elem_of_dom, Hdom, elem_of_list_to_set, list_elem_of_In. done. }
      rewrite size_list_to_set by by apply report_keys_NoDup.
      apply report_keys_length.
    + intros k Hk Hno. destruct (Hfill k) as [Hin _].
      destruct (Hin Hk) as (st & Hres & Hfin).
      destruct (found_spec _ _ _ _ Hscan k) as (_ & _ & HNone).
      apply HNone in Hno. destruct Hfin as [Hf|[_ Hgap]]; [congruence|].
      apply gap_status_values in Hgap as [_ (dl & Hdl & ->)]. eauto.
  - apply compute_quarter_status_returns.
Qed.


Lemma quarter_status_twelve_keys_witness :
  exists res,
    compute_quarter_status three_orgs [] (Date 2025 4 1) 30 8 = Ok res
    /\ size res = 12%nat
    /\ res !! metro_q1 = Some PENDING.
Proof.
  destruct (quarter_status_covers_every_pair three_orgs [] (Date 2025 4 1) 30 8)
    as [Hcover Hreturns].
  destruct Hreturns as [res Hrun]; [lia|simpl; lia|intros d y q []|].
  exists res. split; [exact Hrun|].
  destruct (Hcover res Hrun) as (_ & _ & Hsize & Hgap). split.
  - apply Hsize. apply (bool_decide_unpack _). vm_compute. exact I.
  - destruct (Hgap metro_q1) as (dl & Hdl & ->).
    + vm_compute. left. reflexivity.
    + intros st (d & [] & _).
    + vm_compute in Hdl. injection Hdl as <-. reflexivity.
Defined.

(** ** opengov.parse_date_loose *)

Lemma date_sep_not_decimal c : is_date_sep c = true -> isdecimal c = false.
Proof.
  unfold is_date_sep. intros H.
  assert (Hc : c = 46%N \/ c = 45%N \/ c = 47%N).
  { apply orb_prop in H as [H|H]; [apply orb_prop in H as [H|H]|];
      apply N.eqb_eq in H; auto. }
  destruct Hc as [-> | [-> | ->]]; reflexivity.
Qed.

Lemma month_sep_here_sound s g2 t :
  month_sep_here s = Some (g2, t) ->
  exists c2, s = g2 ++ c2 :: t
             /\ (length g2 = 1%nat \/ length g2 = 2%nat)
             /\ forallb isdecimal g2 = true /\ is_date_sep c2 = true.
Proof.
  unfold month_sep_here. destruct s as [|m1 [|m2 s]]; try discriminate.
  destruct (isdecimal m1) eqn:E1; simpl; [|discriminate].
  destruct (isdecimal m2) eqn:E2; simpl.
  - destruct s as [|c s]; [discriminate|].
    destruct (is_date_sep c) eqn:Ec; [|discriminate].
    intros [= <- <-]. exists c. simpl. rewrite E1, E2. auto.
  - destruct (is_date_sep m2) eqn:Ec; [|discriminate].
    intros [= <- <-]. exists m2. simpl. rewrite E1. auto.
Qed.

Lemma day_here_sound s g3 :
  day_here s = Some g3 ->
  exists rest, s = g3 ++ rest
               /\ (length g3 = 1%nat \/ length g3 = 2%nat)
               /\ forallb isdecimal g3 = true.
Proof.
  unfold day_here. destruct s as [|d1 [|d2 s]]; try discriminate.
  - destruct (isdecimal d1) eqn:E1; [|discriminate]. intros [= <-].
    exists []. simpl. rewrite E1. auto.
  - destruct (isdecimal d1) eqn:E1; [|discriminate].
    destruct (isdecimal d2) eqn:E2; intros [= <-].
    + exists s. simpl. rewrite E1, E2. auto.
    + exists (d2 :: s). simpl. rewrite E1. auto.
Qed.

Lemma date_re_here_sound suf g1 g2 g3 :
  date_re_here suf = Some (g1, g2, g3) -> loose_date_at suf g1 g2 g3.
Proof.
  unfold date_re_here.
  destruct suf as [|y1 [|y2 [|y3 [|y4 [|c t]]]]]; try discriminate.
  destruct (forallb isdecimal [y1; y2; y3; y4]) eqn:Ey; simpl; [|discriminate].
  destruct (is_date_sep c) eqn:Ec; [|discriminate].
  destruct (month_sep_here t) as [[mo t']|] eqn:Em; [|discriminate].
  destruct (day_here t') as [d|] eqn:Ed; [|discriminate].
  intros [= <- <- <-].
  apply month_sep_here_sound in Em as (c2 & -> & Hl2 & Hd2 & Hc2).
  apply day_here_sound in Ed as (rest & -> & Hl3 & Hd3).
  exists c, c2, rest. repeat split; try done.
  rewrite !forallb_app, Hd2, Hd3. simpl in *. by rewrite Ey.
Qed.

Lemma date_re_here_complete suf g1 g2 g3 :
  loose_date_at suf g1 g2 g3 -> exists g3', date_re_here suf = Some (g1, g2, g3').
Proof.
  intros (c1 & c2 & rest & -> & Hl1 & Hl2 & Hl3 & Hd & Hc1 & Hc2).
  rewrite !forallb_app in Hd. apply andb_prop in Hd as [Hd1 Hd].
  apply andb_prop in Hd as [Hd2 Hd3].
  destruct g1 as [|y1 [|y2 [|y3 [|y4 [|]]]]]; try discriminate.
  assert (Hday : exists g3', day_here (g3 ++ rest) = Some g3').
  { destruct g3 as [|d1 g3]; [simpl in Hl3; lia|].
    simpl in Hd3. apply andb_prop in Hd3 as [E1 _].
    unfold day_here. simpl. destruct (g3 ++ rest); rewrite E1; eauto. }
  destruct Hday as [g3' Hday].
  exists g3'. unfold date_re_here.
  cbn -[forallb month_sep_here day_here isdecimal is_date_sep].
  rewrite Hd1, Hc1. cbn [andb].
  assert (Hm : month_sep_here (g2 ++ c2 :: g3 ++ rest) = Some (g2, g3 ++ rest)).
  { unfold month_sep_here.
    destruct g2 as [|m1 [|m2 [|]]]; simpl in Hl2; try lia; simpl in *.
    - apply andb_prop in Hd2 as [E1 _]. rewrite E1.
      rewrite (date_sep_not_decimal _ Hc2), Hc2. reflexivity.
    - apply andb_prop in Hd2 as [E1 Hd2]. apply andb_prop in Hd2 as [E2 _].
      rewrite E1, E2, Hc2. reflexivity. }
  rewrite Hm, Hday. reflexivity.
Qed.

Lemma re_search_leftmost {A} (f : pystr -> option A) s r :
  re_search f s = Some r ->
  exists pre suf,
    s = pre ++ suf /\ f suf = Some r
    /\ forall pre' suf', s = pre' ++ suf' -> (length pre' < length pre)%nat ->
                         f suf' = None.
Proof.
  induction s as [|c s IH]; simpl.
  - destruct (f []) eqn:E; [|discriminate]. intros [= <-].
    exists [], []. repeat split; try done. simpl. lia.
  - destruct (f (c :: s)) eqn:E.
    + intros [= <-]. exists [], (c :: s). repeat split; try done. simpl. lia.
    + intros H. destruct (IH H) as (pre & suf & -> & Hf & Hleft).
      exists (c :: pre), suf. repeat split; try done.
      intros pre' suf' Hs Hlen. destruct pre' as [|c' pre']; simpl in *.
      * by subst suf'.
      * injection Hs as -> Hs. apply (Hleft pre' suf' Hs). lia.
Qed.

Lemma parse_date_loose_returns s : exists r, parse_date_loose s = Ok r.
Proof.
  unfold parse_date_loose.
  destruct (re_search date_re_here s) as [[[g1 g2] g3]|]; [|eauto].
  destruct (date_new _ _ _); simpl; eauto.
Qed.

Lemma day_here_greedy g3 rest :
  (length g3 = 1%nat \/ length g3 = 2%nat) ->
  forallb isdecimal g3 = true ->
  (length g3 = 1%nat ->
   match rest with c :: _ => isdecimal c = false | [] => True end) ->
  day_here (g3 ++ rest) = Some g3.
Proof.
  destruct g3 as [|d1 [|d2 [|]]]; cbn [length]; intros Hl Hd Hg; try lia.
  - cbn [forallb] in Hd. apply andb_prop in Hd as [E1 _].
    unfold day_here. cbn [app]. destruct rest as [|c rest]; rewrite E1; [done|].
    by rewrite (Hg eq_refl).
  - cbn [forallb] in Hd. apply andb_prop in Hd as [E1 Hd].
    apply andb_prop in Hd as [E2 _].
    unfold day_here. cbn [app]. by rewrite E1, E2.
Qed.

Lemma day_here_parts s g3 :
  day_here s = Some g3 ->
  exists rest, s = g3 ++ rest
               /\ (length g3 = 1%nat \/ length g3 = 2%nat)
               /\ forallb isdecimal g3 = true
               /\ (length g3 = 1%nat ->
                   match rest with c :: _ => isdecimal c = false | [] => True end).
Proof.
  unfold day_here. destruct s as [|d1 [|d2 s]]; try discriminate.
  - destruct (isdecimal d1) eqn:E1; [|discriminate]. intros [= <-].
    exists []. cbn [forallb]. rewrite E1. auto.
  - destruct (isdecimal d1) eqn:E1; [|discriminate].
    destruct (isdecimal d2) eqn:E2; intros [= <-].
    + exists s. cbn [forallb length]. rewrite E1, E2.
      split; [done|]. split; [by right|]. split; [done|]. intros H. discriminate.
    + exists (d2 :: s). cbn [forallb]. rewrite E1. auto.
Qed.

Lemma date_re_here_greedy g1 c1 g2 c2 g3 rest :
  length g1 = 4%nat ->
  (length g2 = 1%nat \/ length g2 = 2%nat) ->
  (length g3 = 1%nat \/ length g3 = 2%nat) ->
  forallb isdecimal (g1 ++ g2 ++ g3) = true ->
  is_date_sep c1 = true -> is_date_sep c2 = true ->
  (length g3 = 1%nat ->
   match rest with c :: _ => isdecimal c = false | [] => True end) ->
  date_re_here (g1 ++ c1 :: g2 ++ c2 :: g3 ++ rest) = Some (g1, g2, g3).
Proof.
  intros Hl1 Hl2 Hl3 Hd Hc1 Hc2 Hg.
  rewrite !forallb_app in Hd. apply andb_prop in Hd as [Hd1 Hd].
  apply andb_prop in Hd as [Hd2 Hd3].
  destruct g1 as [|y1 [|y2 [|y3 [|y4 [|]]]]]; try discriminate.
  pose proof (day_here_greedy g3 rest Hl3 Hd3 Hg) as Hday.
  unfold date_re_here.
  cbn -[forallb month_sep_here day_here isdecimal is_date_sep].
  rewrite Hd1, Hc1. cbn [andb].
  assert (Hm : month_sep_here (g2 ++ c2 :: g3 ++ rest) = Some (g2, g3 ++ rest)).
  { unfold month_sep_here.
    destruct g2 as [|m1 [|m2 [|]]]; simpl in Hl2; try lia; simpl in *.
    - apply andb_prop in Hd2 as [E1 _]. rewrite E1.
      rewrite (date_sep_not_decimal _ Hc2), Hc2. reflexivity.
    - apply andb_prop in Hd2 as [E1 Hd2]. apply andb_prop in Hd2 as [E2 _].
      rewrite E1, E2, Hc2. reflexivity. }
  rewrite Hm, Hday. reflexivity.
Qed.

Lemma date_re_here_parts suf g1 g2 g3 :
  date_re_here suf = Some (g1, g2, g3) ->
  exists c1 c2 rest,
    suf = g1 ++ c1 :: g2 ++ c2 :: g3 ++ rest
    /\ length g1 = 4%nat
    /\ (length g2 = 1%nat \/ length g2 = 2%nat)
    /\ (length g3 = 1%nat \/ length g3 = 2%nat)
    /\ forallb isdecimal (g1 ++ g2 ++ g3) = true
    /\ is_date_sep c1 = true /\ is_date_sep c2 = true
    /\ (length g3 = 1%nat ->
        match rest with c :: _ => isdecimal c = false | [] => True end).
Proof.
  unfold date_re_here.
  destruct suf as [|y1 [|y2 [|y3 [|y4 [|c t]]]]]; try discriminate.
  destruct (forallb isdecimal [y1; y2; y3; y4]) eqn:Ey; simpl; [|discriminate].
  destruct (is_date_sep c) eqn:Ec; [|discriminate].
  destruct (month_sep_here t) as [[mo t']|] eqn:Em; [|discriminate].
  destruct (day_here t') as [d|] eqn:Ed; [|discriminate].
  intros [= <- <- <-].
  apply month_sep_here_sound in Em as (c2 & -> & Hl2 & Hd2 & Hc2).
  apply day_here_parts in Ed as (rest & -> & Hl3 & Hd3 & Hg).
  exists c, c2, rest. repeat split; try done.
  rewrite !forallb_app, Hd2, Hd3. simpl in *. by rewrite Ey.
Qed.

Lemma re_search_at {A} (f : pystr -> option A) pre suf r :
  (forall pre' suf', pre ++ suf = pre' ++ suf' -> (length pre' < length pre)%nat ->
                     f suf' = None) ->
  f suf = Some r ->
  re_search f (pre ++ suf) = Some r.
Proof.
  induction pre as [|c pre IH]; intros Hleft Hf.
  - cbn [app]. destruct suf; cbn [re_search]; by rewrite Hf.
  - cbn [app re_search].
    rewrite (Hleft [] (c :: pre ++ suf) eq_refl) by (cbn [length]; lia).
    apply IH; [|done]. intros pre' suf' Hs Hlen.
    apply (Hleft (c :: pre') suf'); [cbn [app]; by f_equal|cbn [length]; lia].
Qed.

(** C7 (as amended): [parse_date_loose] never raises. It settles on the
    leftmost occurrence in the text of a 4-digit year, a separator from
    [. - /], a 1-2 digit month, a separator from the same set (not
    necessarily the same one) and a 1-2 digit day, the day taking a second
    digit whenever one follows: it returns the date these digits form when
    that is a valid calendar date and "no date" when it is not; whenever the
    text holds such an occurrence there is a leftmost one; and it returns
    "no date" when the text holds none. Conversely a date returned is the
    one read off the leftmost occurrence. *)
Theorem parse_date_loose_leftmost_loose_match (s : pystr) :
  (exists r, parse_date_loose s = Ok r)
  /\ (forall dt,
        parse_date_loose s = Ok (Some dt) ->
        exists pre suf g1 g2 g3,
          s = pre ++ suf /\ loose_date_at suf g1 g2 g3
          /\ date_new (int_of_digits g1) (int_of_digits g2) (int_of_digits g3) = Ok dt
          /\ forall pre' suf' h1 h2 h3,
               s = pre' ++ suf' -> (length pre' < length pre)%nat ->
               ~ loose_date_at suf' h1 h2 h3)
  /\ ((forall pre suf g1 g2 g3, s = pre ++ suf -> ~ loose_date_at suf g1 g2 g3) ->
      parse_date_loose s = Ok None)
  /\ (forall g1 g2 g3 e,
        re_search date_re_here s = Some (g1, g2, g3) ->
        date_new (int_of_digits g1) (int_of_digits g2) (int_of_digits g3) = Raise e ->
        parse_date_loose s = Ok None)
  /\ (forall pre g1 g2 g3,
        leftmost_date s pre g1 g2 g3 ->
        parse_date_loose s
        = match date_new (int_of_digits g1) (int_of_digits g2) (int_of_digits g3) with
          | Ok dt => Ok (Some dt)
          | Raise _ => Ok None
          end)
  /\ ((exists pre suf g1 g2 g3, s = pre ++ suf /\ loose_date_at suf g1 g2 g3) ->
      exists pre g1 g2 g3, leftmost_date s pre g1 g2 g3).
Proof.
  assert (Hfound : forall pre g1 g2 g3,
            leftmost_date s pre g1 g2 g3 ->
            parse_date_loose s
            = match date_new (int_of_digits g1) (int_of_digits g2)
                             (int_of_digits g3) with
              | Ok dt => Ok (Some dt)
              | Raise _ => Ok None
              end).
  { intros pre g1 g2 g3
           (c1 & c2 & rest & Hs & Hl1 & Hl2 & Hl3 & Hd & Hc1 & Hc2 & Hg & Hleft).
    assert (E : re_search date_re_here s = Some (g1, g2, g3)).
    { rewrite Hs. apply re_search_at.
      - intros pre' suf' Heq Hlen.
        destruct (date_re_here suf') as [[[h1 h2] h3]|] eqn:E'; [|done].
        exfalso. apply (Hleft pre' suf' h1 h2 h3); [by rewrite Hs|done|].
        by apply date_re_here_sound.
      - by apply date_re_here_greedy. }
    unfold parse_date_loose. rewrite E. cbv zeta.
    by destruct (date_new (int_of_digits g1) (int_of_digits g2) (int_of_digits g3)). }
  assert (Hexists : (exists pre suf g1 g2 g3,
                        s = pre ++ suf /\ loose_date_at suf g1 g2 g3) ->
                    exists pre g1 g2 g3, leftmost_date s pre g1 g2 g3).
  { intros (pre0 & suf0 & h1 & h2 & h3 & Hs0 & Hat).
    destruct (re_search date_re_here s) as [[[g1 g2] g3]|] eqn:E.
    - apply re_search_leftmost in E as (pre & suf & Hs & Hm & Hleft).
      apply date_re_here_parts in Hm
        as (c1 & c2 & rest & -> & Hl1 & Hl2 & Hl3 & Hd & Hc1 & Hc2 & Hg).
      exists pre, g1, g2, g3, c1, c2, rest. repeat split; try done.
      intros pre' suf' k1 k2 k3 Hs' Hlen Hat'.
      apply date_re_here_complete in Hat' as [k3' Hk].
      rewrite (Hleft _ _ Hs' Hlen) in Hk. discriminate.
    - apply date_re_here_complete in Hat as [h3' Hat].
      rewrite (re_search_none _ _ E pre0 suf0 Hs0) in Hat. discriminate. }
  assert (Hold :
    (exists r, parse_date_loose s = Ok r)
    /\ (forall dt,
          parse_date_loose s = Ok (Some dt) ->
          exists pre suf g1 g2 g3,
            s = pre ++ suf /\ loose_date_at suf g1 g2 g3
            /\ date_new (int_of_digits g1) (int_of_digits g2) (int_of_digits g3) = Ok dt
            /\ forall pre' suf' h1 h2 h3,
                 s = pre' ++ suf' -> (length pre' < length pre)%nat ->
                 ~ loose_date_at suf' h1 h2 h3)
    /\ ((forall pre suf g1 g2 g3, s = pre ++ suf -> ~ loose_date_at suf g1 g2 g3) ->
        parse_date_loose s = Ok None)
    /\ (forall g1 g2 g3 e,
          re_search date_re_here s = Some (g1, g2, g3) ->
          date_new (int_of_digits g1) (int_of_digits g2) (int_of_digits g3) = Raise e ->
          parse_date_loose s = Ok None)).
  { clear Hfound Hexists. unfold parse_date_loose.
    destruct (re_search date_re_here s) as [[[g1 g2] g3]|] eqn:E.
    - destruct (date_new (int_of_digits g1) (int_of_digits g2) (int_of_digits g3))
        as [dt|e] eqn:Ed; simpl.
      + split; [eauto|]. split; [|split].
        * intros dt' [= <-].
          apply re_search_leftmost in E as (pre & suf & -> & Hm & Hleft).
          exists pre, suf, g1, g2, g3. split; [done|].
          split; [by apply date_re_here_sound|]. split; [done|].
          intros pre' suf' h1 h2 h3 Hs Hlen Hat.
          apply date_re_here_complete in Hat as [h3' Hat].
          rewrite (Hleft _ _ Hs Hlen) in Hat. discriminate.
        * intros Hno. apply re_search_some in E as (pre & suf & -> & Hm).
          exfalso. eapply Hno; [done|]. by apply date_re_here_sound.
        * intros h1 h2 h3 e [= <- <- <-]. rewrite Ed. discriminate.
      + split; [eauto|]. split; [discriminate|]. split; done.
    - split; [eauto|]. split; [discriminate|]. split; [done|]. discriminate. }
  destruct Hold as (H1 & H2 & H3 & H4).
  exact (conj H1 (conj H2 (conj H3 (conj H4 (conj Hfound Hexists))))).
Qed.

Lemma parse_date_loose_witness :
  parse_date_loose (u "등록일 2025-03-15") = Ok (Some (Date 2025 3 15))
  /\ (exists pre suf g1 g2 g3,
         u "등록일 2025-03-15" = pre ++ suf /\ loose_date_at suf g1 g2 g3
         /\ date_new (int_of_digits g1) (int_of_digits g2) (int_of_digits g3)
            = Ok (Date 2025 3 15))
  /\ parse_date_loose (u "2025-13-01") = Ok None.
Proof.
  destruct (parse_date_loose_leftmost_loose_match (u "등록일 2025-03-15"))
    as (_ & Hsome & _ & _ & Hfound & _).
  destruct (parse_date_loose_leftmost_loose_match (u "2025-13-01"))
    as (_ & _ & _ & Hbad & _).
  assert (Hrun : parse_date_loose (u "등록일 2025-03-15") = Ok (Some (Date 2025 3 15))).
  { rewrite (Hfound (u "등록일 ") (u "2025") (u "03") (u "15")); [reflexivity|].
    exists 45%N, 45%N, []. split; [reflexivity|]. split; [reflexivity|].
    split; [by right|]. split; [by right|]. split; [reflexivity|].
    split; [reflexivity|]. split; [reflexivity|]. split; [intros H; discriminate|].
    intros pre' suf' h1 h2 h3 Hs Hlen Hat.
    apply date_re_here_complete in Hat as [h3' Hat].
    assert (Hsuf : suf' = drop (length pre') (u "등록일 2025-03-15")).
    { by rewrite Hs, drop_app_length. }
    change (length (u "등록일 ")) with 4%nat in Hlen.
    destruct (length pre') as [|[|[|[|n]]]]; [| | | |lia];
      subst suf'; vm_compute in Hat; discriminate. }
  split; [exact Hrun|]. split.
  - destruct (Hsome (Date 2025 3 15) Hrun)
      as (pre & suf & g1 & g2 & g3 & H1 & H2 & H3 & _).
    exists pre, suf, g1, g2, g3. auto.
  - apply (Hbad (u "2025") (u "13") (u "01")
                (Exn ValueError (u "month must be in 1..12")));
      vm_compute; reflexivity.
Defined.

(** C7 as stated fails: with two different separators the function still
    returns a date, although the text holds no date written with the same
    separator twice. *)
Lemma parse_date_loose_mixed_separators :
  ~ ((exists dt, parse_date_loose (u "2025-03/15") = Ok (Some dt))
     <-> same_sep_date_in (u "2025-03/15") = true).
Proof.
  intros [H _].
  assert (Hf : same_sep_date_in (u "2025-03/15") = false) by (vm_compute; reflexivity).
  rewrite Hf in H. enough (false = true) by discriminate.
  apply H. exists (Date 2025 3 15). vm_compute. reflexivity.
Qed.

(** ** opengov.fetch_docs_all *)





Lemma range_In a b p : In p (range a b) <-> a <= p < b.
Proof.
  unfold range. rewrite in_map_iff. split.
  - intros (i & <- & Hi). apply in_seq in Hi. lia.
  - intros H. exists (Z.to_nat (p - a)). split; [lia|]. apply in_seq. lia.
Qed.



Section Crawl.
Variables (w : World) (urljoin : pystr -> pystr -> pystr).
Variables (target_y stop_after_empty timeout_sec polite_sleep_ms : Z).

Local Abbreviation crawl :=
  (opengov.crawl_pages w urljoin target_y stop_after_empty timeout_sec polite_sleep_ms).
Local Abbreviation page_url := (fun p => opengov.list_page_url target_y p 50).

Lemma add_row_returns docs tr : exists docs', opengov.add_row urljoin docs tr = Ok docs'.
Proof.
  unfold opengov.add_row. destruct (row_anchor tr) as [a|]; [|eauto].
  destruct (re_search opengov.public_id_here (href a)) as [n|]; [|eauto].
  destruct (parse_date_loose_returns (row_text tr)) as [pub ->]. simpl.
  destruct (existsb _ docs); eauto.
Qed.

Lemma add_rows_return rows : forall docs,
  exists docs', for_each (opengov.add_row urljoin) rows docs = Ok docs'.
Proof.
  induction rows as [|tr rows IH]; intros docs; simpl; [eauto|].
  destruct (add_row_returns docs tr) as [docs1 ->]. simpl. apply IH.
Qed.

Lemma crawl_fetch_failure page rest docs streak h e :
  http_get w h (page_url page) timeout_sec = Raise e ->
  crawl (page :: rest) docs streak h
  = crawl rest docs streak (h ++ [Get (page_url page) timeout_sec; Sleep 1000]).
Proof.
  intros Hget. simpl. unfold opengov.get_soup. rewrite Hget. simpl.
  by rewrite <- app_assoc.
Qed.

Lemma crawl_empty_page page rest docs streak h b :
  http_get w h (page_url page) timeout_sec = Ok b ->
  table_rows (soup b) = [] ->
  crawl (page :: rest) docs streak h
  = if stop_after_empty <=? streak + 1
    then (Ok docs, h ++ [Get (page_url page) timeout_sec])
    else crawl rest docs (streak + 1) (h ++ [Get (page_url page) timeout_sec]).
Proof.
  intros Hget Hrows. simpl. unfold opengov.get_soup. rewrite Hget. simpl.
  by rewrite Hrows.
Qed.

Lemma crawl_rows_page page rest docs streak h b :
  http_get w h (page_url page) timeout_sec = Ok b ->
  table_rows (soup b) <> [] ->
  exists docs',
    for_each (opengov.add_row urljoin) (table_rows (soup b)) docs = Ok docs'
    /\ crawl (page :: rest) docs streak h
       = crawl rest docs' 0
           (h ++ [Get (page_url page) timeout_sec; Sleep polite_sleep_ms]).
Proof.
  intros Hget Hrows. destruct (add_rows_return (table_rows (soup b)) docs) as [docs' Hd].
  exists docs'. split; [done|].
  simpl. unfold opengov.get_soup. rewrite Hget. simpl.
  destruct (table_rows (soup b)) as [|tr rows] eqn:E; [done|].
  simpl in Hd. rewrite Hd. by rewrite <- app_assoc.
Qed.

(** The loop asks for an initial segment of its pages, each once, and
    never raises. *)
Lemma crawl_trace pages : forall docs streak h,
  exists docs' added k,
    crawl pages docs streak h = (Ok docs', h ++ added)
    /\ get_urls added = List.map page_url (take k pages).
Proof.
  induction pages as [|page rest IH]; intros docs streak h.
  - exists docs, [], 0%nat. simpl. by rewrite app_nil_r.
  - destruct (http_get w h (page_url page) timeout_sec) as [b|e] eqn:Hget.
    + destruct (table_rows (soup b)) as [|tr rows] eqn:Hrows.
      * rewrite (crawl_empty_page _ _ _ _ _ _ Hget Hrows).
        destruct (stop_after_empty <=? streak + 1).
        -- exists docs, [Get (page_url page) timeout_sec], 1%nat. done.
        -- destruct (IH docs (streak + 1) (h ++ [Get (page_url page) timeout_sec]))
             as (docs' & added & k & -> & Hk).
           exists docs', (Get (page_url page) timeout_sec :: added), (S k).
           rewrite <- app_assoc. simpl. by rewrite Hk.
      * destruct (crawl_rows_page page rest docs streak h b Hget) as (docs1 & _ & ->).
        { by rewrite Hrows. }
        destruct (IH docs1 0 (h ++ [Get (page_url page) timeout_sec; Sleep polite_sleep_ms]))
          as (docs' & added & k & -> & Hk).
        exists docs', (Get (page_url page) timeout_sec :: Sleep polite_sleep_ms :: added), (S k).
        rewrite <- app_assoc. simpl. by rewrite Hk.
    + rewrite (crawl_fetch_failure _ _ _ _ _ _ Hget).
      destruct (IH docs streak (h ++ [Get (page_url page) timeout_sec; Sleep 1000]))
        as (docs' & added & k & -> & Hk).
      exists docs', (Get (page_url page) timeout_sec :: Sleep 1000 :: added), (S k).
      rewrite <- app_assoc. simpl. by rewrite Hk.
Qed.

Section TwoEmptyPages.
Variables (p1 p2 : Z).
Hypothesis threshold : stop_after_empty <= 2.
Hypothesis first_empty : forall h,
  exists b, http_get w h (page_url p1) timeout_sec = Ok b /\ table_rows (soup b) = [].
Hypothesis second_empty : forall h,
  exists b, http_get w h (page_url p2) timeout_sec = Ok b /\ table_rows (soup b) = [].

End TwoEmptyPages.
End Crawl.

Section FetchDocsAll.
Variables (w : World) (urljoin : pystr -> pystr -> pystr).
Variables (target_ym : YearMonth).
Variables (max_pages_fallback stop_after_empty timeout_sec polite_sleep_ms : Z).

Local Abbreviation target_year :=
  (if ym_month target_ym <=? 2 then ym_year target_ym - 1 else ym_year target_ym).

Lemma fetch_total_count_trace items_per_page y h :
  snd (opengov.fetch_total_count w timeout_sec items_per_page y h)
  = h ++ [Get (opengov.list_page_url y 1 items_per_page) timeout_sec].
Proof.
  unfold opengov.fetch_total_count, opengov.get_soup.
  destruct (http_get w h _ timeout_sec) as [b|e]; simpl; [|done].
  destruct (match total_strong (soup b) with
            | Some txt => opengov._parse_int_from_text txt
            | None => None
            end); [done|].
  destruct (re_search opengov.total_re_here (page_text (soup b))); done.
Qed.

Lemma fetch_total_count_raises items_per_page y h e :
  http_get w h (opengov.list_page_url y 1 items_per_page) timeout_sec = Raise e ->
  opengov.fetch_total_count w timeout_sec items_per_page y h
  = (Raise e, h ++ [Get (opengov.list_page_url y 1 items_per_page) timeout_sec]).
Proof.
  intros H. unfold opengov.fetch_total_count, opengov.get_soup. by rewrite H.
Qed.

(** Whatever the probe does, the function returns (it never raises), and
    what it adds to the history is the probe followed by an initial
    segment of the pages 1, 2, ... *)
Lemma fetch_docs_all_trace items_per_page h :
  exists r added,
    opengov.fetch_docs_all w urljoin target_ym max_pages_fallback stop_after_empty
                           timeout_sec polite_sleep_ms items_per_page h
    = (Ok r, h ++ Get (opengov.list_page_url target_year 1 items_per_page) timeout_sec :: added)
    /\ exists n k,
         get_urls added
         = List.map (fun p => opengov.list_page_url target_year p 50)
                    (take k (range 1 (n + 1))).
Proof.
  unfold opengov.fetch_docs_all.
  pose proof (fetch_total_count_trace items_per_page target_year h) as Ht.
  destruct (opengov.fetch_total_count w timeout_sec items_per_page target_year h)
    as [[total|e] h1]; simpl in Ht; subst h1.
  - set (n := match total with
              | Some t => opengov.compute_max_pages t items_per_page
              | None => max_pages_fallback
              end).
    destruct (crawl_trace w urljoin target_year stop_after_empty timeout_sec
                polite_sleep_ms (range 1 (n + 1)) [] 0
                (h ++ [Get (opengov.list_page_url target_year 1 items_per_page) timeout_sec]))
      as (docs & added & k & -> & Hk).
    exists (Some docs), added. rewrite <- app_assoc. split; [done|]. eauto.
  - exists None, []. split; [done|]. exists 0, 0%nat. done.
Qed.

End FetchDocsAll.



(** C1: the probe's failure modes. When the page-1 fetch of the probe
    raises, [fetch_docs_all] returns Python's [None] right after that one
    request: no listing page is crawled and no document set is returned.
    Only when the probe returns without a count does the crawl run over the
    pages 1 .. [max_pages_fallback] and return the documents it collected. *)
Theorem fetch_docs_all_probe_failure
    (w : World) (urljoin : pystr -> pystr -> pystr) (target_ym : YearMonth)
    (max_pages_fallback stop_after_empty timeout_sec polite_sleep_ms
     items_per_page : Z) (h : list Event) :
  let target_y :=
    if ym_month target_ym <=? 2 then ym_year target_ym - 1 else ym_year target_ym in
  let probe := Get (opengov.list_page_url target_y 1 items_per_page) timeout_sec in
  (forall e,
      http_get w h (opengov.list_page_url target_y 1 items_per_page) timeout_sec
      = Raise e ->
      opengov.fetch_docs_all w urljoin target_ym max_pages_fallback stop_after_empty
                             timeout_sec polite_sleep_ms items_per_page h
      = (Ok None, h ++ [probe]))
  /\ (opengov.fetch_total_count w timeout_sec items_per_page target_y h
      = (Ok None, h ++ [probe]) ->
      exists docs h',
        opengov.crawl_pages w urljoin target_y stop_after_empty timeout_sec
                            polite_sleep_ms (range 1 (max_pages_fallback + 1))
                            [] 0 (h ++ [probe])
        = (Ok docs, h')
        /\ opengov.fetch_docs_all w urljoin target_ym max_pages_fallback
                                  stop_after_empty timeout_sec polite_sleep_ms
                                  items_per_page h
           = (Ok (Some docs), h')).
Proof.
  intros target_y probe. split.
  - intros e He. unfold opengov.fetch_docs_all. fold target_y.
    by rewrite (fetch_total_count_raises _ _ _ _ _ _ He).
  - intros Hp. unfold opengov.fetch_docs_all. fold target_y. rewrite Hp.
    destruct (crawl_trace w urljoin target_y stop_after_empty timeout_sec
                polite_sleep_ms (range 1 (max_pages_fallback + 1)) [] 0 (h ++ [probe]))
      as (docs & added & k & Hc & _).
    exists docs, (h ++ [probe] ++ added). rewrite app_assoc, Hc. done.
Qed.

Lemma fetch_docs_all_offline_returns_none :
  opengov.fetch_docs_all offline join_path (mkYearMonth 2025 4) 300 2 30 200 50 []
  = (Ok None, [Get (opengov.list_page_url 2025 1 50) 30]).
Proof.
  apply (proj1 (fetch_docs_all_probe_failure offline join_path (mkYearMonth 2025 4)
                  300 2 30 200 50 []) refused).
  reflexivity.
Defined.






(** ** main: the attachment loop and the seen set *)

Lemma load_save_seen (seen_ : gset pystr) :
  state.load_seen (state.save_seen seen_) = seen_.
Proof.
  unfold state.save_seen, state.load_seen, state.sorted. apply set_eq. intros x.
  rewrite elem_of_list_to_set, merge_sort_Permutation. apply elem_of_elements.
Qed.

Section Attachments.
Variable w : World.
Variable str_lower : pystr -> pystr.
Variable json_dumps : pyval -> result pystr.
Variable excel_read : list N -> result (list (pystr * list parse_xlsx.RowRecord)).
Variable opengov_http_timeout_sec : Z.
Variable summary_provider : pystr.

Local Abbreviation process_attachment :=
  (main.process_attachment w str_lower json_dumps excel_read
                           opengov_http_timeout_sec summary_provider).
Local Abbreviation process_attachments :=
  (main.process_attachments w str_lower json_dumps excel_read
                            opengov_http_timeout_sec summary_provider).

Lemma process_attachment_seen org_name d st a :
  main.seen (process_attachment org_name d st a)
  = {[main.seen_key d a]} ∪ main.seen st.
Proof.
  unfold main.process_attachment.
  destruct (negb (main.is_xlsx str_lower (filename a))); [done|].
  destruct (bool_decide (main.seen_key d a ∈ main.seen st)) eqn:E.
  - apply bool_decide_eq_true in E. simpl. set_solver.
  - destruct (main.summarize_attachment _ _ _ _ _ _ _ _ _ _) as [r h1]. done.
Qed.

Lemma process_attachments_seen org_name d atts : forall st,
  main.seen st ⊆ main.seen (process_attachments org_name d atts st)
  /\ forall a, In a atts ->
               main.seen_key d a ∈ main.seen (process_attachments org_name d atts st).
Proof.
  induction atts as [|a0 atts IH]; intros st; simpl.
  - split; [done|]. intros a [].
  - destruct (IH (process_attachment org_name d st a0)) as [Hsub Hin].
    rewrite process_attachment_seen in Hsub. split; [set_solver|].
    intros a [<-|Ha]; [|by apply Hin]. apply Hsub. set_solver.
Qed.

Lemma process_attachment_again org_name d st a :
  main.is_xlsx str_lower (filename a) = true ->
  main.seen_key d a ∈ main.seen st ->
  process_attachment org_name d st a
  = main.mkLoopState
      (main.att_reports st
       ++ [main.mkAttReport (filename a) (att_url a) (u "xlsx") []])
      (main.seen st) (main.hist st).
Proof.
  intros Hx Hseen. unfold main.process_attachment. rewrite Hx. simpl.
  by rewrite bool_decide_eq_true_2.
Qed.

End Attachments.

(** C5: whatever the download, parse and summarize chain does, the
    attachment's key [documentId|url] is in the seen set when the loop body
    ends, and nothing is ever removed from the set; hence every attachment of
    a processed list is seen afterwards. Processing the same spreadsheet
    attachment again, in any later state of the same run or with the seen
    set saved and loaded back, appends an entry with an empty summary and
    leaves the request history unchanged: nothing is downloaded again. *)
Theorem attachment_key_marked_seen_once_processed
    (w : World) (str_lower : pystr -> pystr) (json_dumps : pyval -> result pystr)
    (excel_read : list N -> result (list (pystr * list parse_xlsx.RowRecord)))
    (opengov_http_timeout_sec : Z) (summary_provider : pystr)
    (org_name : pystr) (d : DocItem) (a : Attachment) (st : main.LoopState) :
  let st1 :=
    main.process_attachment w str_lower json_dumps excel_read
      opengov_http_timeout_sec summary_provider org_name d st a in
  main.seen_key d a ∈ main.seen st1
  /\ main.seen st ⊆ main.seen st1
  /\ (forall atts st0,
        In a atts ->
        main.seen_key d a
        ∈ main.seen (main.process_attachments w str_lower json_dumps excel_read
                       opengov_http_timeout_sec summary_provider org_name d atts st0))
  /\ (main.is_xlsx str_lower (filename a) = true ->
      forall org_name' st2,
        main.seen st1 ⊆ main.seen st2
        \/ main.seen st2 = state.load_seen (state.save_seen (main.seen st1)) ->
        main.process_attachment w str_lower json_dumps excel_read
          opengov_http_timeout_sec summary_provider org_name' d st2 a
        = main.mkLoopState
            (main.att_reports st2
             ++ [main.mkAttReport (filename a) (att_url a) (u "xlsx") []])
            (main.seen st2) (main.hist st2)).
Proof.
  intros st1.
  assert (Hseen : main.seen st1 = {[main.seen_key d a]} ∪ main.seen st)
    by apply process_attachment_seen.
  split; [set_solver|]. split; [set_solver|]. split.
  - intros atts st0 Hin. by apply process_attachments_seen.
  - intros Hx org_name' st2 Hlater. apply process_attachment_again; [done|].
    destruct Hlater as [Hsub|Heq].
    + apply Hsub. set_solver.
    + rewrite Heq, load_save_seen. set_solver.
Qed.

Lemma attachment_processed_once_witness :
  let run := main.process_attachment offline ascii_lower dumps_outcome no_excel 30
               (u "none") (u "Seoul Metro") metro_q1_undated in
  let st1 := run (main.mkLoopState [] ∅ []) sheet_attachment in
  let st2 := run st1 sheet_attachment in
  main.hist st1 = [Get (att_url sheet_attachment) 60]
  /\ main.att_reports st1
     = [main.mkAttReport (u "2025_Q1.XLSX") (att_url sheet_attachment) (u "xlsx")
          (u "(xlsx 처리 실패: connection refused)")]
  /\ main.hist st2 = main.hist st1
  /\ main.att_reports st2
     = main.att_reports st1
       ++ [main.mkAttReport (u "2025_Q1.XLSX") (att_url sheet_attachment) (u "xlsx") []].
Proof.
  intros run st1 st2.
  destruct (attachment_key_marked_seen_once_processed
              offline ascii_lower dumps_outcome no_excel 30 (u "none")
              (u "Seoul Metro") metro_q1_undated sheet_attachment
              (main.mkLoopState [] ∅ [])) as (_ & _ & _ & Hagain).
  specialize (Hagain eq_refl (u "Seoul Metro") st1 (or_introl (reflexivity _))).
  fold run in Hagain. fold st1 in Hagain. fold st2 in Hagain.
  split; [reflexivity|]. split; [reflexivity|].
  rewrite Hagain. split; reflexivity.
Defined.

(** ** summarize.summarize *)

Lemma summarize_openai_spec w text h :
  let api_key := summarize.getenv_stripped w (u "OPENAI_API_KEY") in
  let headers := summarize.openai_headers api_key in
  let body :=
    summarize.openai_body (summarize.getenv_stripped w (u "OPENAI_MODEL")) text in
  summarize._summarize_openai w text h
  = match api_key with
    | [] => (Ok (u "(OpenAI 요약 실패: OPENAI_API_KEY 미설정)"), h)
    | _ =>
        (Ok match (let* data := http_post w h summarize.OPENAI_URL headers body in
                   summarize.read_reply data) with
            | Ok t => t
            | Raise e => u "(OpenAI 요약 실패: " ++ exn_msg e ++ u ")"
            end,
         h ++ [Post summarize.OPENAI_URL headers body])
    end.
Proof.
  intros api_key headers body. unfold summarize._summarize_openai.
  fold api_key. destruct api_key as [|c key] eqn:E; [done|].
  fold headers. fold body.
  destruct (let* data := http_post w h summarize.OPENAI_URL headers body in
            summarize.read_reply data); done.
Qed.

Lemma summarize_openai_returns w text h :
  exists t h', summarize._summarize_openai w text h = (Ok t, h').
Proof.
  rewrite summarize_openai_spec.
  destruct (summarize.getenv_stripped w (u "OPENAI_API_KEY")); eauto.
Qed.

(** C9 (as amended): for the provider "none" (or an empty one) [summarize]
    returns the fixed placeholder for every payload. For any other provider
    it raises exactly what [json.dumps] raises on the payload; when the
    payload can be dumped it never raises: an unknown provider yields a
    placeholder naming it, and the OpenAI path returns either the reply or
    a text describing the failure (missing key, failed request, unexpected
    reply). *)
Theorem summarize_raises_only_when_dumps_raises
    (w : World) (str_lower : pystr -> pystr) (json_dumps : pyval -> result pystr)
    (provider : pystr) (payload : pyval) (h : list Event) :
  let lowered := str_lower (match provider with [] => u "none" | p => p end) in
  (lowered = u "none" ->
   summarize.summarize w str_lower json_dumps provider payload h
   = (Ok summarize.NONE_PLACEHOLDER, h))
  /\ (lowered <> u "none" ->
      forall e, json_dumps payload = Raise e ->
                summarize.summarize w str_lower json_dumps provider payload h
                = (Raise e, h))
  /\ (forall dumped,
        json_dumps payload = Ok dumped ->
        (exists text h',
            summarize.summarize w str_lower json_dumps provider payload h
            = (Ok text, h'))
        /\ (lowered <> u "none" -> lowered <> u "openai" ->
            summarize.summarize w str_lower json_dumps provider payload h
            = (Ok (u "(알 수 없는 provider: " ++ lowered ++ u ")"), h))
        /\ (lowered = u "openai" ->
            let text := summarize._truncate dumped 12000 in
            let api_key := summarize.getenv_stripped w (u "OPENAI_API_KEY") in
            let headers := summarize.openai_headers api_key in
            let body :=
              summarize.openai_body
                (summarize.getenv_stripped w (u "OPENAI_MODEL")) text in
            summarize.summarize w str_lower json_dumps provider payload h
            = match api_key with
              | [] => (Ok (u "(OpenAI 요약 실패: OPENAI_API_KEY 미설정)"), h)
              | _ =>
                  (Ok match (let* data :=
                               http_post w h summarize.OPENAI_URL headers body in
                             summarize.read_reply data) with
                      | Ok t => t
                      | Raise e => u "(OpenAI 요약 실패: " ++ exn_msg e ++ u ")"
                      end,
                   h ++ [Post summarize.OPENAI_URL headers body])
              end)).
Proof.
  intros lowered. unfold summarize.summarize. fold lowered.
  split; [|split].
  - intros ->. reflexivity.
  - intros Hn e ->. by rewrite bool_decide_eq_false_2.
  - intros dumped ->. split; [|split].
    + destruct (bool_decide (lowered = u "none")); [eauto|].
      destruct (bool_decide (lowered = u "openai")); [|eauto].
      apply summarize_openai_returns.
    + intros Hn Ho. by rewrite !bool_decide_eq_false_2.
    + intros Ho. rewrite bool_decide_eq_false_2, bool_decide_eq_true_2; try done.
      * apply summarize_openai_spec.
      * rewrite Ho. discriminate.
Qed.

Lemma summarize_witness :
  fst (summarize.summarize offline ascii_lower dumps_outcome (u "None")
         (VDict [(VStr (u "when"), VObject (u "date"))]) [])
  = Ok summarize.NONE_PLACEHOLDER
  /\ summarize.summarize offline ascii_lower dumps_outcome (u "GPT")
       (VDict [(VStr (u "org"), VStr (u "Seoul Metro"))]) []
     = (Ok (u "(알 수 없는 provider: gpt)"), []).
Proof.
  destruct (summarize_raises_only_when_dumps_raises offline ascii_lower dumps_outcome
              (u "None") (VDict [(VStr (u "when"), VObject (u "date"))]) [])
    as (Hnone & _).
  destruct (summarize_raises_only_when_dumps_raises offline ascii_lower dumps_outcome
              (u "GPT") (VDict [(VStr (u "org"), VStr (u "Seoul Metro"))]) [])
    as (_ & _ & Hok).
  split.
  - rewrite Hnone; reflexivity.
  - destruct (Hok (u "{}") eq_refl) as (_ & Hunknown & _).
    rewrite Hunknown; [reflexivity|vm_compute; discriminate|vm_compute; discriminate].
Defined.

(** C9 as stated fails: a payload holding a value that [json.dumps] cannot
    encode makes [summarize] raise for any provider other than "none". *)
Lemma summarize_raises_on_unencodable_payload :
  summarize.summarize offline ascii_lower dumps_outcome (u "openai")
    (VDict [(VStr (u "when"), VObject (u "date"))]) []
  = (Raise (Exn TypeError (u "Object of type date is not JSON serializable")), [])
  /\ ~ (exists text h',
          summarize.summarize offline ascii_lower dumps_outcome (u "openai")
            (VDict [(VStr (u "when"), VObject (u "date"))]) []
          = (Ok text, h')).
Proof.
  assert (H : summarize.summarize offline ascii_lower dumps_outcome (u "openai")
                (VDict [(VStr (u "when"), VObject (u "date"))]) []
              = (Raise (Exn TypeError (u "Object of type date is not JSON serializable")), []))
    by (vm_compute; reflexivity).
  split; [exact H|]. intros (text & h' & H'). rewrite H in H'. discriminate.
Qed.

(** ** main.is_doc_in_month *)

(** C10: a document without a publish date fails the target-month test for
    every month, so it is never among [month_docs] (the only documents whose
    attachments are fetched and processed) and its presence in the crawl does
    not change that list; yet, when it is matched to a quarter, its single
    observation counts as on time ([OK]). *)
Theorem undated_doc_not_in_month_but_on_time (d : DocItem) :
  pub_date d = None ->
  (forall start end_, is_doc_in_month d start end_ = false)
  /\ (forall docs start end_, ~ In d (month_docs docs start end_))
  /\ (forall before after start end_,
        month_docs (before ++ d :: after) start end_
        = month_docs (before ++ after) start end_)
  /\ (forall orgs_ buffer_days key st,
        observe orgs_ buffer_days d = Ok (Some (key, st)) -> st = OK).
Proof.
  intros Hnone.
  assert (Hf : forall start end_, is_doc_in_month d start end_ = false).
  { intros. unfold is_doc_in_month. rewrite Hnone. reflexivity. }
  split; [exact Hf|]. split; [|split].
  - intros docs start end_ Hin. unfold month_docs in Hin.
    apply List.filter_In in Hin. destruct Hin as [_ Hin].
    rewrite Hf in Hin. discriminate.
  - intros. unfold month_docs.
    rewrite !List.filter_app. simpl. rewrite Hf. reflexivity.
  - intros orgs_ buffer_days key st. unfold observe. rewrite Hnone.
    destruct (match_org orgs_ (title d)) as [[|c org]|]; try discriminate.
    destruct (extract_year_quarter (title d)) as [[y|] [q|]]; try discriminate.
    destruct (quarter_deadline y q buffer_days); simpl; congruence.
Qed.

Lemma undated_doc_witness :
  let d := mkDocItem (u "101") (u "Seoul Metro 2025년 1분기 업무추진비") None
                     (u "/public/101") in
  is_doc_in_month d (Date 2025 4 1) (Date 2025 5 1) = false
  /\ observe [seoul_metro] 30 d = Ok (Some ((u "Seoul Metro", 2025, 1), OK)).
Proof.
  intros d.
  pose proof (undated_doc_not_in_month_but_on_time d eq_refl) as [H1 _].
  split; [apply H1 | vm_compute; reflexivity].
Defined.

(** * Further properties of the code *)

(** ** orgs.py *)

Lemma ascii_lower_char_norm c :
  is_norm_char c = true -> is_norm_char (ascii_lower_char c) = true.
Proof.
  unfold ascii_lower_char. intros H.
  destruct ((65 <=? c)%N && (c <=? 90)%N) eqn:E; [|done].
  apply andb_prop in E as [E1 E2]. apply N.leb_le in E1, E2.
  unfold is_norm_char.
  replace ((97 <=? c + 32)%N && (c + 32 <=? 122)%N) with true.
  - by rewrite !orb_true_r.
  - symmetry. apply andb_true_intro. split; apply N.leb_le; lia.
Qed.

Lemma ascii_lower_char_idem c : ascii_lower_char (ascii_lower_char c) = ascii_lower_char c.
Proof.
  unfold ascii_lower_char.
  destruct ((65 <=? c)%N && (c <=? 90)%N) eqn:E; [|by rewrite E].
  apply andb_prop in E as [E1 E2]. apply N.leb_le in E1, E2.
  replace ((65 <=? c + 32)%N && (c + 32 <=? 90)%N) with false; [done|].
  symmetry. apply andb_false_intro2. apply N.leb_gt. lia.
Qed.

Lemma norm_text_fixed s :
  norm_text (norm_text s) = norm_text s
  /\ Forall (fun c => is_norm_char c = true /\ ascii_lower_char c = c) (norm_text s).
Proof.
  unfold norm_text, ascii_lower.
  induction s as [|c s [IH1 IH2]]; simpl; [by split|].
  destruct (is_norm_char c) eqn:E; [|by split]. simpl.
  rewrite (ascii_lower_char_norm c E). simpl.
  rewrite ascii_lower_char_idem. split; [by f_equal|].
  constructor; [|done]. split; [by apply ascii_lower_char_norm|apply ascii_lower_char_idem].
Qed.

(** X1: [norm_text] applied to its own output changes nothing; its output
    holds only ASCII digits, lower-case ASCII letters and Hangul syllables;
    it distributes over concatenation and never lengthens its input. *)
Theorem norm_text_idempotent (s t : pystr) :
  norm_text (norm_text s) = norm_text s
  /\ Forall (fun c => is_norm_char c = true /\ ascii_lower_char c = c) (norm_text s)
  /\ norm_text (s ++ t) = norm_text s ++ norm_text t
  /\ (length (norm_text s) <= length s)%nat.
Proof.
  destruct (norm_text_fixed s) as [H1 H2]. split; [done|]. split; [done|].
  unfold norm_text, ascii_lower. split.
  - by rewrite List.filter_app, List.map_app.
  - rewrite length_map. apply List.filter_length_le.
Qed.

Lemma starts_with_spec p : forall s,
  starts_with p s = true <-> exists rest, s = p ++ rest.
Proof.
  induction p as [|a p IH]; intros s; simpl.
  - split; [eauto|done].
  - destruct s as [|b s].
    + split; [done|]. by intros [rest H].
    + rewrite andb_true_iff, N.eqb_eq, IH. split.
      * intros [-> [rest ->]]. eauto.
      * intros [rest [= -> ->]]. eauto.
Qed.

Lemma contains_spec p : forall s,
  contains p s = true <-> exists pre post, s = pre ++ p ++ post.
Proof.
  induction s as [|c s IH].
  - simpl. rewrite orb_false_r, starts_with_spec. split.
    + intros [rest H]. by exists [], rest.
    + intros (pre & post & H). symmetry in H.
      apply app_eq_nil in H as [-> H]. apply app_eq_nil in H as [-> ->]. by exists [].
  - cbn [contains]. rewrite orb_true_iff, starts_with_spec, IH. split.
    + intros [[rest H]|(pre & post & ->)].
      * by exists [], rest.
      * by exists (c :: pre), post.
    + intros ([|c' pre] & post & H).
      * left. by exists post.
      * right. injection H as -> ->. by exists pre, post.
Qed.

Lemma qualifies_test org text :
  (4 <=? Z.of_nat (length (norm org))) && contains (norm org) (norm_text text) = true
  <-> qualifies org text.
Proof.
  unfold qualifies. rewrite andb_true_iff, contains_spec, Z.leb_le. split.
  - intros [H ?]. split; [lia|done].
  - intros [H ?]. split; [lia|done].
Qed.

(** X2: [match_org] returns the name of the first organization of the
    roster, in roster order, whose normalized name has at least four
    characters and occurs in the normalized text; it returns [None] exactly
    when no organization qualifies. Normalizing the text beforehand does not
    change the answer. *)
Theorem match_org_first_qualifying (orgs_ : list Org) (text : pystr) :
  match match_org orgs_ text with
  | Some n =>
      exists before org after,
        orgs_ = before ++ org :: after
        /\ n = name org /\ qualifies org text
        /\ forall o, In o before -> ~ qualifies o text
  | None => forall o, In o orgs_ -> ~ qualifies o text
  end
  /\ match_org orgs_ (norm_text text) = match_org orgs_ text.
Proof.
  split.
  2:{ induction orgs_ as [|org rest IH]; simpl; [done|].
      rewrite (proj1 (norm_text_fixed text)), IH. done. }
  induction orgs_ as [|org rest IH]; simpl; [by intros o []|].
  destruct ((4 <=? Z.of_nat (length (norm org)))
            && contains (norm org) (norm_text text)) eqn:E.
  - exists [], org, rest. apply qualifies_test in E.
    split; [done|]. split; [done|]. split; [done|]. by intros o [].
  - assert (Hn : ~ qualifies org text).
    { intros H. apply qualifies_test in H. congruence. }
    destruct (match_org rest text) as [n|].
    + destruct IH as (before & o & after & -> & -> & Hq & Hb).
      exists (org :: before), o, after.
      split; [done|]. split; [done|]. split; [done|].
      intros o' [<-|Hin]; [done|by apply Hb].
    + intros o [<-|Hin]; [done|by apply IH].
Qed.

(** ** opengov.py: facts read from text *)

Lemma decimal_of_range c v : decimal_of c = Some v -> (v <= 9)%N.
Proof.
  unfold decimal_of.
  destruct (List.find (fun z => (z <=? c)%N && (c <? z + 10)%N) decimal_zeros)
    as [z|] eqn:E; [|discriminate].
  intros [= <-]. apply List.find_some in E as [_ E].
  apply andb_prop in E as [E1 E2]. apply N.leb_le in E1. apply N.ltb_lt in E2. lia.
Qed.

Lemma isdecimal_value c :
  isdecimal c = true -> 0 <= Z.of_N (default 0%N (decimal_of c)) <= 9.
Proof.
  unfold isdecimal. destruct (decimal_of c) as [v|] eqn:E; [|discriminate].
  intros _. apply decimal_of_range in E. simpl. lia.
Qed.

Lemma int_of_digits_snoc s c :
  int_of_digits (s ++ [c])
  = 10 * int_of_digits s + Z.of_N (default 0%N (decimal_of c)).
Proof. unfold int_of_digits. by rewrite fold_left_app. Qed.

(** A run of [n] decimal digits reads as a number below [10 ^ n]. *)
Lemma int_of_digits_bound s :
  forallb isdecimal s = true ->
  0 <= int_of_digits s < 10 ^ Z.of_nat (length s).
Proof.
  induction s as [|c s IH] using rev_ind; [done|].
  rewrite forallb_app. intros H. apply andb_prop in H as [Hs Hc].
  simpl in Hc. rewrite andb_true_r in Hc.
  rewrite int_of_digits_snoc, length_app. simpl length.
  replace (Z.of_nat (length s + 1)) with (Z.of_nat (length s) + 1) by lia.
  rewrite Z.pow_add_r by lia. specialize (IH Hs).
  pose proof (isdecimal_value c Hc). lia.
Qed.

Lemma skip_spaces_suffix t : exists sp, t = sp ++ skip_spaces t.
Proof.
  induction t as [|x t [sp Ht]]; simpl; [by exists []|].
  destruct (isspace x); [|by exists []]. exists (x :: sp). simpl. by rewrite <- Ht.
Qed.

Lemma lazy_quarter_bungi s c :
  lazy_quarter s = Some c -> contains s_bungi s = true.
Proof.
  induction s as [|a s IH]; [discriminate|].
  cbn [lazy_quarter]. unfold quarter_here at 1.
  destruct ((49 <=? a)%N && (a <=? 52)%N && starts_with s_bungi (skip_spaces s)) eqn:E.
  - intros _. apply andb_prop in E as [_ E].
    apply starts_with_spec in E as [rest E].
    destruct (skip_spaces_suffix s) as [sp Hs]. apply contains_spec.
    exists (a :: sp), rest. rewrite <- E. simpl. by rewrite <- Hs.
  - destruct (a =? 10)%N; [discriminate|]. intros H.
    apply IH, contains_spec in H as (pre & post & ->).
    apply contains_spec. by exists (a :: pre), post.
Qed.

(** X3: [extract_year_quarter] returns either no year and no quarter, or
    both; when it returns both, the year is between 0 and 9999, the quarter
    between 1 and 4, and the text holds the character for "year" and the word
    for "quarter". *)
Theorem extract_year_quarter_both_or_neither (text : pystr) :
  extract_year_quarter text = (None, None)
  \/ exists y q,
       extract_year_quarter text = (Some y, Some q)
       /\ 0 <= y <= 9999 /\ 1 <= q <= 4
       /\ In ch_nyeon text /\ contains s_bungi text = true.
Proof.
  destruct (extract_year_quarter text) as [oy oq] eqn:Ex.
  pose proof Ex as Ex'. unfold extract_year_quarter in Ex.
  destruct (re_search q_re_here text) as [[g1 g2]|] eqn:E; [|left; congruence].
  right. injection Ex as <- <-. exists (int_of_digits g1), (int_of_digits g2).
  split; [done|]. split; [|split; [by eapply extract_year_quarter_range|]].
  - apply re_search_some in E as (pre & suf & _ & E). unfold q_re_here in E.
    destruct suf as [|y1 [|y2 [|y3 [|y4 t]]]]; try discriminate.
    destruct (forallb isdecimal [y1; y2; y3; y4]) eqn:Ed; [|discriminate].
    destruct (skip_spaces t) as [|c t']; [discriminate|].
    destruct (c =? ch_nyeon)%N; [|discriminate].
    destruct (lazy_quarter t'); [|discriminate]. injection E as <- _.
    pose proof (int_of_digits_bound _ Ed) as Hb. simpl length in Hb.
    change (10 ^ Z.of_nat 4) with 10000 in Hb. lia.
  - apply re_search_some in E as (pre & suf & -> & E). unfold q_re_here in E.
    destruct suf as [|y1 [|y2 [|y3 [|y4 t]]]]; try discriminate.
    destruct (forallb isdecimal [y1; y2; y3; y4]); [|discriminate].
    destruct (skip_spaces_suffix t) as [sp Hsp].
    destruct (skip_spaces t) as [|c t'] eqn:Et; [discriminate|].
    destruct (c =? ch_nyeon)%N eqn:Ec; [|discriminate]. apply N.eqb_eq in Ec. subst c.
    destruct (lazy_quarter t') as [qc|] eqn:Eq; [|discriminate].
    apply lazy_quarter_bungi, contains_spec in Eq as (p1 & p2 & ->).
    rewrite Hsp. split.
    + rewrite !in_app_iff. right. simpl. do 4 right. apply in_app_iff.
      right. by left.
    + apply contains_spec.
      exists (pre ++ [y1; y2; y3; y4] ++ sp ++ ch_nyeon :: p1), p2.
      by rewrite <- !app_assoc.
Qed.

(** ** Dates and their ordinals *)


Lemma days_in_month_leap y m :
  days_in_month y m = days_in_month (if is_leap y then 4 else 1) m.
Proof. unfold days_in_month. destruct (is_leap y); reflexivity. Qed.

Lemma days_before_month_leap y m :
  days_before_month y m = days_before_month (if is_leap y then 4 else 1) m.
Proof.
  unfold days_before_month.
  generalize (List.map Z.of_nat (seq 1 (Z.to_nat (m - 1)))) 0.
  induction l as [|k l IH]; intros acc; simpl; [done|].
  by rewrite IH, (days_in_month_leap y k).
Qed.

(** The year arithmetic of [_ord2ymd]. *)
Lemma days_before_year_decomp a b c e :
  0 <= a -> 0 <= b <= 3 -> 0 <= c <= 24 -> 0 <= e <= 3 ->
  days_before_year (400 * a + 100 * b + 4 * c + e + 1)
  = 146097 * a + 36524 * b + 1461 * c + 365 * e.
Proof.
  intros. unfold days_before_year.
  replace (400 * a + 100 * b + 4 * c + e + 1 - 1) with (400 * a + 100 * b + 4 * c + e) by lia.
  Z.to_euclidean_division_equations. lia.
Qed.

Lemma is_leap_decomp a b c e :
  0 <= a -> 0 <= b <= 3 -> 0 <= c <= 24 -> 0 <= e <= 3 ->
  is_leap (400 * a + 100 * b + 4 * c + e + 1)
  = (e =? 3) && (negb (c =? 24) || (b =? 3)).
Proof.
  intros. unfold is_leap.
  set (y := 400 * a + 100 * b + 4 * c + e + 1).
  assert (H4 : (y mod 4 =? 0) = (e =? 3)).
  { apply eq_iff_eq_true. rewrite !Z.eqb_eq. subst y.
    Z.to_euclidean_division_equations. lia. }
  rewrite H4. destruct (e =? 3) eqn:E3; [|done]. apply Z.eqb_eq in E3. simpl.
  assert (H100 : (y mod 100 =? 0) = (c =? 24)).
  { apply eq_iff_eq_true. rewrite !Z.eqb_eq. subst y.
    Z.to_euclidean_division_equations. lia. }
  rewrite H100. destruct (c =? 24) eqn:E24; [|done]. apply Z.eqb_eq in E24. simpl.
  apply eq_iff_eq_true. rewrite !Z.eqb_eq. subst y.
  Z.to_euclidean_division_equations. lia.
Qed.


Lemma month_day_check :
  forallb (fun n => month_day_ok n true && month_day_ok n false) (range 0 365) = true.
Proof. vm_compute. reflexivity. Qed.

Lemma fromordinal_unfold n0 :
  let n := n0 - 1 in
  let a := n / 146097 in let r1 := n mod 146097 in
  let b := r1 / 36524 in let r2 := r1 mod 36524 in
  let c := r2 / 1461 in let r3 := r2 mod 1461 in
  let e := r3 / 365 in let r := r3 mod 365 in
  let y := 400 * a + 100 * b + 4 * c + e + 1 in
  fromordinal n0 =
    if (e =? 4) || (b =? 4) then Date (y - 1) 12 31
    else
      let md := month_day_of r ((e =? 3) && (negb (c =? 24) || (b =? 3))) in
      Date y (fst md) (snd md).
Proof.
  intros n a r1 b r2 c r3 e r y.
  unfold fromordinal, DI400Y, DI100Y, DI4Y. cbv zeta.
  fold n. fold a. fold r1. fold b. fold r2. fold c. fold r3. fold e. fold r.
  replace (a * 400 + 1 + b * 100 + c * 4 + e) with y by (subst y; lia).
  destruct ((e =? 4) || (b =? 4)); [done|].
  unfold month_day_of. cbv zeta.
  destruct (r <? _); reflexivity.
Qed.

Lemma month_day_of_ok r leap :
  0 <= r < 365 -> month_day_ok r leap = true.
Proof.
  intros Hr. pose proof month_day_check as H.
  rewrite forallb_forall in H. specialize (H r).
  rewrite andb_true_iff in H. destruct H as [Ht Hf].
  { apply range_In. lia. }
  by destruct leap.
Qed.

Lemma toordinal_fromordinal n :
  1 <= n <= MAXORDINAL ->
  toordinal (fromordinal n) = n /\ valid_date (fromordinal n) = true.
Proof.
  unfold MAXORDINAL. intros Hn. rewrite fromordinal_unfold. cbv zeta.
  set (n' := n - 1).
  set (a := n' / 146097). set (r1 := n' mod 146097).
  set (b := r1 / 36524). set (r2 := r1 mod 36524).
  set (c := r2 / 1461). set (r3 := r2 mod 1461).
  set (e := r3 / 365). set (r := r3 mod 365).
  assert (H1 : n' = 146097 * a + r1 /\ 0 <= r1 < 146097)
    by (subst a r1; Z.to_euclidean_division_equations; lia).
  assert (H2 : r1 = 36524 * b + r2 /\ 0 <= r2 < 36524)
    by (subst b r2; Z.to_euclidean_division_equations; lia).
  assert (H3 : r2 = 1461 * c + r3 /\ 0 <= r3 < 1461)
    by (subst c r3; Z.to_euclidean_division_equations; lia).
  assert (H4 : r3 = 365 * e + r /\ 0 <= r < 365)
    by (subst e r; Z.to_euclidean_division_equations; lia).
  clearbody a r1 b r2 c r3 e r. subst n'.
  destruct ((e =? 4) || (b =? 4)) eqn:Esp.
  - assert (Hy : exists b' c',
               0 <= b' <= 3 /\ 0 <= c' <= 24
               /\ 400 * a + 100 * b + 4 * c + e + 1 - 1
                  = 400 * a + 100 * b' + 4 * c' + 3 + 1
               /\ n = 146097 * a + 36524 * b' + 1461 * c' + 365 * 3 + 366
               /\ (c' =? 24) && negb (b' =? 3) = false).
    { apply orb_prop in Esp. destruct (Z.eq_dec b 4) as [Hb|Hb].
      - exists 3, 24. repeat split; lia.
      - destruct Esp as [Ee|Eb]; [|lia]. apply Z.eqb_eq in Ee.
        exists b, c. repeat split; lia. }
    destruct Hy as (b' & c' & Hb' & Hc' & -> & -> & Hleap).
    assert (Hl : is_leap (400 * a + 100 * b' + 4 * c' + 3 + 1) = true).
    { rewrite is_leap_decomp by lia. simpl.
      destruct (c' =? 24), (b' =? 3); done. }
    unfold toordinal, valid_date. cbn [year month day].
    rewrite days_before_month_leap, days_in_month_leap, Hl.
    rewrite days_before_year_decomp by lia.
    change (days_before_month 4 12) with 335. change (days_in_month 4 12) with 31.
    split; [lia|]. unfold MAXYEAR.
    repeat (apply andb_true_intro; split); lia.
  - apply orb_false_elim in Esp as [Ee Eb].
    assert (He : 0 <= e <= 3) by lia. assert (Hb : 0 <= b <= 3) by lia.
    assert (Hc : 0 <= c <= 24) by lia. assert (Ha : 0 <= a) by lia.
    set (leap := (e =? 3) && (negb (c =? 24) || (b =? 3))).
    pose proof (month_day_of_ok r leap ltac:(lia)) as Hok.
    unfold month_day_ok in Hok.
    destruct (month_day_of r leap) as [m d]. cbn [fst snd].
    rewrite !andb_true_iff in Hok. destruct Hok as [[[[Hm1 Hm2] Hd1] Hd2] Hsum].
    assert (Hl : is_leap (400 * a + 100 * b + 4 * c + e + 1) = leap)
      by (by apply is_leap_decomp).
    unfold toordinal, valid_date. cbn [year month day].
    rewrite days_before_month_leap, days_in_month_leap, Hl.
    rewrite days_before_year_decomp by lia.
    split; [lia|]. unfold MAXYEAR.
    repeat (apply andb_true_intro; split); lia.
Qed.


Lemma month_table_check :
  forallb (fun m => month_table_ok true m && month_table_ok false m) (range 1 13) = true.
Proof. vm_compute. reflexivity. Qed.

Lemma month_table y m :
  1 <= m <= 12 ->
  0 <= days_before_month y m
  /\ days_before_month y m + days_in_month y m <= 365 + (if is_leap y then 1 else 0)
  /\ forall m', m < m' <= 12 ->
                days_before_month y m + days_in_month y m <= days_before_month y m'.
Proof.
  intros Hm. pose proof month_table_check as H.
  rewrite forallb_forall in H. specialize (H m ltac:(apply range_In; lia)).
  rewrite !(days_before_month_leap y), !(days_in_month_leap y).
  assert (Hok : month_table_ok (is_leap y) m = true).
  { apply andb_prop in H as [Ht Hf]. by destruct (is_leap y). }
  unfold month_table_ok in Hok.
  rewrite !andb_true_iff in Hok. destruct Hok as [[H0 H1] H2].
  split; [lia|]. split; [lia|]. intros m' Hm'.
  rewrite forallb_forall in H2. specialize (H2 m' ltac:(apply range_In; lia)).
  rewrite (days_before_month_leap y m').
  replace (m <? m') with true in H2 by (symmetry; lia). simpl in H2. lia.
Qed.

Lemma valid_date_bounds d :
  valid_date d = true ->
  1 <= year d <= 9999 /\ 1 <= month d <= 12
  /\ 1 <= day d <= days_in_month (year d) (month d).
Proof.
  unfold valid_date, MAXYEAR. rewrite !andb_true_iff. lia.
Qed.

Lemma valid_date_new d :
  valid_date d = true <-> date_new (year d) (month d) (day d) = Ok d.
Proof.
  unfold valid_date, date_new.
  destruct ((1 <=? year d) && (year d <=? MAXYEAR)); simpl; [|split; discriminate].
  destruct ((1 <=? month d) && (month d <=? 12)); simpl; [|split; discriminate].
  destruct ((1 <=? day d) && (day d <=? days_in_month (year d) (month d))); simpl;
    [|split; discriminate].
  split; [|done]. intros _. by destruct d.
Qed.

Lemma toordinal_year_bounds d :
  valid_date d = true ->
  days_before_year (year d) + 1 <= toordinal d <= days_before_year (year d + 1).
Proof.
  intros Hv. apply valid_date_bounds in Hv as (Hy & Hm & Hd).
  destruct (month_table (year d) (month d) Hm) as (H0 & H1 & _).
  unfold toordinal. split; [lia|].
  destruct (is_leap (year d)) eqn:El.
  - pose proof (days_before_year_leap_step (year d) ltac:(lia) El). lia.
  - pose proof (days_before_year_step (year d) ltac:(lia)). lia.
Qed.

Lemma toordinal_lt a b :
  valid_date a = true -> valid_date b = true ->
  date_cmp a b = Lt -> toordinal a < toordinal b.
Proof.
  intros Ha Hb. unfold date_cmp.
  destruct (year a ?= year b) eqn:Ey; [|intros _|discriminate].
  - apply Z.compare_eq in Ey.
    apply valid_date_bounds in Ha as (_ & Hma & Hda).
    apply valid_date_bounds in Hb as (_ & Hmb & Hdb).
    unfold toordinal. rewrite <- Ey in *.
    destruct (month a ?= month b) eqn:Em; [|intros _|discriminate].
    + apply Z.compare_eq in Em. rewrite <- Em. intros Hd.
      rewrite Z.compare_lt_iff in Hd. lia.
    + rewrite Z.compare_lt_iff in Em.
      destruct (month_table (year a) (month a) Hma) as (_ & _ & Hmono).
      specialize (Hmono (month b) ltac:(lia)). lia.
  - rewrite Z.compare_lt_iff in Ey.
    pose proof (toordinal_year_bounds a Ha) as [_ Hua].
    pose proof (toordinal_year_bounds b Hb) as [Hlb _].
    apply valid_date_bounds in Ha as (Hya & _).
    pose proof (days_before_year_le (year a + 1) (year b) ltac:(lia)). lia.
Qed.

Lemma date_cmp_eq a b : date_cmp a b = Eq -> a = b.
Proof.
  unfold date_cmp.
  destruct (year a ?= year b) eqn:Ey; try discriminate.
  destruct (month a ?= month b) eqn:Em; try discriminate.
  intros Ed. apply Z.compare_eq in Ey, Em, Ed. destruct a, b; simpl in *. congruence.
Qed.

Lemma date_cmp_gt a b : date_cmp a b = Gt -> date_cmp b a = Lt.
Proof.
  unfold date_cmp. rewrite (Z.compare_antisym (year a)), (Z.compare_antisym (month a)),
    (Z.compare_antisym (day a)).
  destruct (year a ?= year b); simpl; try done.
  destruct (month a ?= month b); simpl; try done.
  by destruct (day a ?= day b).
Qed.

(** Comparing two dates is comparing their ordinals. *)
Lemma date_le_ordinal a b :
  valid_date a = true -> valid_date b = true ->
  (date_le a b = true <-> toordinal a <= toordinal b).
Proof.
  intros Ha Hb. unfold date_le. destruct (date_cmp a b) eqn:E.
  - apply date_cmp_eq in E. subst. split; [lia|done].
  - pose proof (toordinal_lt a b Ha Hb E). split; [lia|done].
  - apply date_cmp_gt in E. pose proof (toordinal_lt b a Hb Ha E).
    split; [discriminate|lia].
Qed.

Lemma date_lt_ordinal a b :
  valid_date a = true -> valid_date b = true ->
  (date_lt a b = true <-> toordinal a < toordinal b).
Proof.
  intros Ha Hb. unfold date_lt. destruct (date_cmp a b) eqn:E.
  - apply date_cmp_eq in E. subst. split; [discriminate|lia].
  - pose proof (toordinal_lt a b Ha Hb E). split; [lia|done].
  - apply date_cmp_gt in E. pose proof (toordinal_lt b a Hb Ha E).
    split; [discriminate|lia].
Qed.

Lemma toordinal_range d :
  valid_date d = true -> 1 <= toordinal d <= MAXORDINAL.
Proof.
  intros Hv. pose proof (toordinal_year_bounds d Hv) as [Hl Hu].
  apply valid_date_bounds in Hv as (Hy & _).
  pose proof (days_before_year_le 1 (year d) ltac:(lia)) as H1.
  change (days_before_year 1) with 0 in H1.
  pose proof (days_before_year_le (year d + 1) 10000 ltac:(lia)) as H2.
  change (days_before_year 10000) with 3652059 in H2. unfold MAXORDINAL. lia.
Qed.

Lemma toordinal_inj a b :
  valid_date a = true -> valid_date b = true ->
  toordinal a = toordinal b -> a = b.
Proof.
  intros Ha Hb Heq. destruct (date_cmp a b) eqn:E.
  - by apply date_cmp_eq.
  - pose proof (toordinal_lt a b Ha Hb E). lia.
  - apply date_cmp_gt in E. pose proof (toordinal_lt b a Hb Ha E). lia.
Qed.

Lemma fromordinal_toordinal d :
  valid_date d = true -> fromordinal (toordinal d) = d.
Proof.
  intros Hv. destruct (toordinal_fromordinal (toordinal d) (toordinal_range d Hv))
    as [Ho Hv'].
  by apply toordinal_inj.
Qed.

Lemma date_le_lex a b :
  date_le a b = true
  <-> year a < year b
      \/ (year a = year b
          /\ (month a < month b \/ (month a = month b /\ day a <= day b))).
Proof.
  unfold date_le, date_cmp.
  destruct (Z.compare_spec (year a) (year b));
    destruct (Z.compare_spec (month a) (month b));
    destruct (Z.compare_spec (day a) (day b)); split; (lia || done).
Qed.

Lemma date_lt_lex a b :
  date_lt a b = true
  <-> year a < year b
      \/ (year a = year b
          /\ (month a < month b \/ (month a = month b /\ day a < day b))).
Proof.
  unfold date_lt, date_cmp.
  destruct (Z.compare_spec (year a) (year b));
    destruct (Z.compare_spec (month a) (month b));
    destruct (Z.compare_spec (day a) (day b)); split; (lia || done).
Qed.

Lemma date_le_trans a b c :
  date_le a b = true -> date_le b c = true -> date_le a c = true.
Proof. rewrite !date_le_lex. lia. Qed.

Lemma date_add_days_spec d n :
  valid_date d = true ->
  (1 <= toordinal d + n <= MAXORDINAL ->
   exists d', date_add_days d n = Ok d' /\ valid_date d' = true
              /\ toordinal d' = toordinal d + n)
  /\ (~ 1 <= toordinal d + n <= MAXORDINAL ->
      date_add_days d n = Raise (Exn OverflowError (u "date value out of range"))).
Proof.
  intros Hv. unfold date_add_days. split; intros Hr.
  - replace ((1 <=? toordinal d + n) && (toordinal d + n <=? MAXORDINAL)) with true
      by (symmetry; apply andb_true_intro; lia).
    destruct (toordinal_fromordinal _ Hr) as [Ho Hv']. eauto.
  - replace ((1 <=? toordinal d + n) && (toordinal d + n <=? MAXORDINAL)) with false;
      [done|].
    symmetry. apply andb_false_iff. lia.
Qed.

Lemma quarter_end_date_ok y q :
  1 <= q <= 4 -> 1 <= y <= 9999 ->
  quarter_end_date y q = Ok (Date y (3 * q) (days_in_month y (3 * q)))
  /\ valid_date (Date y (3 * q) (days_in_month y (3 * q))) = true.
Proof.
  intros Hq Hy.
  assert (Hyr : negb ((1 <=? y) && (y <=? MAXYEAR)) = false).
  { unfold MAXYEAR. apply negb_false_iff, andb_true_intro. split; lia. }
  assert (Hyv : (1 <=? y) && (y <=? MAXYEAR) = true) by by apply negb_false_iff.
  assert (Hc : q = 1 \/ q = 2 \/ q = 3 \/ q = 4) by lia.
  unfold quarter_end_date, date_new, valid_date. cbn [year month day].
  destruct Hc as [-> | [-> | [-> | ->]]]; simpl; rewrite Hyr, Hyv; done.
Qed.

(** X4: for a quarter in 1..4 and a year in 1..9999 [quarter_end_date]
    returns the last day of the quarter's third month (the day after it is
    not a date of that month); for any other quarter it raises [ValueError]
    with the message "quarter must be 1..4"; whenever it returns, the quarter
    was in 1..4 and the year in 1..9999. *)
Theorem quarter_end_date_last_day_of_quarter (y q : Z) :
  (1 <= q <= 4 -> 1 <= y <= 9999 ->
   exists e, quarter_end_date y q = Ok e
             /\ year e = y /\ month e = 3 * q
             /\ day e = days_in_month y (3 * q)
             /\ date_new y (3 * q) (day e + 1) <> Ok (Date y (3 * q) (day e + 1)))
  /\ (~ 1 <= q <= 4 ->
      quarter_end_date y q = Raise (Exn ValueError (u "quarter must be 1..4")))
  /\ (forall e, quarter_end_date y q = Ok e -> 1 <= q <= 4 /\ 1 <= y <= 9999).
Proof.
  split; [|split].
  - intros Hq Hy. destruct (quarter_end_date_ok y q Hq Hy) as [He Hv].
    eexists. split; [exact He|]. cbn [year month day]. repeat split.
    unfold date_new.
    destruct (negb ((1 <=? y) && (y <=? MAXYEAR))); [done|].
    destruct (negb ((1 <=? 3 * q) && (3 * q <=? 12))); [done|].
    replace (negb ((1 <=? days_in_month y (3 * q) + 1)
                   && (days_in_month y (3 * q) + 1 <=? days_in_month y (3 * q))))
      with true; [done|].
    symmetry. apply negb_true_iff, andb_false_iff. right. lia.
  - intros Hq. unfold quarter_end_date.
    replace (q =? 1) with false by (symmetry; lia).
    replace (q =? 2) with false by (symmetry; lia).
    replace (q =? 3) with false by (symmetry; lia).
    replace (q =? 4) with false by (symmetry; lia). done.
  - intros e. unfold quarter_end_date, date_new.
    destruct (negb ((1 <=? y) && (y <=? MAXYEAR))) eqn:Ey.
    + repeat (destruct (_ =? _); [discriminate|]). discriminate.
    + apply negb_false_iff, andb_prop in Ey. unfold MAXYEAR in Ey.
      destruct (q =? 1) eqn:E1; [intros _; lia|].
      destruct (q =? 2) eqn:E2; [intros _; lia|].
      destruct (q =? 3) eqn:E3; [intros _; lia|].
      destruct (q =? 4) eqn:E4; [intros _; lia|]. discriminate.
Qed.

Lemma quarter_end_date_witness :
  exists e, quarter_end_date 2024 1 = Ok e /\ e = Date 2024 3 31.
Proof.
  destruct (quarter_end_date_last_day_of_quarter 2024 1) as (H & _).
  destruct (H ltac:(lia) ltac:(lia)) as (e & He & Hy & Hm & Hd & _).
  exists e. split; [done|]. destruct e. simpl in *. by subst.
Defined.

(** X5: for a quarter in 1..4 and a year in 1..9999, [quarter_deadline]
    returns the valid date that lies exactly [buffer_days] days after the
    quarter's last day whenever that day exists in the calendar, and raises
    [OverflowError] otherwise; a buffer of zero gives the quarter's last day
    itself, a non-negative buffer a date not before it, and a larger buffer
    never an earlier deadline. *)
Theorem quarter_deadline_is_end_plus_buffer (y q buffer_days : Z) :
  1 <= q <= 4 -> 1 <= y <= 9999 ->
  exists e,
    quarter_end_date y q = Ok e
    /\ (1 <= toordinal e + buffer_days <= MAXORDINAL ->
        exists dl,
          quarter_deadline y q buffer_days = Ok dl
          /\ valid_date dl = true
          /\ toordinal dl = toordinal e + buffer_days
          /\ (0 <= buffer_days -> date_le e dl = true)
          /\ (buffer_days = 0 -> dl = e))
    /\ (~ 1 <= toordinal e + buffer_days <= MAXORDINAL ->
        exists er, quarter_deadline y q buffer_days = Raise er
                   /\ exn_cls er = OverflowError)
    /\ (forall b' dl dl',
          buffer_days <= b' ->
          quarter_deadline y q buffer_days = Ok dl ->
          quarter_deadline y q b' = Ok dl' ->
          date_le dl dl' = true).
Proof.
  intros Hq Hy. destruct (quarter_end_date_ok y q Hq Hy) as [He Hv].
  eexists. split; [exact He|].
  set (e := Date y (3 * q) (days_in_month y (3 * q))) in *.
  destruct (date_add_days_spec e buffer_days Hv) as [Hin Hout].
  unfold quarter_deadline. rewrite He. cbn [Py.bind].
  split; [|split; [intros Hr; rewrite (Hout Hr); by eexists|]].
  - intros Hr. destruct (Hin Hr) as (dl & -> & Hvd & Ho).
    exists dl. split; [done|]. split; [done|]. split; [done|]. split.
    + intros Hb. apply date_le_ordinal; [done|done|lia].
    + intros ->. apply toordinal_inj; [done|done|lia].
  - intros b' dl dl' Hb Hdl Hdl'.
    destruct (date_add_days_spec e b' Hv) as [Hin' Hout'].
    assert (Hr : 1 <= toordinal e + buffer_days <= MAXORDINAL).
    { destruct (Z_le_dec 1 (toordinal e + buffer_days));
        [destruct (Z_le_dec (toordinal e + buffer_days) MAXORDINAL); [lia|]|];
        rewrite Hout in Hdl by lia; discriminate. }
    assert (Hr' : 1 <= toordinal e + b' <= MAXORDINAL).
    { destruct (Z_le_dec 1 (toordinal e + b'));
        [destruct (Z_le_dec (toordinal e + b') MAXORDINAL); [lia|]|];
        rewrite Hout' in Hdl' by lia; discriminate. }
    destruct (Hin Hr) as (d1 & E1 & Hv1 & Ho1).
    destruct (Hin' Hr') as (d2 & E2 & Hv2 & Ho2).
    rewrite E1 in Hdl. rewrite E2 in Hdl'. injection Hdl as <-. injection Hdl' as <-.
    apply date_le_ordinal; [done|done|lia].
Qed.

Lemma quarter_deadline_witness :
  exists dl, quarter_deadline 2025 1 30 = Ok dl
             /\ toordinal dl = toordinal (Date 2025 3 31) + 30.
Proof.
  destruct (quarter_deadline_is_end_plus_buffer 2025 1 30 ltac:(lia) ltac:(lia))
    as (e & He & Hin & _).
  vm_compute in He. injection He as <-.
  destruct Hin as (dl & Hdl & _ & Ho & _); [vm_compute; split; discriminate|].
  exists dl. split; [exact Hdl|exact Ho].
Defined.


Lemma month_range_ok y m :
  1 <= y <= 9999 -> 1 <= m <= 12 -> ~ (y = 9999 /\ m = 12) ->
  month_range (mkYearMonth y m)
  = Ok (Date y m 1, if m =? 12 then Date (y + 1) 1 1 else Date y (m + 1) 1).
Proof.
  intros Hy Hm Hne. unfold month_range, date_new, MAXYEAR. cbn [ym_year ym_month].
  replace ((1 <=? y) && (y <=? 9999)) with true by (symmetry; apply andb_true_intro; lia).
  replace ((1 <=? m) && (m <=? 12)) with true by (symmetry; apply andb_true_intro; lia).
  assert (Hd : forall a b, 1 <= days_in_month a b).
  { intros a b. unfold days_in_month.
    destruct (b =? 2); [destruct (is_leap a)|destruct (_ || _)]; lia. }
  replace ((1 <=? 1) && (1 <=? days_in_month y m)) with true
    by (symmetry; apply andb_true_intro; pose proof (Hd y m); lia).
  cbn [negb Py.bind]. destruct (m =? 12) eqn:E12.
  - replace ((1 <=? y + 1) && (y + 1 <=? 9999)) with true
      by (symmetry; apply andb_true_intro; lia). done.
  - replace ((1 <=? m + 1) && (m + 1 <=? 12)) with true
      by (symmetry; apply andb_true_intro; lia).
    replace ((1 <=? 1) && (1 <=? days_in_month y (m + 1))) with true
      by (symmetry; apply andb_true_intro; pose proof (Hd y (m + 1)); lia).
    done.
Qed.

Lemma month_range_inv ym start end_ :
  month_range ym = Ok (start, end_) ->
  start = Date (ym_year ym) (ym_month ym) 1
  /\ end_ = (if ym_month ym =? 12 then Date (ym_year ym + 1) 1 1
             else Date (ym_year ym) (ym_month ym + 1) 1)
  /\ 1 <= ym_month ym <= 12.
Proof.
  unfold month_range.
  destruct (date_new (ym_year ym) (ym_month ym) 1) as [s|] eqn:Es; [|discriminate].
  cbn [Py.bind].
  destruct (if ym_month ym =? 12 then _ else _) as [e|] eqn:Ee; [|discriminate].
  cbn [Py.bind]. intros [= <- <-].
  assert (Hnew : forall y m d x, date_new y m d = Ok x ->
                                 x = Date y m d /\ 1 <= m <= 12).
  { intros y m d x. unfold date_new.
    destruct (negb ((1 <=? y) && (y <=? MAXYEAR))); [discriminate|].
    destruct ((1 <=? m) && (m <=? 12)) eqn:Em; [|discriminate]. cbn [negb].
    destruct (negb ((1 <=? d) && (d <=? days_in_month y m))); [discriminate|].
    intros Hx. assert (x = Date y m d) as -> by congruence.
    split; [done|lia]. }
  apply Hnew in Es as [-> Hm]. split; [done|]. split; [|done].
  destruct (ym_month ym =? 12); by apply Hnew in Ee as [-> _].
Qed.

Lemma in_month_range ym start end_ p :
  month_range ym = Ok (start, end_) ->
  1 <= month p <= 12 -> 1 <= day p ->
  (date_le start p && date_lt p end_ = true
   <-> year p = ym_year ym /\ month p = ym_month ym).
Proof.
  intros Hr Hpm Hpd. apply month_range_inv in Hr as (-> & -> & Hm).
  rewrite andb_true_iff, date_le_lex, date_lt_lex. cbn [year month day].
  destruct (ym_month ym =? 12) eqn:E; cbn [year month day]; lia.
Qed.

(** X6: when [month_range] returns [(start, end_)] for a month, [start]
    is before [end_], and a document with a publish date (a day of a month
    in 1..12) passes [is_doc_in_month] exactly when its publish date has the
    year and the month asked for. *)
Theorem month_range_selects_the_month (ym : YearMonth) (start end_ : date) (d : DocItem) :
  month_range ym = Ok (start, end_) ->
  date_lt start end_ = true
  /\ (forall p,
        pub_date d = Some p -> 1 <= month p <= 12 -> 1 <= day p ->
        (is_doc_in_month d start end_ = true
         <-> year p = ym_year ym /\ month p = ym_month ym)).
Proof.
  intros Hr. split.
  - apply month_range_inv in Hr as (-> & -> & Hm).
    apply date_lt_lex. cbn [year month day].
    destruct (ym_month ym =? 12) eqn:E; cbn [year month day]; lia.
  - intros p Hp Hpm Hpd. unfold is_doc_in_month. rewrite Hp.
    by apply in_month_range.
Qed.

Lemma month_range_witness :
  is_doc_in_month metro_q1_late (Date 2025 6 1) (Date 2025 7 1) = true.
Proof.
  apply (proj2 (month_range_selects_the_month (mkYearMonth 2025 6)
                  (Date 2025 6 1) (Date 2025 7 1) metro_q1_late eq_refl)
               (Date 2025 6 2) eq_refl); simpl; lia.
Defined.

(** X7: for a day of the years 2..9999, [prev_month] is the calendar
    month before the day's month (December of the year before for a day in
    January), and [month_range] of it returns the interval from its first day
    to the first day of the current month. *)
Theorem prev_month_range_ends_at_current_month (when : date) :
  1 <= month when <= 12 -> 2 <= year when <= 9999 ->
  1 <= ym_month (prev_month when) <= 12
  /\ (month when = 1 -> prev_month when = mkYearMonth (year when - 1) 12)
  /\ (month when <> 1 -> prev_month when = mkYearMonth (year when) (month when - 1))
  /\ month_range (prev_month when)
     = Ok (Date (ym_year (prev_month when)) (ym_month (prev_month when)) 1,
           Date (year when) (month when) 1).
Proof.
  intros Hm Hy. unfold prev_month. destruct (month when =? 1) eqn:E.
  - apply Z.eqb_eq in E. cbn [ym_year ym_month].
    split; [lia|]. split; [done|]. split; [lia|].
    rewrite month_range_ok by lia. change (12 =? 12) with true. cbv iota.
    rewrite E. replace (year when - 1 + 1) with (year when) by lia. done.
  - apply Z.eqb_neq in E. cbn [ym_year ym_month].
    split; [lia|]. split; [lia|]. split; [done|].
    rewrite month_range_ok by lia.
    replace (month when - 1 =? 12) with false by (symmetry; lia).
    replace (month when - 1 + 1) with (month when) by lia. done.
Qed.

Lemma prev_month_witness :
  month_range (prev_month (Date 2026 1 15)) = Ok (Date 2025 12 1, Date 2026 1 1).
Proof.
  destruct (prev_month_range_ends_at_current_month (Date 2026 1 15)) as (_ & _ & _ & H);
    simpl; try lia.
  exact H.
Defined.

Lemma quarter_of_month_range m :
  1 <= m <= 12 ->
  1 <= quarter_of_month m <= 4
  /\ 3 * quarter_of_month m - 2 <= m <= 3 * quarter_of_month m.
Proof.
  intros Hm. unfold quarter_of_month. Z.to_euclidean_division_equations. lia.
Qed.

(** X8: for a valid date, [yq_from_date] gives a quarter in 1..4 of the
    date's year such that the date is not after [quarter_end_date] of that
    quarter and, unless the quarter is the first, is after the end date of
    the quarter before. *)
Theorem date_lies_in_its_quarter (d : date) :
  valid_date d = true ->
  let yq := yq_from_date d in
  1 <= yq_quarter yq <= 4
  /\ exists e,
       quarter_end_date (yq_year yq) (yq_quarter yq) = Ok e
       /\ date_le d e = true
       /\ (1 < yq_quarter yq ->
           exists e', quarter_end_date (yq_year yq) (yq_quarter yq - 1) = Ok e'
                      /\ date_lt e' d = true).
Proof.
  intros Hv yq. apply valid_date_bounds in Hv as (Hy & Hm & Hd).
  destruct (quarter_of_month_range (month d) Hm) as [Hq Hqm].
  subst yq. unfold yq_from_date. cbn [yq_year yq_quarter].
  split; [done|].
  destruct (quarter_end_date_ok (year d) (quarter_of_month (month d)) Hq Hy) as [He _].
  eexists. split; [exact He|]. split.
  - apply date_le_lex. cbn [year month day].
    destruct (Z.eq_dec (month d) (3 * quarter_of_month (month d))) as [Heq|Hne]; [|lia].
    right. split; [done|]. right. split; [done|]. rewrite <- Heq. lia.
  - intros Hq1.
    destruct (quarter_end_date_ok (year d) (quarter_of_month (month d) - 1)
                ltac:(lia) Hy) as [He' _].
    eexists. split; [exact He'|]. apply date_lt_lex. cbn [year month day]. lia.
Qed.

Lemma date_lies_in_its_quarter_witness :
  exists e, quarter_end_date 2025 2 = Ok e /\ date_le (Date 2025 5 15) e = true.
Proof.
  destruct (date_lies_in_its_quarter (Date 2025 5 15) eq_refl) as (_ & e & He & Hle & _).
  exists e. split; [exact He|exact Hle].
Defined.


Lemma iter_quarters_spec n : forall y q,
  1 <= q <= 4 ->
  length (iter_quarters n y q) = n
  /\ Forall (fun yq => 1 <= yq_quarter yq <= 4) (iter_quarters n y q)
  /\ List.map quarter_index (iter_quarters n y q)
     = List.map (fun i => 4 * y + q - Z.of_nat i) (seq 0 n).
Proof.
  induction n as [|n IH]; intros y q Hq; [by repeat split|].
  cbn [iter_quarters]. cbv zeta.
  assert (Hstep : exists y' q', 1 <= q' <= 4 /\ 4 * y' + q' = 4 * y + q - 1
            /\ (if q - 1 =? 0 then iter_quarters n (y - 1) 4
                else iter_quarters n y (q - 1)) = iter_quarters n y' q').
  { destruct (q - 1 =? 0) eqn:E.
    - exists (y - 1), 4. repeat split; lia.
    - exists y, (q - 1). repeat split; lia. }
  destruct Hstep as (y' & q' & Hq' & Hidx & ->).
  destruct (IH y' q' Hq') as (Hl & Hf & Hmap).
  split; [simpl; by rewrite Hl|]. split; [by constructor|].
  cbn [List.map seq]. f_equal; [unfold quarter_index; simpl; lia|].
  rewrite Hmap, <- seq_shift, List.map_map. apply List.map_ext. intros i. lia.
Qed.

(** X9: [iter_last_n_quarters today n] returns [max n 0] quarters, each
    numbered 1..4, the first being the quarter of [today] and every next one
    the quarter just before: counted as [4 * year + quarter] the entries
    decrease by one. *)
Theorem iter_last_n_quarters_consecutive (today : date) (n : Z) :
  1 <= month today <= 12 ->
  let l := iter_last_n_quarters today n in
  length l = Z.to_nat n
  /\ Forall (fun yq => 1 <= yq_quarter yq <= 4) l
  /\ List.map quarter_index l
     = List.map (fun i => quarter_index (yq_from_date today) - Z.of_nat i)
                (seq 0 (Z.to_nat n))
  /\ (0 < n -> head l = Some (yq_from_date today)).
Proof.
  intros Hm l. subst l. unfold iter_last_n_quarters.
  destruct (quarter_of_month_range (month today) Hm) as [Hq _].
  destruct (iter_quarters_spec (Z.to_nat n) (yq_year (yq_from_date today))
              (yq_quarter (yq_from_date today)) Hq) as (Hl & Hf & Hmap).
  split; [done|]. split; [done|]. split; [done|].
  intros Hn. destruct (Z.to_nat n) as [|k] eqn:E; [lia|].
  cbn [iter_quarters head]. by destruct (yq_from_date today).
Qed.

Lemma iter_last_n_quarters_witness :
  iter_last_n_quarters (Date 2025 2 10) 3
  = [mkYearQuarter 2025 1; mkYearQuarter 2024 4; mkYearQuarter 2024 3]
  /\ length (iter_last_n_quarters (Date 2025 2 10) 3) = 3%nat.
Proof.
  destruct (iter_last_n_quarters_consecutive (Date 2025 2 10) 3) as (Hl & _);
    [simpl; lia|].
  split; [reflexivity|exact Hl].
Defined.

(** ** opengov.py: numbers and page counts *)

Lemma int_of_digits_nonneg s : 0 <= int_of_digits s.
Proof.
  unfold int_of_digits.
  assert (H : forall acc, 0 <= acc ->
            0 <= fold_left (fun acc c => 10 * acc + Z.of_N (default 0%N (decimal_of c))) s acc).
  { induction s as [|c s IH]; intros acc Hacc; [done|]. simpl. apply IH. lia. }
  by apply H.
Qed.

Lemma take_while_app_stop p g post :
  Forall (fun c => p c = true) g ->
  match post with [] => True | c :: _ => p c = false end ->
  take_while p (g ++ post) = g.
Proof.
  intros Hg Hpost. induction Hg as [|c g Hc _ IH]; simpl.
  - destruct post as [|c post]; [done|]. simpl. by rewrite Hpost.
  - by rewrite Hc, IH.
Qed.

Lemma re_search_skip {A} (f : pystr -> option A) pre s :
  (forall pre1 pre2, pre = pre1 ++ pre2 -> pre2 <> [] -> f (pre2 ++ s) = None) ->
  re_search f (pre ++ s) = re_search f s.
Proof.
  induction pre as [|c pre IH]; intros H; [done|].
  pose proof (H [] (c :: pre) eq_refl ltac:(done)) as H0.
  cbn [app] in H0. cbn [app re_search]. rewrite H0.
  apply IH. intros pre1 pre2 -> Hne. by apply (H (c :: pre1) pre2).
Qed.

Lemma re_search_here {A} (f : pystr -> option A) s r :
  f s = Some r -> re_search f s = Some r.
Proof. intros H. destruct s; simpl; by rewrite H. Qed.

(** X10: [_parse_int_from_text] reads the first run of digits and commas
    of the text and nothing else: with the commas removed the run is the
    number returned, and when the run holds commas only the result is [None]
    even if digits follow later; a text without digits and commas gives
    [None]; a number returned is never negative. (Runs of at most 4300
    characters, the bound of [int] on digit strings.) *)
Theorem parse_int_from_text_reads_first_run (pre g post : pystr) :
  Forall (fun c => isdecimal c || (c =? 44)%N = false) pre ->
  Forall (fun c => isdecimal c || (c =? 44)%N = true) g ->
  g <> [] -> (length g <= 4300)%nat ->
  match post with [] => True | c :: _ => isdecimal c || (c =? 44)%N = false end ->
  opengov._parse_int_from_text (pre ++ g ++ post)
  = match List.filter (fun c => negb (c =? 44)%N) g with
    | [] => None
    | ds => Some (int_of_digits ds)
    end
  /\ opengov._parse_int_from_text pre = None
  /\ forall n, opengov._parse_int_from_text (pre ++ g ++ post) = Some n -> 0 <= n.
Proof.
  intros Hpre Hg Hne Hlen Hpost.
  assert (Hnone : forall s, Forall (fun c => isdecimal c || (c =? 44)%N = false) s ->
                            re_search opengov.num_run_here s = None).
  { intros s Hs. induction Hs as [|c s Hc _ IH]; [done|].
    cbn [re_search]. unfold opengov.num_run_here at 1. cbn [take_while].
    by rewrite Hc. }
  assert (Hrun : opengov._parse_int_from_text (pre ++ g ++ post)
                 = match List.filter (fun c => negb (c =? 44)%N) g with
                   | [] => None
                   | ds => Some (int_of_digits ds)
                   end).
  { unfold opengov._parse_int_from_text.
    destruct (pre ++ g ++ post) as [|c0 rest] eqn:Etext.
    { destruct pre; [destruct g|]; done. }
    rewrite <- Etext. clear c0 rest Etext.
    rewrite re_search_skip.
    - rewrite (re_search_here _ _ g).
      + unfold opengov.py_int.
        pose proof (List.filter_length_le (fun c => negb (c =? 44)%N) g) as Hfl.
        destruct (List.filter (fun c => negb (c =? 44)%N) g) as [|d ds]; [done|].
        replace (4300 <? length (d :: ds))%nat with false; [done|].
        symmetry. apply Nat.ltb_ge. lia.
      + unfold opengov.num_run_here. rewrite take_while_app_stop by done.
        by destruct g.
    - intros pre1 pre2 -> Hne2. apply Forall_app in Hpre as [_ Hpre2].
      destruct pre2 as [|c pre2]; [done|]. apply Forall_cons in Hpre2 as [Hc _].
      unfold opengov.num_run_here. cbn [app take_while]. by rewrite Hc. }
  split; [exact Hrun|]. split.
  - unfold opengov._parse_int_from_text. destruct pre; [done|]. by rewrite Hnone.
  - intros n. rewrite Hrun. destruct (List.filter _ g); [done|].
    intros [= <-]. apply int_of_digits_nonneg.
Qed.

Lemma parse_int_from_text_witness :
  opengov._parse_int_from_text (u "total: 1,234 items") = Some 1234
  /\ opengov._parse_int_from_text (u "total: , 5") = None.
Proof.
  split.
  - apply (parse_int_from_text_reads_first_run (u "total: ") (u "1,234") (u " items")).
    + repeat constructor.
    + repeat constructor.
    + done.
    + cbv. lia.
    + reflexivity.
  - apply (parse_int_from_text_reads_first_run (u "total: ") (u ",") (u " 5")).
    + repeat constructor.
    + repeat constructor.
    + done.
    + cbv. lia.
    + reflexivity.
Defined.

(** X11: for a total below 2^53 (where the float quotient is exact),
    [compute_max_pages] is at least 1; with a page size of 1 or less it is
    [max 1 total_count]; with a page size of at least 1 it is the least
    positive number of pages that holds [total_count] items. *)
Theorem compute_max_pages_least_cover (total_count items_per_page : Z) :
  0 <= total_count < 2 ^ 53 ->
  let n := opengov.compute_max_pages total_count items_per_page in
  1 <= n
  /\ (items_per_page <= 1 -> n = Z.max 1 total_count)
  /\ (1 <= items_per_page ->
      total_count <= n * items_per_page
      /\ forall k, 1 <= k -> total_count <= k * items_per_page -> n <= k).
Proof.
  intros Hrange n. subst n. unfold opengov.compute_max_pages, opengov.ceil_div.
  split; [lia|]. split.
  - intros H. replace (Z.max 1 items_per_page) with 1 by lia.
    rewrite Z.div_1_r. lia.
  - intros H. replace (Z.max 1 items_per_page) with items_per_page by lia.
    pose proof (Z.div_mod (- total_count) items_per_page ltac:(lia)) as Hdm.
    pose proof (Z.mod_pos_bound (- total_count) items_per_page ltac:(lia)) as Hb.
    set (q := - total_count / items_per_page) in *.
    set (r := (- total_count) mod items_per_page) in *.
    split; [nia|]. intros k Hk Hcov.
    destruct (Z.max_spec 1 (- q)) as [[_ ->]|[_ ->]]; [|lia].
    assert (- q - 1 < k); [|lia]. nia.
Qed.

Lemma compute_max_pages_witness :
  opengov.compute_max_pages 101 50 = 3
  /\ 101 <= opengov.compute_max_pages 101 50 * 50
  /\ opengov.compute_max_pages 0 50 = 1.
Proof.
  destruct (compute_max_pages_least_cover 101 50 ltac:(lia)) as (_ & _ & H).
  destruct (H ltac:(lia)) as [Hc _].
  split; [reflexivity|]. split; [exact Hc|reflexivity].
Defined.

(** ** opengov.py: what the crawl collects *)

Lemma take_while_spec p s :
  forallb p (take_while p s) = true
  /\ exists rest, s = take_while p s ++ rest.
Proof.
  induction s as [|c s [IH1 [rest IH2]]]; simpl.
  - split; [done|]. by exists [].
  - destruct (p c) eqn:E; simpl.
    + rewrite E, IH1. split; [done|]. exists rest. by rewrite <- IH2.
    + split; [done|]. by exists (c :: s).
Qed.

Lemma public_id_here_spec s g :
  opengov.public_id_here s = Some g ->
  g <> [] /\ forallb isdecimal g = true
  /\ exists rest, s = u "/public/" ++ g ++ rest.
Proof.
  unfold opengov.public_id_here.
  destruct (starts_with (u "/public/") s) eqn:Es; [|discriminate].
  apply starts_with_spec in Es as [rest ->].
  change (drop 8 (u "/public/" ++ rest)) with rest.
  destruct (take_while_spec isdecimal rest) as [Hd [rest' Hr]].
  destruct (take_while isdecimal rest) as [|c g'] eqn:Et; [discriminate|].
  intros [= <-]. split; [done|]. split; [done|]. exists rest'. by rewrite <- Hr.
Qed.

Lemma parse_date_loose_valid s p :
  parse_date_loose s = Ok (Some p) -> valid_date p = true.
Proof.
  unfold parse_date_loose.
  destruct (re_search date_re_here s) as [[[g1 g2] g3]|]; [|discriminate].
  cbv zeta.
  destruct (date_new (int_of_digits g1) (int_of_digits g2) (int_of_digits g3))
    as [dt|e] eqn:E; cbn [Py.bind try_except]; [|discriminate].
  intros [= <-]. apply valid_date_new.
  assert (dt = Date (int_of_digits g1) (int_of_digits g2) (int_of_digits g3)) as ->; [|done].
  revert E. unfold date_new.
  destruct (negb ((1 <=? int_of_digits g1) && (int_of_digits g1 <=? MAXYEAR))); [discriminate|].
  destruct (negb ((1 <=? int_of_digits g2) && (int_of_digits g2 <=? 12))); [discriminate|].
  destruct (negb _); [discriminate|]. congruence.
Qed.

Lemma listed_facts urljoin d :
  listed urljoin d ->
  nid d <> [] /\ forallb isdecimal (nid d) = true
  /\ (forall p, pub_date d = Some p -> valid_date p = true)
  /\ exists a, url d = urljoin opengov.BASE (href a)
               /\ contains (u "/public/" ++ nid d) (href a) = true.
Proof.
  intros (tr & a & Ha & Hid & Ht & Hu & Hp).
  apply re_search_some in Hid as (pre & suf & Hh & Hid).
  apply public_id_here_spec in Hid as (Hne & Hd & rest & ->).
  split; [done|]. split; [done|]. split.
  - intros p Hpub. rewrite Hpub in Hp. by apply parse_date_loose_valid in Hp.
  - exists a. split; [done|]. apply contains_spec. exists pre, rest.
    by rewrite Hh, <- app_assoc.
Qed.

Lemma fresh_records_nil urljoin docs : fresh_records urljoin docs [].
Proof.
  split; [constructor|]. split; [constructor|]. intros d Hd. by apply elem_of_nil in Hd.
Qed.

Lemma fresh_records_app urljoin docs e1 e2 :
  fresh_records urljoin docs e1 -> fresh_records urljoin (docs ++ e1) e2 ->
  fresh_records urljoin docs (e1 ++ e2).
Proof.
  intros (Hl1 & Hn1 & Hf1) (Hl2 & Hn2 & Hf2). split; [by apply Forall_app|]. split.
  - rewrite map_app. apply NoDup_app. split; [done|]. split; [|done].
    intros x Hx1 Hx2. apply list_elem_of_fmap in Hx2 as (d & -> & Hd).
    apply (Hf2 d Hd). rewrite map_app. apply elem_of_app. by right.
  - intros d Hd. apply elem_of_app in Hd as [Hd|Hd]; [by apply Hf1|].
    intros Hin. apply (Hf2 d Hd). rewrite map_app. apply elem_of_app. by left.
Qed.

Lemma fresh_records_NoDup urljoin docs extra :
  fresh_records urljoin docs extra ->
  NoDup (List.map nid docs) -> NoDup (List.map nid (docs ++ extra)).
Proof.
  intros (_ & Hn & Hf) Hd. rewrite map_app. apply NoDup_app. split; [done|].
  split; [|done]. intros x Hx1 Hx2. apply list_elem_of_fmap in Hx2 as (d & -> & Hd').
  by apply (Hf d Hd').
Qed.

Section CrawlRecords.
Variables (w : World) (urljoin : pystr -> pystr -> pystr).
Variables (target_y stop_after_empty timeout_sec polite_sleep_ms : Z).

Lemma add_row_fresh docs tr :
  exists extra,
    opengov.add_row urljoin docs tr = Ok (docs ++ extra)
    /\ fresh_records urljoin docs extra.
Proof.
  unfold opengov.add_row.
  destruct (row_anchor tr) as [a|] eqn:Ha.
  2: { exists []. rewrite app_nil_r. split; [done|apply fresh_records_nil]. }
  destruct (re_search opengov.public_id_here (href a)) as [nid_|] eqn:Hid.
  2: { exists []. rewrite app_nil_r. split; [done|apply fresh_records_nil]. }
  destruct (parse_date_loose_returns (row_text tr)) as [pub Hpub].
  cbv zeta. rewrite Hpub. cbn [Py.bind].
  destruct (existsb _ docs) eqn:Ex.
  { exists []. rewrite app_nil_r. split; [done|apply fresh_records_nil]. }
  eexists [_]. split; [done|]. split; [|split].
  - constructor; [|constructor]. by exists tr, a.
  - simpl. apply NoDup_singleton.
  - intros d Hd. apply list_elem_of_singleton in Hd as ->. cbn [nid].
    intros Hin. apply list_elem_of_fmap in Hin as (d' & Hn & Hd').
    assert (existsb (fun d => bool_decide (nid d = nid_)) docs = true); [|congruence].
    apply existsb_exists. exists d'. split.
    + by apply list_elem_of_In.
    + by apply bool_decide_eq_true.
Qed.

Lemma add_rows_fresh rows : forall docs,
  exists extra,
    for_each (opengov.add_row urljoin) rows docs = Ok (docs ++ extra)
    /\ fresh_records urljoin docs extra.
Proof.
  induction rows as [|tr rows IH]; intros docs.
  - exists []. rewrite app_nil_r. split; [done|apply fresh_records_nil].
  - destruct (add_row_fresh docs tr) as (e1 & H1 & F1).
    destruct (IH (docs ++ e1)) as (e2 & H2 & F2).
    exists (e1 ++ e2). cbn [for_each]. rewrite H1. cbn [Py.bind].
    rewrite H2, app_assoc. split; [done|]. by apply fresh_records_app.
Qed.

Lemma crawl_fresh pages : forall docs streak h,
  exists extra h',
    opengov.crawl_pages w urljoin target_y stop_after_empty timeout_sec
                        polite_sleep_ms pages docs streak h
    = (Ok (docs ++ extra), h')
    /\ fresh_records urljoin docs extra.
Proof.
  induction pages as [|page rest IH]; intros docs streak h.
  - exists [], h. rewrite app_nil_r. split; [done|apply fresh_records_nil].
  - destruct (http_get w h (opengov.list_page_url target_y page 50) timeout_sec)
      as [b|e] eqn:Eg.
    + destruct (table_rows (soup b)) as [|tr rows] eqn:Erows.
      * rewrite (crawl_empty_page _ _ _ _ _ _ _ _ _ _ _ _ Eg Erows).
        destruct (stop_after_empty <=? streak + 1); [|apply IH].
        exists [], (h ++ [Get (opengov.list_page_url target_y page 50) timeout_sec]).
        rewrite app_nil_r. split; [done|apply fresh_records_nil].
      * destruct (crawl_rows_page w urljoin target_y stop_after_empty timeout_sec
                    polite_sleep_ms page rest docs streak h b Eg) as (docs' & Hfor & ->).
        { by rewrite Erows. }
        destruct (add_rows_fresh (table_rows (soup b)) docs) as (e1 & H1 & F1).
        rewrite H1 in Hfor. injection Hfor as <-.
        destruct (IH (docs ++ e1) 0
                    (h ++ [Get (opengov.list_page_url target_y page 50) timeout_sec;
                           Sleep polite_sleep_ms])) as (e2 & h' & -> & F2).
        exists (e1 ++ e2), h'. rewrite app_assoc. split; [done|].
        by apply fresh_records_app.
    + rewrite (crawl_fetch_failure _ _ _ _ _ _ _ _ _ _ _ _ Eg). apply IH.
Qed.

End CrawlRecords.

Lemma fetch_docs_all_fresh
    (w : World) (urljoin : pystr -> pystr -> pystr) (target_ym : YearMonth)
    (max_pages_fallback stop_after_empty timeout_sec polite_sleep_ms
     items_per_page : Z) (h : list Event) :
  exists r h',
    opengov.fetch_docs_all w urljoin target_ym max_pages_fallback stop_after_empty
                           timeout_sec polite_sleep_ms items_per_page h
    = (Ok r, h')
    /\ match r with
       | None => True
       | Some docs => NoDup (List.map nid docs) /\ Forall (listed urljoin) docs
       end.
Proof.
  unfold opengov.fetch_docs_all. cbv zeta.
  destruct (opengov.fetch_total_count w timeout_sec items_per_page _ h) as [[total|e] h1].
  2: { by exists None, h1. }
  match goal with
  | |- context [opengov.crawl_pages ?w ?uj ?y ?s ?t ?p ?pages [] 0 h1] =>
      destruct (crawl_fresh w uj y s t p pages [] 0 h1) as (extra & h' & -> & F)
  end.
  exists (Some extra), h'. split; [done|]. cbn [app]. split.
  - apply (fresh_records_NoDup urljoin [] extra F). constructor.
  - by destruct F as (Hl & _ & _).
Qed.



(** ** opengov.py: the requests of one crawl *)

Section CrawlBudget.
Variables (w : World) (urljoin : pystr -> pystr -> pystr).
Variables (target_y stop_after_empty timeout_sec polite_sleep_ms : Z).



End CrawlBudget.






(** ** opengov.py: attachments of a document *)

Section FetchAttachments.
Variables (w : World) (urljoin : pystr -> pystr -> pystr).
Variable parse_query : pystr -> list (pystr * list pystr).
Variable unquote : pystr -> pystr.


End FetchAttachments.


(** ** main.py: the attachment loop *)

Section AttachmentLoop.
Variable w : World.
Variable str_lower : pystr -> pystr.
Variable json_dumps : pyval -> result pystr.
Variable excel_read : list N -> result (list (pystr * list parse_xlsx.RowRecord)).
Variable opengov_http_timeout_sec : Z.
Variable summary_provider : pystr.

Local Abbreviation process_attachment :=
  (main.process_attachment w str_lower json_dumps excel_read
                           opengov_http_timeout_sec summary_provider).
Local Abbreviation process_attachments :=
  (main.process_attachments w str_lower json_dumps excel_read
                            opengov_http_timeout_sec summary_provider).

Lemma summarize_hist provider payload h :
  exists r posts,
    summarize.summarize w str_lower json_dumps provider payload h = (r, h ++ posts)
    /\ get_urls posts = [].
Proof.
  unfold summarize.summarize. cbv zeta.
  destruct (bool_decide (_ = u "none")).
  { exists (Ok summarize.NONE_PLACEHOLDER), []. by rewrite app_nil_r. }
  destruct (json_dumps payload) as [dumped|e].
  2: { exists (Raise e), []. by rewrite app_nil_r. }
  destruct (bool_decide (_ = u "openai")).
  2: { eexists (Ok _), []. by rewrite app_nil_r. }
  rewrite summarize_openai_spec. cbv zeta.
  destruct (summarize.getenv_stripped w (u "OPENAI_API_KEY")).
  - eexists (Ok _), []. by rewrite app_nil_r.
  - by eexists (Ok _), [_].
Qed.

Lemma summarize_attachment_hist org_name d a h :
  exists r posts,
    main.summarize_attachment w str_lower json_dumps excel_read
      opengov_http_timeout_sec summary_provider org_name d a h
    = (r, h ++ Get (att_url a) (Z.max 60 opengov_http_timeout_sec) :: posts)
    /\ get_urls posts = [].
Proof.
  unfold main.summarize_attachment, main.download_bytes.
  destruct (http_get w h (att_url a) (Z.max 60 opengov_http_timeout_sec)) as [b|e];
    cbn [Py.bind].
  2: { by exists (Raise e), []. }
  destruct (parse_xlsx.parse_xlsx_bytes excel_read (content b) 2000) as [parsed|e].
  2: { by exists (Raise e), []. }
  match goal with
  | |- context [summarize.summarize w str_lower json_dumps ?p ?v ?h1] =>
      destruct (summarize_hist p v h1) as (r & posts & -> & Hp)
  end.
  exists r, posts. by rewrite <- app_assoc.
Qed.

Lemma process_attachment_step org_name d st a :
  exists r added,
    main.att_reports (process_attachment org_name d st a) = main.att_reports st ++ [r]
    /\ main.hist (process_attachment org_name d st a) = main.hist st ++ added
    /\ main.r_filename r = filename a /\ main.r_url r = att_url a
    /\ main.r_kind r
       = (if main.is_xlsx str_lower (filename a) then u "xlsx" else u "unsupported")
    /\ (if main.is_xlsx str_lower (filename a) && negb (bool_decide (main.seen_key d a ∈ main.seen st))
        then get_urls added = [att_url a]
        else added = [] /\ main.r_summary r = []).
Proof.
  unfold main.process_attachment. cbv zeta.
  destruct (main.is_xlsx str_lower (filename a)); cbn [negb andb].
  2: { eexists _, []. cbn [main.att_reports main.hist main.r_filename main.r_url
                           main.r_kind main.r_summary].
       by rewrite app_nil_r. }
  destruct (bool_decide (main.seen_key d a ∈ main.seen st)); cbn [negb].
  { eexists _, []. cbn [main.att_reports main.hist main.r_filename main.r_url
                        main.r_kind main.r_summary].
    by rewrite app_nil_r. }
  destruct (summarize_attachment_hist org_name d a (main.hist st)) as (r & posts & -> & Hp).
  eexists _, (Get _ _ :: posts).
  cbn [main.att_reports main.hist main.r_filename main.r_url main.r_kind].
  repeat split. cbn [get_urls flat_map app]. fold (get_urls posts). by rewrite Hp.
Qed.

Lemma process_attachments_steps org_name d atts : forall st,
  exists new added,
    main.att_reports (process_attachments org_name d atts st) = main.att_reports st ++ new
    /\ main.hist (process_attachments org_name d atts st) = main.hist st ++ added
    /\ Forall2 (fun a r =>
                  main.r_filename r = filename a /\ main.r_url r = att_url a
                  /\ main.r_kind r
                     = (if main.is_xlsx str_lower (filename a)
                        then u "xlsx" else u "unsupported")
                  /\ (main.is_xlsx str_lower (filename a) = false ->
                      main.r_summary r = []))
               atts new
    /\ NoDup (get_urls added)
    /\ forall url_, url_ ∈ get_urls added ->
         (nid d ++ u "|" ++ url_ ∉ main.seen st)
         /\ exists a, a ∈ atts /\ att_url a = url_
                      /\ main.is_xlsx str_lower (filename a) = true.
Proof.
  induction atts as [|a atts IH]; intros st.
  - exists [], []. cbn [main.process_attachments fold_left]. rewrite !app_nil_r.
    split; [done|]. split; [done|]. split; [constructor|]. split; [constructor|].
    by intros url_ Hu%elem_of_nil.
  - unfold main.process_attachments. cbn [fold_left].
    fold (process_attachments org_name d atts (process_attachment org_name d st a)).
    destruct (process_attachment_step org_name d st a)
      as (r & added1 & Hr & Hh & Hf & Hu & Hk & Hcase).
    destruct (IH (process_attachment org_name d st a))
      as (new & added2 & Hr2 & Hh2 & HF & Hnd & Hurls).
    exists (r :: new), (added1 ++ added2).
    rewrite Hr2, Hr, Hh2, Hh, <- !app_assoc.
    split; [done|]. split; [done|]. split.
    { constructor; [|done]. split; [done|]. split; [done|]. split; [done|].
      intros Hx. rewrite Hx in Hcase. cbn [andb] in Hcase. by destruct Hcase. }
    assert (Hget : get_urls (added1 ++ added2) = get_urls added1 ++ get_urls added2).
    { unfold get_urls. by rewrite flat_map_app. }
    rewrite Hget.
    assert (Hlater : forall url_, url_ ∈ get_urls added2 ->
              (nid d ++ u "|" ++ url_ ∉ main.seen st)
              /\ url_ <> att_url a
              /\ exists a', a' ∈ atts /\ att_url a' = url_
                            /\ main.is_xlsx str_lower (filename a') = true).
    { intros url_ Hin. destruct (Hurls url_ Hin) as [Hns Hex].
      rewrite process_attachment_seen in Hns. split; [set_solver|]. split; [|done].
      intros ->. apply Hns. apply elem_of_union. left. by apply elem_of_singleton. }
    destruct (main.is_xlsx str_lower (filename a)
              && negb (bool_decide (main.seen_key d a ∈ main.seen st))) eqn:Ec.
    + rewrite Hcase. apply andb_true_iff in Ec as [Ex Es].
      apply negb_true_iff, bool_decide_eq_false in Es. split.
      * cbn [app]. apply NoDup_cons. split; [|done].
        intros Hin. by destruct (Hlater _ Hin) as (_ & Hne & _).
      * intros url_ [->|Hin]%elem_of_cons.
        -- split; [done|]. exists a. split; [apply elem_of_cons; by left|done].
        -- destruct (Hlater _ Hin) as (Hns & _ & a' & Ha' & Hx).
           split; [done|]. exists a'. split; [apply elem_of_cons; by right|done].
    + destruct Hcase as [-> _]. cbn [get_urls flat_map app]. split; [done|].
      intros url_ Hin. destruct (Hlater _ Hin) as (Hns & _ & a' & Ha' & Hx).
      split; [done|]. exists a'. split; [apply elem_of_cons; by right|done].
Qed.

End AttachmentLoop.

(** X15: the attachment loop appends exactly one entry per attachment, in
    order, with the attachment's file name and URL; the kind is "xlsx" for a
    spreadsheet name and "unsupported" otherwise, and an unsupported entry
    has an empty summary. *)
Theorem process_attachments_reports_each_in_order
    (w : World) (str_lower : pystr -> pystr) (json_dumps : pyval -> result pystr)
    (excel_read : list N -> result (list (pystr * list parse_xlsx.RowRecord)))
    (opengov_http_timeout_sec : Z) (summary_provider : pystr)
    (org_name : pystr) (d : DocItem) (atts : list Attachment) (st : main.LoopState) :
  let st' :=
    main.process_attachments w str_lower json_dumps excel_read
      opengov_http_timeout_sec summary_provider org_name d atts st in
  exists new,
    main.att_reports st' = main.att_reports st ++ new
    /\ Forall2 (fun a r =>
                  main.r_filename r = filename a /\ main.r_url r = att_url a
                  /\ main.r_kind r
                     = (if main.is_xlsx str_lower (filename a)
                        then u "xlsx" else u "unsupported")
                  /\ (main.is_xlsx str_lower (filename a) = false ->
                      main.r_summary r = []))
               atts new.
Proof.
  intros st'. subst st'.
  destruct (process_attachments_steps w str_lower json_dumps excel_read
              opengov_http_timeout_sec summary_provider org_name d atts st)
    as (new & added & Hr & _ & HF & _).
  by exists new.
Qed.

Lemma process_attachments_reports_witness :
  exists new,
    main.att_reports
      (main.process_attachments offline ascii_lower dumps_outcome no_excel 30 (u "none")
         (u "Seoul Metro") metro_q1_undated [sheet_attachment]
         (main.mkLoopState [] ∅ []))
    = new
    /\ length new = 1%nat.
Proof.
  destruct (process_attachments_reports_each_in_order offline ascii_lower dumps_outcome
              no_excel 30 (u "none") (u "Seoul Metro") metro_q1_undated
              [sheet_attachment] (main.mkLoopState [] ∅ [])) as (new & Hr & HF).
  exists new. split; [exact Hr|].
  apply Forall2_length in HF. by rewrite <- HF.
Defined.

(** X16: the attachment loop only adds to the request history; the URLs
    it downloads are pairwise distinct, each is the URL of a spreadsheet
    attachment whose key [documentId|url] was not in the seen set when the
    loop started; when every attachment is unsupported or already seen the
    loop makes no request at all. *)
Theorem process_attachments_downloads_unseen_sheets_once
    (w : World) (str_lower : pystr -> pystr) (json_dumps : pyval -> result pystr)
    (excel_read : list N -> result (list (pystr * list parse_xlsx.RowRecord)))
    (opengov_http_timeout_sec : Z) (summary_provider : pystr)
    (org_name : pystr) (d : DocItem) (atts : list Attachment) (st : main.LoopState) :
  let st' :=
    main.process_attachments w str_lower json_dumps excel_read
      opengov_http_timeout_sec summary_provider org_name d atts st in
  exists added,
    main.hist st' = main.hist st ++ added
    /\ NoDup (get_urls added)
    /\ (forall url_, url_ ∈ get_urls added ->
          (nid d ++ u "|" ++ url_ ∉ main.seen st)
          /\ exists a, a ∈ atts /\ att_url a = url_
                       /\ main.is_xlsx str_lower (filename a) = true)
    /\ (Forall (fun a => main.is_xlsx str_lower (filename a) = false
                         \/ main.seen_key d a ∈ main.seen st) atts ->
        added = []).
Proof.
  intros st'. subst st'.
  destruct (process_attachments_steps w str_lower json_dumps excel_read
              opengov_http_timeout_sec summary_provider org_name d atts st)
    as (new & added & _ & Hh & _ & Hnd & Hurls).
  exists added. split; [done|]. split; [done|]. split; [done|].
  intros Hall. clear Hnd Hurls. revert st added Hh Hall.
  induction atts as [|a atts IH]; intros st added Hh Hall.
  - cbn [main.process_attachments fold_left] in Hh.
    by apply (app_inv_head (main.hist st) added []); rewrite app_nil_r.
  - apply Forall_cons in Hall as [Ha Hall].
    unfold main.process_attachments in Hh. cbn [fold_left] in Hh.
    destruct (process_attachment_step w str_lower json_dumps excel_read
                opengov_http_timeout_sec summary_provider org_name d st a)
      as (r & added1 & _ & Hh1 & _ & _ & _ & Hcase).
    replace (main.is_xlsx str_lower (filename a)
             && negb (bool_decide (main.seen_key d a ∈ main.seen st))) with false in Hcase.
    2: { symmetry. destruct Ha as [->|Ha]; [done|].
         apply andb_false_iff. right. apply negb_false_iff. by apply bool_decide_eq_true. }
    destruct Hcase as [-> _]. rewrite app_nil_r in Hh1.
    apply (IH (main.process_attachment w str_lower json_dumps excel_read
                 opengov_http_timeout_sec summary_provider org_name d st a)).
    + by rewrite Hh1.
    + eapply Forall_impl; [exact Hall|]. intros a' [Hx|Hs]; [by left|right].
      rewrite process_attachment_seen. set_solver.
Qed.

Lemma process_attachments_downloads_witness :
  main.hist
    (main.process_attachments offline ascii_lower dumps_outcome no_excel 30 (u "none")
       (u "Seoul Metro") metro_q1_undated [sheet_attachment]
       (main.mkLoopState [] {[main.seen_key metro_q1_undated sheet_attachment]} []))
  = [].
Proof.
  destruct (process_attachments_downloads_unseen_sheets_once offline ascii_lower
              dumps_outcome no_excel 30 (u "none") (u "Seoul Metro") metro_q1_undated
              [sheet_attachment]
              (main.mkLoopState [] {[main.seen_key metro_q1_undated sheet_attachment]} []))
    as (added & Hh & _ & _ & Hnone).
  rewrite Hh. rewrite Hnone; [done|].
  constructor; [|constructor]. right. cbn [main.seen]. by apply elem_of_singleton.
Defined.

(** ** main.py: the document loop *)

Lemma process_docs_spec
    (w : World) (urljoin : pystr -> pystr -> pystr)
    (parse_query : pystr -> list (pystr * list pystr)) (unquote : pystr -> pystr)
    (str_lower : pystr -> pystr) (json_dumps : pyval -> result pystr)
    (excel_read : list N -> result (list (pystr * list parse_xlsx.RowRecord)))
    (opengov_http_timeout_sec : Z) (summary_provider : pystr)
    (orgs_ : list Org) (docs : list DocItem) (doc_reports : list main.DocReport)
    (seen_ : gset pystr) (h : list Event) :
  match main.process_docs w urljoin parse_query unquote str_lower json_dumps
          excel_read opengov_http_timeout_sec summary_provider
          orgs_ docs doc_reports seen_ h with
  | (Ok (reports', seen'), h') =>
      seen_ ⊆ seen'
      /\ (exists added, h' = h ++ added)
      /\ exists new,
           reports' = doc_reports ++ new
           /\ List.map (fun r => (main.dr_org r, main.dr_nid r, main.dr_title r,
                                  main.dr_pub_date r, main.dr_doc_url r)) new
              = flat_map (fun d => match match_org orgs_ (title d) with
                                   | Some (c :: n) =>
                                       [(c :: n, nid d, title d, pub_date d, url d)]
                                   | _ => []
                                   end) docs
  | (Raise e, h') =>
      exists d hd,
        d ∈ docs
        /\ (exists c n, match_org orgs_ (title d) = Some (c :: n))
        /\ http_get w hd (opengov.BASE ++ u "/public/" ++ nid d)
                    opengov_http_timeout_sec = Raise e
        /\ h' = hd ++ [Get (opengov.BASE ++ u "/public/" ++ nid d)
                           opengov_http_timeout_sec]
  end.
Proof.
  revert doc_reports seen_ h.
  induction docs as [|d docs IH]; intros doc_reports seen_ h.
  - cbn [main.process_docs]. split; [done|]. split; [by exists []; rewrite app_nil_r|].
    exists []. by rewrite app_nil_r.
  - cbn [main.process_docs flat_map].
    assert (Hskip :
      match main.process_docs w urljoin parse_query unquote str_lower json_dumps
              excel_read opengov_http_timeout_sec summary_provider
              orgs_ docs doc_reports seen_ h with
      | (Ok (reports', seen'), h') =>
          seen_ ⊆ seen'
          /\ (exists added, h' = h ++ added)
          /\ exists new,
               reports' = doc_reports ++ new
               /\ List.map (fun r => (main.dr_org r, main.dr_nid r, main.dr_title r,
                                      main.dr_pub_date r, main.dr_doc_url r)) new
                  = [] ++ flat_map (fun d => match match_org orgs_ (title d) with
                                       | Some (c :: n) =>
                                           [(c :: n, nid d, title d, pub_date d, url d)]
                                       | _ => []
                                       end) docs
      | (Raise e, h') =>
          exists d0 hd,
            d0 ∈ d :: docs
            /\ (exists c n, match_org orgs_ (title d0) = Some (c :: n))
            /\ http_get w hd (opengov.BASE ++ u "/public/" ++ nid d0)
                        opengov_http_timeout_sec = Raise e
            /\ h' = hd ++ [Get (opengov.BASE ++ u "/public/" ++ nid d0)
                               opengov_http_timeout_sec]
      end).
    { specialize (IH doc_reports seen_ h).
      destruct (main.process_docs _ _ _ _ _ _ _ _ _ _ docs doc_reports seen_ h)
        as [[[reports' seen']|e] h']; [done|].
      destruct IH as (d0 & hd & Hd0 & Hrest). exists d0, hd.
      split; [apply elem_of_cons; by right|done]. }
    destruct (match_org orgs_ (title d)) as [[|c n]|] eqn:Em; [exact Hskip| |exact Hskip].
    clear Hskip.
    unfold opengov.fetch_attachments, opengov.get_soup. cbv zeta.
    destruct (http_get w h (opengov.BASE ++ u "/public/" ++ nid d)
                       opengov_http_timeout_sec) as [b|e] eqn:Eg; cbn [Py.bind].
    2: { exists d, h. split; [apply elem_of_cons; by left|]. split; [by exists c, n|done]. }
    set (atts := opengov.dedup_by_url [] _).
    set (st0 := main.mkLoopState [] seen_ _).
    set (st := main.process_attachments w str_lower json_dumps excel_read
                 opengov_http_timeout_sec summary_provider (c :: n) d atts st0).
    set (report := main.mkDocReport (c :: n) (nid d) (title d) (pub_date d) (url d)
                     (main.att_reports st)).
    specialize (IH (doc_reports ++ [report]) (main.seen st) (main.hist st)).
    destruct (process_attachments_seen w str_lower json_dumps excel_read
                opengov_http_timeout_sec summary_provider (c :: n) d atts st0) as [Hsub _].
    destruct (process_attachments_steps w str_lower json_dumps excel_read
                opengov_http_timeout_sec summary_provider (c :: n) d atts st0)
      as (_ & added0 & _ & Hh0 & _).
    fold st in Hsub, Hh0. cbn [main.seen main.hist st0] in Hsub, Hh0.
    destruct (main.process_docs _ _ _ _ _ _ _ _ _ _ docs (doc_reports ++ [report])
                (main.seen st) (main.hist st)) as [[[reports' seen']|e] h'].
    + destruct IH as (Hs & [added Ha] & new & -> & Hmap).
      split; [set_solver|]. split.
      * exists ([Get (opengov.BASE ++ u "/public/" ++ nid d) opengov_http_timeout_sec]
                ++ added0 ++ added).
        by rewrite Ha, Hh0, <- !app_assoc.
      * exists (report :: new). split; [by rewrite <- app_assoc|].
        cbn [List.map app]. by rewrite Hmap.
    + destruct IH as (d0 & hd & Hd0 & Hrest). exists d0, hd.
      split; [apply elem_of_cons; by right|done].
Qed.


(** ** main.py: the link to the report *)

Lemma take_while_drop p s :
  s = take_while p s ++ drop (length (take_while p s)) s
  /\ Forall (fun c => p c = true) (take_while p s)
  /\ match drop (length (take_while p s)) s with
     | c :: _ => p c = false
     | [] => True
     end.
Proof.
  induction s as [|c s (IH1 & IH2 & IH3)]; [by repeat split|].
  cbn [take_while]. destruct (p c) eqn:E.
  - cbn [length drop app]. split; [by rewrite <- IH1|]. split; [by constructor|done].
  - cbn [length drop app]. by repeat split.
Qed.

Lemma last_rev {A} (l : list A) : last (rev l) = head l.
Proof. destruct l as [|x l]; [done|]. simpl. by rewrite last_snoc. Qed.

Lemma rstrip_slash_spec s :
  exists k, s = main.rstrip_slash s ++ repeat 47%N k
            /\ last (main.rstrip_slash s) <> Some 47%N.
Proof.
  unfold main.rstrip_slash.
  destruct (take_while_drop (fun c => (c =? 47)%N) (rev s)) as (Hs & Hall & Hhd).
  set (tw := take_while (fun c => (c =? 47)%N) (rev s)) in *.
  set (dr := drop (length tw) (rev s)) in *.
  exists (length tw). split.
  - rewrite <- (rev_involutive s) at 1. rewrite Hs, rev_app_distr. f_equal.
    clear Hs Hhd dr. induction Hall as [|c l Hc _ IH]; [done|].
    apply N.eqb_eq in Hc as ->. cbn [rev length repeat]. rewrite IH.
    by rewrite <- repeat_cons.
  - rewrite last_rev. destruct dr as [|c dr']; [done|].
    cbn [head]. intros [= ->]. done.
Qed.

(** X18: [build_report_link] strips the base of surrounding white space
    and of every trailing slash; it returns [None] when nothing is left and
    otherwise the base, one slash and the path with each path separator
    turned into a slash, so the part before the joining slash never ends with
    a slash; the path keeps its length, and holds no separator afterwards
    unless the separator is the slash itself, in which case it is
    unchanged. *)
Theorem build_report_link_joins_with_one_slash
    (os_sep : N) (report_base_url report_path : pystr) :
  exists base k,
    strip report_base_url = base ++ repeat 47%N k
    /\ last base <> Some 47%N
    /\ main.build_report_link os_sep report_base_url report_path
       = match base with
         | [] => None
         | _ => Some (base ++ [47%N] ++ main.replace_sep os_sep report_path)
         end
    /\ length (main.replace_sep os_sep report_path) = length report_path
    /\ (os_sep <> 47%N -> os_sep ∉ main.replace_sep os_sep report_path)
    /\ (os_sep = 47%N -> main.replace_sep os_sep report_path = report_path).
Proof.
  destruct (rstrip_slash_spec (strip report_base_url)) as (k & Hs & Hl).
  exists (main.rstrip_slash (strip report_base_url)), k.
  split; [done|]. split; [done|]. split; [done|].
  unfold main.replace_sep. split; [by rewrite length_map|]. split.
  - intros Hne (c & Hc & _)%list_elem_of_fmap.
    destruct (c =? os_sep)%N eqn:E; [congruence|]. apply N.eqb_neq in E. congruence.
  - intros ->. rewrite <- (map_id report_path) at 2. apply map_ext. intros c.
    destruct (c =? 47)%N eqn:E; [|done]. by apply N.eqb_eq in E.
Qed.

Lemma build_report_link_witness :
  (92%N ∉ main.replace_sep 92 (u "2025\04.md"))
  /\ main.build_report_link 92 (u " https://example.org/reports// ") (u "2025\04.md")
     = Some (u "https://example.org/reports/2025/04.md").
Proof.
  destruct (build_report_link_joins_with_one_slash 92
              (u " https://example.org/reports// ") (u "2025\04.md"))
    as (base & k & _ & _ & _ & _ & Hsep & _).
  split; [by apply Hsep|reflexivity].
Defined.

(** ** main.py: from the clock to the document reports *)

Lemma match_org_some orgs_ text n :
  match_org orgs_ text = Some n ->
  exists org, org ∈ orgs_ /\ name org = n /\ qualifies org text.
Proof.
  induction orgs_ as [|org rest IH]; [done|]. cbn [match_org]. cbv zeta.
  destruct ((4 <=? Z.of_nat (length (norm org)))
            && contains (norm org) (norm_text text)) eqn:E.
  - intros [= <-]. apply qualifies_test in E. exists org.
    split; [apply elem_of_cons; by left|done].
  - intros H. destruct (IH H) as (o & Ho & Hn & Hq). exists o.
    split; [apply elem_of_cons; by right|done].
Qed.

Lemma matched_sublist (orgs_ : list Org) (docs : list DocItem) :
  List.map (fun t : pystr * pystr * pystr * option date * pystr => t.1.1.1.2)
    (flat_map (fun d => match match_org orgs_ (title d) with
                        | Some (c :: n) => [(c :: n, nid d, title d, pub_date d, url d)]
                        | _ => []
                        end) docs)
  `sublist_of` List.map nid docs.
Proof.
  induction docs as [|d docs IH]; [constructor|]. cbn [flat_map List.map].
  destruct (match_org orgs_ (title d)) as [[|c n]|]; cbn [app List.map].
  - by apply sublist_cons.
  - by apply sublist_skip.
  - by apply sublist_cons.
Qed.

Lemma filter_sublist {A} (f : A -> bool) (l : list A) : List.filter f l `sublist_of` l.
Proof.
  induction l as [|x l IH]; [constructor|]. cbn [List.filter].
  destruct (f x); [by apply sublist_skip|by apply sublist_cons].
Qed.

(** X19: when the target month and the roster load but the first listing
    request fails, the run of [main] ends with [TypeError] ("'NoneType'
    object is not iterable") at the month filter, after exactly that one
    request: no document is reported. *)
Theorem main_reports_probe_failure_is_a_type_error
    (w : World) (urljoin : pystr -> pystr -> pystr)
    (parse_query : pystr -> list (pystr * list pystr)) (unquote : pystr -> pystr)
    (str_lower : pystr -> pystr) (json_dumps : pyval -> result pystr)
    (excel_read : list N -> result (list (pystr * list parse_xlsx.RowRecord)))
    (opengov_http_timeout_sec : Z) (summary_provider : pystr)
    (kst_now : date) (orgs_sheet : DataFrame) (seen_file : state.SeenFile)
    (opengov_max_pages opengov_stop_after_empty
     quarter_buffer_days quarter_lookback_count : Z) (h : list Event)
    (month_start month_end : date) (orgs_ : list Org) (e : exn) :
  let target_ym := prev_month kst_now in
  let target_y :=
    if ym_month target_ym <=? 2 then ym_year target_ym - 1 else ym_year target_ym in
  month_range target_ym = Ok (month_start, month_end) ->
  load_orgs_from_xlsx orgs_sheet = Ok orgs_ ->
  http_get w h (opengov.list_page_url target_y 1 50) opengov_http_timeout_sec
  = Raise e ->
  main.main_reports w urljoin parse_query unquote str_lower json_dumps excel_read
    opengov_http_timeout_sec summary_provider kst_now orgs_sheet seen_file
    opengov_max_pages opengov_stop_after_empty quarter_buffer_days
    quarter_lookback_count h
  = (Raise (Exn TypeError (u "'NoneType' object is not iterable")),
     h ++ [Get (opengov.list_page_url target_y 1 50) opengov_http_timeout_sec]).
Proof.
  intros target_ym target_y Hm Ho Hg. unfold main.main_reports. cbv zeta.
  fold target_ym. rewrite Hm, Ho. unfold opengov.fetch_docs_all. cbv zeta.
  fold target_y.
  by rewrite (fetch_total_count_raises w opengov_http_timeout_sec 50 target_y h e Hg).
Qed.

Lemma main_reports_probe_failure_witness :
  main.main_reports offline join_path (fun _ => []) (fun s => s) ascii_lower
    dumps_outcome no_excel 30 (u "none") (Date 2025 5 15)
    [(u "orgs_nm", [Some (u "Seoul Metro")])] state.NoFile 300 2 30 8 []
  = (Raise (Exn TypeError (u "'NoneType' object is not iterable")),
     [Get (opengov.list_page_url 2025 1 50) 30]).
Proof.
  apply (main_reports_probe_failure_is_a_type_error offline join_path (fun _ => [])
           (fun s => s) ascii_lower dumps_outcome no_excel 30 (u "none")
           (Date 2025 5 15) [(u "orgs_nm", [Some (u "Seoul Metro")])] state.NoFile
           300 2 30 8 [] (Date 2025 4 1) (Date 2025 5 1)
           [mkOrg (u "Seoul Metro") (norm_text (u "Seoul Metro"))] refused);
    reflexivity.
Defined.

(** X20: when the run of [main] reaches the report, the seen set holds
    everything the state file held, the request history has only been
    extended, no document is reported twice, and every reported document was
    published in the target month (the month before now) and carries the
    name of a roster organization that qualifies for its title. *)
Theorem main_reports_cover_the_target_month
    (w : World) (urljoin : pystr -> pystr -> pystr)
    (parse_query : pystr -> list (pystr * list pystr)) (unquote : pystr -> pystr)
    (str_lower : pystr -> pystr) (json_dumps : pyval -> result pystr)
    (excel_read : list N -> result (list (pystr * list parse_xlsx.RowRecord)))
    (opengov_http_timeout_sec : Z) (summary_provider : pystr)
    (kst_now : date) (orgs_sheet : DataFrame) (seen_file : state.SeenFile)
    (opengov_max_pages opengov_stop_after_empty
     quarter_buffer_days quarter_lookback_count : Z) (h : list Event) :
  match main.main_reports w urljoin parse_query unquote str_lower json_dumps
          excel_read opengov_http_timeout_sec summary_provider kst_now orgs_sheet
          seen_file opengov_max_pages opengov_stop_after_empty quarter_buffer_days
          quarter_lookback_count h with
  | (Ok (_, doc_reports, seen'), h') =>
      state.load_seen seen_file ⊆ seen'
      /\ (exists added, h' = h ++ added)
      /\ NoDup (List.map main.dr_nid doc_reports)
      /\ Forall (fun r =>
                   (exists p, main.dr_pub_date r = Some p
                              /\ year p = ym_year (prev_month kst_now)
                              /\ month p = ym_month (prev_month kst_now))
                   /\ exists orgs_ org,
                        load_orgs_from_xlsx orgs_sheet = Ok orgs_
                        /\ org ∈ orgs_ /\ name org = main.dr_org r
                        /\ qualifies org (main.dr_title r))
                doc_reports
  | (Raise _, _) => True
  end.
Proof.
  unfold main.main_reports. cbv zeta.
  destruct (month_range (prev_month kst_now)) as [[month_start month_end]|e0] eqn:Hm;
    [|done].
  destruct (load_orgs_from_xlsx orgs_sheet) as [orgs_|e0] eqn:Ho; [|done].
  destruct (fetch_docs_all_fresh w urljoin (prev_month kst_now) opengov_max_pages
              opengov_stop_after_empty opengov_http_timeout_sec 200 50 h)
    as (r & h1 & Hrun & Hr).
  destruct (fetch_docs_all_trace w urljoin (prev_month kst_now) opengov_max_pages
              opengov_stop_after_empty opengov_http_timeout_sec 200 50 h)
    as (r0 & added1 & Hrun0 & _).
  rewrite Hrun in Hrun0. injection Hrun0 as <- ->. rewrite Hrun.
  destruct r as [docs|]; [|done]. destruct Hr as [Hnd Hl].
  destruct (compute_quarter_status orgs_ docs kst_now quarter_buffer_days
              quarter_lookback_count) as [qs|e0]; [|done].
  pose proof (process_docs_spec w urljoin parse_query unquote str_lower json_dumps
                excel_read opengov_http_timeout_sec summary_provider orgs_
                (month_docs docs month_start month_end) []
                (state.load_seen seen_file)
                (h ++ Get (opengov.list_page_url
                             (if ym_month (prev_month kst_now) <=? 2
                              then ym_year (prev_month kst_now) - 1
                              else ym_year (prev_month kst_now)) 1 50)
                          opengov_http_timeout_sec :: added1)) as Hp.
  destruct (main.process_docs _ _ _ _ _ _ _ _ _ _ _ _ _ _)
    as [[[doc_reports seen']|e0] h2]; [|done].
  destruct Hp as (Hs & [added2 ->] & new & Hnew & Hmap). cbn [app] in Hnew. subst new.
  split; [done|]. split; [by eexists; rewrite <- app_assoc|]. split.
  - replace (List.map main.dr_nid doc_reports)
      with (List.map (fun t : pystr * pystr * pystr * option date * pystr => t.1.1.1.2)
              (List.map (fun r => (main.dr_org r, main.dr_nid r, main.dr_title r,
                                   main.dr_pub_date r, main.dr_doc_url r)) doc_reports))
      by (rewrite List.map_map; done).
    rewrite Hmap. refine (sublist_NoDup _ _ _ (matched_sublist _ _)).
    refine (sublist_NoDup _ _ Hnd _).
    apply (fmap_sublist nid). apply filter_sublist.
  - apply Forall_forall. intros r Hr.
    assert (Hin : (main.dr_org r, main.dr_nid r, main.dr_title r,
                   main.dr_pub_date r, main.dr_doc_url r)
                  ∈ flat_map (fun d => match match_org orgs_ (title d) with
                                       | Some (c :: n) =>
                                           [(c :: n, nid d, title d, pub_date d, url d)]
                                       | _ => []
                                       end) (month_docs docs month_start month_end)).
    { rewrite <- Hmap. apply list_elem_of_fmap. by exists r. }
    apply list_elem_of_In, in_flat_map in Hin as (d & Hd & Hin).
    destruct (match_org orgs_ (title d)) as [[|c n]|] eqn:Em; [done| |done].
    destruct Hin as [Heq|[]]. injection Heq as <- _ <- <- _.
    unfold month_docs in Hd. apply filter_In in Hd as [Hd Hmonth].
    unfold is_doc_in_month in Hmonth.
    destruct (pub_date d) as [p|] eqn:Hp; [|done].
    rewrite Forall_forall in Hl. apply list_elem_of_In in Hd.
    destruct (listed_facts urljoin d (Hl d Hd)) as (_ & _ & Hv & _).
    destruct (valid_date_bounds p (Hv p Hp)) as (_ & Hpm & Hpd).
    split.
    + exists p. split; [done|].
      by apply (in_month_range (prev_month kst_now) month_start month_end p Hm);
        [lia|lia|].
    + destruct (match_org_some orgs_ (title d) (c :: n) Em) as (org & Horg & Hn & Hq).
      by exists orgs_, org.
Qed.

(** ** main.py: the statuses, counted in days *)

Lemma quarter_deadline_ordinal y q buffer_days :
  1 <= q <= 4 -> 1 <= y <= 9999 ->
  1 <= toordinal (Date y (3 * q) (days_in_month y (3 * q))) + buffer_days <= MAXORDINAL ->
  exists dl,
    quarter_deadline y q buffer_days = Ok dl
    /\ valid_date dl = true
    /\ toordinal dl
       = toordinal (Date y (3 * q) (days_in_month y (3 * q))) + buffer_days.
Proof.
  intros Hq Hy Hr. destruct (quarter_end_date_ok y q Hq Hy) as [He Hv].
  unfold quarter_deadline. rewrite He. cbn [Py.bind].
  destruct (date_add_days_spec _ buffer_days Hv) as [Hin _]. exact (Hin Hr).
Qed.

Lemma report_keys_In orgs_ today org yq :
  In org orgs_ -> In yq (report_quarters today) ->
  In (key_of org yq) (report_keys orgs_ today).
Proof.
  intros Ho Hq. unfold report_keys. apply in_flat_map. exists org.
  split; [done|]. by apply in_map.
Qed.

Lemma reported_deadline orgs_ docs today buffer_days lookback_count res org yq :
  compute_quarter_status orgs_ docs today buffer_days lookback_count = Ok res ->
  In org orgs_ -> In yq (report_quarters today) ->
  (exists st, res !! key_of org yq = Some st)
  /\ exists dl, quarter_deadline (yq_year yq) (yq_quarter yq) buffer_days = Ok dl.
Proof.
  intros Hrun Ho Hq.
  apply compute_quarter_status_inv in Hrun as (found & Hscan & Hfill).
  destruct (Hfill (key_of org yq)) as [Hin _].
  destruct (Hin (report_keys_In orgs_ today org yq Ho Hq)) as (st & Hres & Hst).
  split; [by exists st|].
  destruct Hst as [Hfound|[_ Hgap]].
  - pose proof (found_spec orgs_ buffer_days docs found Hscan (key_of org yq))
      as (Hok & Hlate & _).
    pose proof (scan_spec orgs_ buffer_days docs ∅ found Hscan) as (_ & Htwo & _).
    assert (Hobs : exists st', observed orgs_ buffer_days docs (key_of org yq) st').
    { destruct (Htwo ltac:(by intros k0 s0; rewrite lookup_empty) _ _ Hfound) as [->| ->].
      - exists OK. by apply Hok.
      - by destruct (proj1 Hlate Hfound) as [Hex _]. }
    destruct Hobs as (st' & d & _ & Hobs).
    destruct (observe_deadline orgs_ buffer_days d _ st' Hobs) as (dl & Hdl & _).
    by exists dl.
  - destruct (gap_status_values today buffer_days _ st Hgap) as (_ & dl & Hdl & _).
    by exists dl.
Qed.





(** ** main.py: what the table depends on *)

(** X22: two runs of [compute_quarter_status] on the same roster, day and
    buffer return the same table whenever their document lists give the same
    observations for every reported pair, whatever else differs: the order of
    the documents, repeated documents, documents of other organizations or
    quarters, or the look-back count. *)
Theorem quarter_status_depends_on_reported_observations
    (orgs_ : list Org) (docs docs' : list DocItem) (today : date)
    (buffer_days lookback_count lookback_count' : Z)
    (res res' : gmap Key Status) :
  compute_quarter_status orgs_ docs today buffer_days lookback_count = Ok res ->
  compute_quarter_status orgs_ docs' today buffer_days lookback_count' = Ok res' ->
  (forall k st, In k (report_keys orgs_ today) ->
                (observed orgs_ buffer_days docs k st
                 <-> observed orgs_ buffer_days docs' k st)) ->
  res = res'.
Proof.
  intros Hrun Hrun' Hsame.
  apply compute_quarter_status_inv in Hrun as (found & Hscan & Hfill).
  apply compute_quarter_status_inv in Hrun' as (found' & Hscan' & Hfill').
  pose proof (found_spec orgs_ buffer_days docs found Hscan) as Hf.
  pose proof (found_spec orgs_ buffer_days docs' found' Hscan') as Hf'.
  pose proof (scan_spec orgs_ buffer_days docs ∅ found Hscan) as (_ & Htwo & _).
  pose proof (scan_spec orgs_ buffer_days docs' ∅ found' Hscan') as (_ & Htwo' & _).
  assert (Hlook : forall k, In k (report_keys orgs_ today) -> found !! k = found' !! k).
  { intros k Hk. destruct (Hf k) as (Hok & Hlate & Hnone).
    destruct (Hf' k) as (Hok' & Hlate' & Hnone').
    destruct (found !! k) as [s|] eqn:E.
    - destruct (Htwo ltac:(by intros k0 s0; rewrite lookup_empty) k s E) as [->| ->].
      + symmetry. apply Hok'. apply (Hsame k OK Hk). by apply Hok.
      + symmetry. apply Hlate'. destruct (proj1 Hlate eq_refl) as [[st Hst] Hno]. split.
        * exists st. by apply (Hsame k st Hk).
        * intros H. apply Hno. by apply (Hsame k OK Hk).
    - symmetry. apply Hnone'. intros st H. apply (proj1 Hnone eq_refl st).
      by apply (Hsame k st Hk). }
  apply map_eq. intros k. destruct (Hfill k) as [Hin Hout]. destruct (Hfill' k) as [Hin' Hout'].
  destruct (In_dec_key k (report_keys orgs_ today)) as [Hk|Hk].
  - destruct (Hin Hk) as (st & -> & Hst). destruct (Hin' Hk) as (st' & -> & Hst').
    f_equal. unfold final_status in Hst, Hst'. rewrite <- (Hlook k Hk) in Hst'.
    destruct Hst as [H1|[H1 H2]], Hst' as [H3|[H3 H4]]; congruence.
  - by rewrite (Hout Hk), (Hout' Hk).
Qed.


Lemma quarter_status_depends_witness :
  exists res,
    compute_quarter_status [seoul_metro] [metro_q1_late; metro_q1_undated]
                           (Date 2025 5 15) 30 8 = Ok res
    /\ compute_quarter_status [seoul_metro]
         [metro_q1_undated; metro_q1_late; metro_q1_late] (Date 2025 5 15) 30 4 = Ok res.
Proof.
  destruct (compute_quarter_status_returns [seoul_metro]
              [metro_q1_late; metro_q1_undated] (Date 2025 5 15) 30 8) as [res Hres].
  { lia. } { cbn [year]; lia. }
  { intros d y q [<-|[<-|[]]] H; vm_compute in H; injection H as <- _; lia. }
  destruct (compute_quarter_status_returns [seoul_metro]
              [metro_q1_undated; metro_q1_late; metro_q1_late] (Date 2025 5 15) 30 4)
    as [res' Hres'].
  { lia. } { cbn [year]; lia. }
  { intros d y q [<-|[<-|[<-|[]]]] H; vm_compute in H; injection H as <- _; lia. }
  assert (Hsame : forall k st,
             In k (report_keys [seoul_metro] (Date 2025 5 15)) ->
             (observed [seoul_metro] 30 [metro_q1_late; metro_q1_undated] k st
              <-> observed [seoul_metro] 30
                    [metro_q1_undated; metro_q1_late; metro_q1_late] k st)).
  { intros k st _. split; intros (d & Hd & Ho); exists d; (split; [|exact Ho]).
    - destruct Hd as [Hd|[Hd|[]]]; [right; left; exact Hd|left; exact Hd].
    - destruct Hd as [Hd|[Hd|[Hd|[]]]];
        [right; left; exact Hd|left; exact Hd|left; exact Hd]. }
  exists res. split; [exact Hres|].
  assert (res = res') as ->; [|exact Hres'].
  exact (quarter_status_depends_on_reported_observations [seoul_metro]
           [metro_q1_late; metro_q1_undated]
           [metro_q1_undated; metro_q1_late; metro_q1_late]
           (Date 2025 5 15) 30 8 4 res res' Hres Hres' Hsame).
Defined.

(** ** state.py *)

Lemma str_le_refl a : state.str_le a a = true.
Proof.
  induction a as [|x a IH]; [done|]. cbn [state.str_le].
  rewrite N.eqb_refl, IH. cbn [andb]. apply orb_true_r.
Qed.

Lemma str_le_total a : forall b, state.str_le a b = true \/ state.str_le b a = true.
Proof.
  induction a as [|x a IH]; intros [|y b]; cbn [state.str_le]; auto.
  destruct (N.lt_trichotomy x y) as [H|[->|H]].
  - left. apply N.ltb_lt in H. by rewrite H.
  - rewrite N.eqb_refl, N.ltb_irrefl. cbn [orb andb]. apply IH.
  - right. apply N.ltb_lt in H. by rewrite H.
Qed.

Lemma str_le_trans a : forall b c,
  state.str_le a b = true -> state.str_le b c = true -> state.str_le a c = true.
Proof.
  induction a as [|x a IH]; intros [|y b] [|z c]; cbn [state.str_le]; try done.
  rewrite !orb_true_iff, !andb_true_iff, !N.ltb_lt, !N.eqb_eq.
  intros [H1|[-> H1]] [H2|[-> H2]].
  - left. lia.
  - by left.
  - by left.
  - right. split; [done|]. by apply (IH b c).
Qed.

Lemma str_le_antisym a : forall b,
  state.str_le a b = true -> state.str_le b a = true -> a = b.
Proof.
  induction a as [|x a IH]; intros [|y b]; cbn [state.str_le]; try done.
  rewrite !orb_true_iff, !andb_true_iff, !N.ltb_lt, !N.eqb_eq.
  intros [H1|[-> H1]] [H2|[H2 H3]]; try lia. f_equal. by apply IH.
Qed.

(** X23: [save_seen] writes the keys of the set once each, in ascending
    order; loading what was saved gives the set back and saving that again
    writes the same file; a key listed twice in the file is loaded once; a
    missing file and a file without ["seen_keys"] load as the empty set. *)
Theorem save_seen_writes_sorted_distinct_keys (seen_ : gset pystr) :
  exists keys,
    state.save_seen seen_ = state.SeenJson (Some keys)
    /\ NoDup keys
    /\ StronglySorted (fun a b => state.str_le a b = true) keys
    /\ (forall k, k ∈ keys <-> k ∈ seen_)
    /\ state.load_seen (state.save_seen seen_) = seen_
    /\ state.save_seen (state.load_seen (state.save_seen seen_)) = state.save_seen seen_
    /\ (forall keys', state.load_seen (state.SeenJson (Some (keys' ++ keys')))
                      = state.load_seen (state.SeenJson (Some keys')))
    /\ state.load_seen state.NoFile = ∅
    /\ state.load_seen (state.SeenJson None) = ∅.
Proof.
  exists (state.sorted seen_). split; [done|].
  assert (Hperm : state.sorted seen_ ≡ₚ elements seen_).
  { apply merge_sort_Permutation. }
  split; [|split; [|split; [|split; [|split; [|split; [|done]]]]]].
  - rewrite Hperm. apply NoDup_elements.
  - assert (Htrans : Transitive (fun a b : pystr => Is_true (state.str_le a b))).
    { intros a b c H1 H2. apply Is_true_true. apply Is_true_true in H1, H2.
      by apply (str_le_trans a b c). }
    assert (Htotal : Total (fun a b : pystr => Is_true (state.str_le a b))).
    { intros a b. destruct (str_le_total a b) as [H|H]; [left|right];
        by apply Is_true_true. }
    pose proof (StronglySorted_merge_sort
                  (fun a b : pystr => Is_true (state.str_le a b)) (elements seen_)) as Hs.
    unfold state.sorted.
    induction Hs as [|a l Hl IH Hall]; constructor; [done|].
    eapply Forall_impl; [exact Hall|]. intros b Hb. by apply Is_true_true.
  - intros k. rewrite Hperm. apply elem_of_elements.
  - apply load_save_seen.
  - by rewrite load_save_seen.
  - intros keys'. cbn [state.load_seen]. rewrite list_to_set_app_L. set_solver.
Qed.

(** ** parse_xlsx.py *)

Lemma fold_left_add_lengths {A} (l : list (pystr * list A)) : forall acc,
  fold_left (fun acc sh => acc + Z.of_nat (length (snd sh))) l acc
  = acc + Z.of_nat (length (concat (List.map snd l))).
Proof.
  induction l as [|sh l IH]; intros acc; cbn [fold_left List.map concat].
  - simpl. lia.
  - rewrite IH, length_app. lia.
Qed.

(** X24: for a non-negative row limit [parse_xlsx_bytes] raises what
    reading the workbook raises and otherwise returns every sheet, in order
    and under its name, cut to its first [max_rows_per_sheet] rows; the
    statistics give the number of sheets, the number of rows kept over all
    sheets, which is at most sheets times limit, and the limit. *)
Theorem parse_xlsx_bytes_caps_every_sheet
    (excel_read : list N -> result (list (pystr * list parse_xlsx.RowRecord)))
    (xlsx_bytes : list N) (max_rows_per_sheet : Z) :
  0 <= max_rows_per_sheet ->
  match excel_read xlsx_bytes with
  | Raise e =>
      parse_xlsx.parse_xlsx_bytes excel_read xlsx_bytes max_rows_per_sheet = Raise e
  | Ok xls =>
      exists parsed,
        parse_xlsx.parse_xlsx_bytes excel_read xlsx_bytes max_rows_per_sheet = Ok parsed
        /\ Forall2 (fun sh out =>
                      fst out = fst sh
                      /\ snd out = take (Z.to_nat max_rows_per_sheet) (snd sh)
                      /\ Z.of_nat (length (snd out))
                         = Z.min (Z.of_nat (length (snd sh))) max_rows_per_sheet)
                   xls (parse_xlsx.sheets parsed)
        /\ exists total,
             parse_xlsx.stats parsed
             = [(u "sheet_count", Z.of_nat (length xls));
                (u "total_rows_loaded", total);
                (u "max_rows_per_sheet", max_rows_per_sheet)]
             /\ total
                = Z.of_nat (length (concat (List.map snd (parse_xlsx.sheets parsed))))
             /\ 0 <= total <= Z.of_nat (length xls) * max_rows_per_sheet
  end.
Proof.
  intros Hmax. unfold parse_xlsx.parse_xlsx_bytes.
  destruct (excel_read xlsx_bytes) as [xls|e]; cbn [Py.bind]; [|done].
  eexists. split; [done|]. cbn [parse_xlsx.sheets parse_xlsx.stats].
  split.
  - induction xls as [|sh xls IH]; constructor; [|done].
    cbn [fst snd]. split; [done|]. split; [done|]. rewrite length_take. lia.
  - eexists. split; [by rewrite length_map|]. rewrite fold_left_add_lengths. split; [lia|].
    split; [lia|]. rewrite Z.add_0_l.
    induction xls as [|sh xls IH]; [simpl; lia|].
    cbn [List.map concat length fst snd]. rewrite length_app, length_take. lia.
Qed.

Lemma parse_xlsx_bytes_witness :
  exists parsed,
    parse_xlsx.parse_xlsx_bytes
      (fun _ => Ok [(u "Sheet1", [[(u "a", u "1")]; [(u "a", u "2")]; [(u "a", u "3")]])])
      [] 2
    = Ok parsed
    /\ List.map (fun sh => length (snd sh)) (parse_xlsx.sheets parsed) = [2%nat].
Proof.
  destruct (parse_xlsx_bytes_caps_every_sheet
              (fun _ => Ok [(u "Sheet1", [[(u "a", u "1")]; [(u "a", u "2")];
                                          [(u "a", u "3")]])])
              [] 2 ltac:(lia)) as (parsed & Hp & _).
  exists parsed. split; [exact Hp|]. injection Hp as <-. reflexivity.
Defined.

(** ** summarize.py: truncation *)

(** X25: for a non-negative bound [_truncate] returns a text of at most
    the bound's length unchanged, and cuts a longer one to its first
    [max_chars] characters followed by a line break and "...[truncated]"
    (15 characters); the result never exceeds [max_chars + 15] characters and
    agrees with the text on the first [max_chars] characters. *)
Theorem truncate_keeps_prefix_within_bound (s : pystr) (max_chars : Z) :
  0 <= max_chars ->
  let r := summarize._truncate s max_chars in
  (Z.of_nat (length s) <= max_chars -> r = s)
  /\ (max_chars < Z.of_nat (length s) ->
      r = take (Z.to_nat max_chars) s ++ [10%N] ++ u "...[truncated]"
      /\ Z.of_nat (length r) = max_chars + 15)
  /\ Z.of_nat (length r) <= max_chars + 15
  /\ take (Z.to_nat max_chars) r = take (Z.to_nat max_chars) s.
Proof.
  intros Hmax r. subst r. unfold summarize._truncate.
  destruct (Z.of_nat (length s) <=? max_chars) eqn:E.
  - apply Z.leb_le in E. split; [done|]. split; [lia|]. split; [lia|done].
  - apply Z.leb_gt in E.
    assert (Hlen : length (take (Z.to_nat max_chars) s) = Z.to_nat max_chars).
    { rewrite length_take. lia. }
    assert (Hall : Z.of_nat (length (take (Z.to_nat max_chars) s ++ [10%N]
                                     ++ u "...[truncated]")) = max_chars + 15).
    { rewrite length_app, Hlen. change (length ([10%N] ++ u "...[truncated]")) with 15%nat.
      lia. }
    split; [lia|]. split; [done|]. split; [lia|].
    rewrite take_app_le by lia. rewrite take_take. f_equal. lia.
Qed.

Lemma truncate_witness :
  summarize._truncate (u "abcdef") 4 = u "abcd" ++ [10%N] ++ u "...[truncated]"
  /\ summarize._truncate (u "abcd") 4 = u "abcd".
Proof.
  destruct (truncate_keeps_prefix_within_bound (u "abcdef") 4 ltac:(lia))
    as (_ & Hlong & _).
  destruct (truncate_keeps_prefix_within_bound (u "abcd") 4 ltac:(lia))
    as (Hshort & _).
  split.
  - apply Hlong. vm_compute. reflexivity.
  - apply Hshort. vm_compute. discriminate.
Defined.

(** ** orgs.py: the roster *)

Lemma skip_spaces_head s :
  match skip_spaces s with c :: _ => isspace c = false | [] => True end.
Proof.
  induction s as [|c s IH]; [done|]. cbn [skip_spaces].
  destruct (isspace c) eqn:E; [done|]. exact E.
Qed.

Lemma skip_spaces_fixed s :
  match s with c :: _ => isspace c = false | [] => True end -> skip_spaces s = s.
Proof. destruct s as [|c s]; [done|]. cbn [skip_spaces]. by intros ->. Qed.

Lemma strip_strip s : strip (strip s) = strip s.
Proof.
  unfold strip.
  set (a := skip_spaces s).
  set (b := skip_spaces (rev a)).
  pose proof (skip_spaces_head s) as Ha. fold a in Ha.
  pose proof (skip_spaces_head (rev a)) as Hb. fold b in Hb.
  destruct (skip_spaces_suffix (rev a)) as [pre Hpre]. fold b in Hpre.
  assert (Hrb : skip_spaces (rev b) = rev b).
  { apply skip_spaces_fixed.
    assert (Haeq : a = rev b ++ rev pre).
    { rewrite <- (rev_involutive a), Hpre, rev_app_distr. done. }
    destruct (rev b) as [|c rb] eqn:E; [done|].
    rewrite Haeq in Ha. exact Ha. }
  rewrite Hrb, rev_involutive. by rewrite (skip_spaces_fixed b Hb).
Qed.

(** X26: [load_orgs_from_xlsx] raises [ValueError] when the sheet has no
    ["orgs_nm"] column or when every cell of it is empty or blank; otherwise
    it returns a non-empty roster holding, in sheet order and with repeats
    kept, the stripped non-blank cells as names, each name non-empty and
    free of surrounding white space, with its normalized form beside it. *)
Theorem load_orgs_from_xlsx_roster (df : DataFrame) :
  match load_orgs_from_xlsx df with
  | Ok orgs_ =>
      orgs_ <> []
      /\ Forall (fun o => name o <> [] /\ strip (name o) = name o
                          /\ norm o = norm_text (name o)) orgs_
      /\ exists cells,
           column df (u "orgs_nm") = Some cells
           /\ List.map name orgs_
              = flat_map (fun cell => match cell with
                                      | Some v => match strip v with
                                                  | [] => []
                                                  | v' => [v']
                                                  end
                                      | None => []
                                      end) cells
  | Raise e =>
      exn_cls e = ValueError
      /\ (column df (u "orgs_nm") = None
          \/ exists cells,
               column df (u "orgs_nm") = Some cells
               /\ Forall (fun cell => match cell with
                                      | Some v => strip v = []
                                      | None => True
                                      end) cells)
  end.
Proof.
  unfold load_orgs_from_xlsx.
  destruct (column df (u "orgs_nm")) as [cells|]; [|split; [done|by left]].
  set (orgs_ := flat_map _ cells).
  assert (Hall : Forall (fun o => name o <> [] /\ strip (name o) = name o
                                  /\ norm o = norm_text (name o)) orgs_
                 /\ List.map name orgs_
                    = flat_map (fun cell => match cell with
                                            | Some v => match strip v with
                                                        | [] => []
                                                        | v' => [v']
                                                        end
                                            | None => []
                                            end) cells
                 /\ (orgs_ = [] ->
                     Forall (fun cell => match cell with
                                         | Some v => strip v = []
                                         | None => True
                                         end) cells)).
  { subst orgs_. induction cells as [|cell cells (IH1 & IH2 & IH3)].
    - split; [constructor|]. split; [done|]. intros _. constructor.
    - cbn [flat_map]. destruct cell as [v|]; cbn [app].
      + destruct (strip v) as [|c v'] eqn:Es; cbn [app List.map].
        * split; [done|]. split; [done|]. intros H. constructor; [done|by apply IH3].
        * split; [|split; [by rewrite IH2|done]].
          constructor; [|done]. cbn [name norm]. split; [done|]. split; [|done].
          rewrite <- Es. apply strip_strip.
      + split; [done|]. split; [done|]. intros H. constructor; [done|by apply IH3]. }
  destruct Hall as (H1 & H2 & H3).
  destruct orgs_ as [|o rest] eqn:E.
  - split; [done|]. right. exists cells. split; [done|]. by apply H3.
  - split; [done|]. split; [done|]. by exists cells.
Qed.

(** ** report.py: the quarter section of the report *)

Lemma for_each_returns {A S} (f : S -> A -> result S) (xs : list A) :
  (forall x s, In x xs -> exists s', f s x = Ok s') ->
  forall s, exists s', for_each f xs s = Ok s'.
Proof.
  induction xs as [|x xs IH]; intros Hf s; [by exists s|].
  cbn [for_each]. destruct (Hf x s (or_introl eq_refl)) as [s1 ->]. cbn [Py.bind].
  apply IH. intros x' s' Hx'. apply Hf. by right.
Qed.

(** X27: given the table [compute_quarter_status] returned for a roster and
    a day, every cell of the quarter section for an organization of that
    roster and a reporting quarter of that day shows one of the four
    statuses, never "UNKNOWN", with [LATE] and [MISSING] set in bold
    italics; and for a non-empty roster [build_quarter_section] returns: no
    deadline of its header fails. *)
Theorem quarter_section_shows_a_status_in_every_cell
    (orgs_ : list Org) (docs : list DocItem) (today : date)
    (buffer_days lookback_count lookback_count' : Z) (res : gmap Key Status) :
  compute_quarter_status orgs_ docs today buffer_days lookback_count = Ok res ->
  (forall org yq,
      In org (List.map name orgs_) -> In yq (report_quarters today) ->
      exists st,
        res !! ((org, yq_year yq, yq_quarter yq) : Key) = Some st
        /\ report.status_text res org yq = report.status_str st
        /\ report.status_text res org yq <> u "UNKNOWN"
        /\ report.status_cell res org yq
           = match st with
             | LATE | MISSING => u "***" ++ report.status_str st ++ u "***|"
             | _ => report.status_str st ++ u "|"
             end)
  /\ (orgs_ <> [] ->
      exists text,
        report.build_quarter_section (List.map name orgs_) res today buffer_days
                                     lookback_count' = Ok text).
Proof.
  intros Hrun. split.
  - intros org yq Ho Hq. apply in_map_iff in Ho as (o & <- & Ho).
    destruct (reported_deadline orgs_ docs today buffer_days lookback_count res o yq
                Hrun Ho Hq) as [[st Hst] _].
    unfold key_of in Hst. exists st. split; [done|].
    unfold report.status_cell, report.status_text. cbv zeta. rewrite Hst.
    split; [done|]. split; destruct st; done.
  - intros Hne. destruct orgs_ as [|o rest]; [done|].
    unfold report.build_quarter_section. cbv zeta.
    destruct (for_each_returns (report.header_cell buffer_days) (report_quarters today))
      with (s := (u "## 분기별 업로드 상태(기관별)" ++ [10%N; 10%N]) ++ u "|**기관명**|")
      as [out Hout].
    { intros yq s Hq.
      destruct (reported_deadline (o :: rest) docs today buffer_days lookback_count res
                  o yq Hrun (or_introl eq_refl) Hq) as [_ [dl Hdl]].
      unfold report.header_cell. rewrite Hdl. cbn [Py.bind]. by eexists. }
    rewrite Hout. cbn [Py.bind]. by eexists.
Qed.

Lemma quarter_section_witness :
  exists res text,
    compute_quarter_status three_orgs [] (Date 2025 4 1) 30 8 = Ok res
    /\ report.status_text res (u "Seoul Metro") (mkYearQuarter 2025 1) <> u "UNKNOWN"
    /\ report.build_quarter_section (List.map name three_orgs) res (Date 2025 4 1) 30 8
       = Ok text.
Proof.
  destruct (compute_quarter_status_returns three_orgs [] (Date 2025 4 1) 30 8)
    as [res Hres].
  { lia. } { cbn [year]; lia. } { intros d y q []. }
  destruct (quarter_section_shows_a_status_in_every_cell three_orgs [] (Date 2025 4 1)
              30 8 8 res Hres) as [Hcells Htext].
  destruct (Htext ltac:(done)) as [text Ht].
  destruct (Hcells (u "Seoul Metro") (mkYearQuarter 2025 1)) as (st & _ & _ & Hu & _).
  { left. reflexivity. }
  { left. reflexivity. }
  exists res, text. split; [exact Hres|]. split; [exact Hu|exact Ht].
Defined.
